(** * AskDeen batch request compilation: a shallow embedding

    The two scripts [openai_subtopics_batch_input.py] and
    [openai_tags_batch_input.py] load a JSON dataset of verses, pick the
    verses to process, render one prompt per verse and write one request
    per line to a JSONL file.  This development embeds them as Rocq
    functions over a small model of the Python values that [json.load]
    produces, and proves the properties the specification states about
    them.

    Conventions.
    - A Python [str] is a Rocq [string] holding its UTF-8 bytes; a lone
      surrogate, which [json.load] can build from an escape and which
      UTF-8 cannot encode, is held as the three bytes its code point
      would take (ED, then A0 to BF, then one more).
    - A Python [dict] is its list of items in insertion order; lookup
      takes the first item with the key (the keys of a dict are unique).
    - A dataset is a JSON array of objects, as the scripts expect: a list
      of dicts whose values are arbitrary JSON values.  A source that
      holds well-formed JSON of another shape is outside the model.
    - A Python exception is a [Raise] result; [print] calls are left out
      (console reporting has no effect on the values computed).
    - The file system is a finite map from paths to file contents; a
      write to an open file fails only when its text cannot be encoded.
    - Of [main], which fixes the file names and the filter and prints
      what [create_batch_file] returns or raises, the effect on the files
      is embedded.
    - [OSError] stands for the class: where [open] fails the model does
      not tell its subclasses apart, except that reading a path that is
      not there raises [FileNotFoundError]. *)

From Stdlib Require Import String Ascii ZArith List Lia DecimalString.
From stdpp Require Import base option list gmap strings.

Open Scope Z_scope.

(** ** Python values and exceptions *)

Module Py.

(** The values [json.load] builds.  A float is carried as the text
    [float.__repr__] prints for it: the scripts never compute with one. *)
#[warnings="-register-all"]
Inductive value :=
| VNone
| VBool (b : bool)
| VInt (n : Z)
| VFloat (repr : string)
| VStr (s : string)
| VList (items : list value)
| VDict (items : list (string * value)).

Abbreviation dict := (list (string * value)).

Inductive exn :=
| KeyError (key : string)
| TypeError
| AttributeError
| IndexError
| FileNotFoundError
| OSError
| ValueError
| UnicodeEncodeError.

Inductive result (A : Type) :=
| Ok (a : A)
| Raise (e : exn).
Arguments Ok {A} a.
Arguments Raise {A} e.

Definition bind {A B} (r : result A) (k : A -> result B) : result B :=
  match r with
  | Ok a => k a
  | Raise e => Raise e
  end.

Notation "'let*' x := r 'in' k" := (bind r (fun x => k))
  (at level 10, x pattern, r at level 100, k at level 200).

Definition is_ok {A} (r : result A) : bool :=
  match r with Ok _ => true | Raise _ => false end.

(** Characters that cannot be typed inside a string literal. *)
Definition dq : string := String (ascii_of_nat 34) EmptyString.
Definition nl : string := String (ascii_of_nat 10) EmptyString.
Definition blank : string := EmptyString.

(** [str(n)] for an [int]. *)
Definition str_int (n : Z) : string := NilZero.string_of_int (Z.to_int n).

(** Truth value testing, as [if x:] and [not x] do it. *)
Definition float_is_zero (repr : string) : bool :=
  (String.eqb repr "0.0" || String.eqb repr "-0.0")%bool.

Definition truthy (v : value) : bool :=
  match v with
  | VNone => false
  | VBool b => b
  | VInt n => negb (n =? 0)
  | VFloat r => negb (float_is_zero r)
  | VStr s => negb (String.eqb s EmptyString)
  | VList items => match items with [] => false | _ => true end
  | VDict items => match items with [] => false | _ => true end
  end.

(** ** dict operations *)

Fixpoint dict_lookup (d : dict) (key : string) : option value :=
  match d with
  | [] => None
  | (k, v) :: rest => if String.eqb k key then Some v else dict_lookup rest key
  end.

(** [key in d] *)
Definition dict_contains (d : dict) (key : string) : bool :=
  match dict_lookup d key with Some _ => true | None => false end.

(** [d.get(key, default)] *)
Definition dict_get (d : dict) (key : string) (default : value) : value :=
  match dict_lookup d key with Some v => v | None => default end.

(** [d[key]] *)
Definition dict_getitem (d : dict) (key : string) : result value :=
  match dict_lookup d key with Some v => Ok v | None => Raise (KeyError key) end.

(** ** list operations *)

(** [l[i]] for a Python int [i]: negative indices count from the end. *)
Definition list_getitem {A} (l : list A) (i : Z) : result A :=
  let n := Z.of_nat (length l) in
  let j := if i <? 0 then i + n else i in
  if (0 <=? j) && (j <? n) then
    match l !! Z.to_nat j with Some x => Ok x | None => Raise IndexError end
  else Raise IndexError.

(** [enumerate(l)] *)
Definition enumerate {A} (l : list A) : list (nat * A) := imap pair l.

(** ** str operations *)

(** The characters of a [str]: a UTF-8 continuation byte (10xxxxxx) stays
    with the byte before it. *)
Definition is_continuation (c : ascii) : bool :=
  let n := N_of_ascii c in ((128 <=? n) && (n <? 192))%N.

Fixpoint str_chars (s : string) : list string :=
  match s with
  | EmptyString => []
  | String c s' =>
      match s' with
      | EmptyString => [String c EmptyString]
      | String c' _ =>
          if is_continuation c' then
            match str_chars s' with
            | h :: t => String c h :: t
            | [] => [String c EmptyString]
            end
          else String c EmptyString :: str_chars s'
      end
  end.

(** The items of an iterable must all be [str] for [sep.join]. *)
Fixpoint all_str (items : list value) : result (list string) :=
  match items with
  | [] => Ok []
  | VStr s :: rest => let* ss := all_str rest in Ok (s :: ss)
  | _ :: _ => Raise TypeError
  end.

(** [sep.join(v)]: a list gives its items, a dict its keys, a str its
    characters; anything else is not iterable. *)
Definition str_join (sep : string) (v : value) : result string :=
  match v with
  | VList items => let* ss := all_str items in Ok (String.concat sep ss)
  | VDict items => Ok (String.concat sep (map fst items))
  | VStr s => Ok (String.concat sep (str_chars s))
  | VNone | VBool _ | VInt _ | VFloat _ => Raise TypeError
  end.

(** [v.startswith(prefix)]: only [str] has the method. *)
Definition startswith (v : value) (prefix : string) : result bool :=
  match v with
  | VStr s => Ok (String.prefix prefix s)
  | _ => Raise AttributeError
  end.

(** ** json.dumps(v, ensure_ascii=False) *)

Definition backslash : ascii := ascii_of_nat 92.

Definition esc (c : ascii) : string := String backslash (String c EmptyString).

Definition hex_digit (n : N) : ascii :=
  if (n <? 10)%N then ascii_of_N (48 + n) else ascii_of_N (87 + n).

(** One character of a string body: the quote, the backslash and the
    control characters below 0x20 are escaped, everything else (all
    non-ASCII bytes included) is copied. *)
Definition escape_char (c : ascii) : string :=
  let n := N_of_ascii c in
  if (n =? 34)%N then esc c
  else if (n =? 92)%N then esc c
  else if (n =? 8)%N then esc "b"
  else if (n =? 12)%N then esc "f"
  else if (n =? 10)%N then esc "n"
  else if (n =? 13)%N then esc "r"
  else if (n =? 9)%N then esc "t"
  else if (n <? 32)%N then
    String backslash
      (String "u" (String "0" (String "0"
        (String (hex_digit (n / 16)) (String (hex_digit (n mod 16)) EmptyString)))))
  else String c EmptyString.

Fixpoint escape_body (s : string) : string :=
  match s with
  | EmptyString => EmptyString
  | String c s' => escape_char c +:+ escape_body s'
  end.

Definition encode_basestring (s : string) : string := dq +:+ escape_body s +:+ dq.

Definition float_dumps (repr : string) : string :=
  if String.eqb repr "nan" then "NaN"
  else if String.eqb repr "inf" then "Infinity"
  else if String.eqb repr "-inf" then "-Infinity"
  else repr.

Fixpoint json_dumps (v : value) : string :=
  match v with
  | VNone => "null"
  | VBool true => "true"
  | VBool false => "false"
  | VInt n => str_int n
  | VFloat r => float_dumps r
  | VStr s => encode_basestring s
  | VList items => "[" +:+ String.concat ", " (map json_dumps items) +:+ "]"
  | VDict items =>
      "{" +:+ String.concat ", "
                (map (fun kv => encode_basestring (fst kv) +:+ ": " +:+ json_dumps (snd kv))
                     items) +:+ "}"
  end.

(** ** The runtime the scripts run on

    What the scripts take from Python and from the machine: [py_repr] is
    [repr] on lists and dicts (what an f-string prints for them),
    [json_load] is [json.load] on the text of a file that holds a JSON
    array of objects or no JSON at all ([None] when it raises: the text
    does not decode or is not well-formed), [readable]
    and [writable] say whether [open] succeeds on an existing file for
    reading and on a path for writing. *)
Class Runtime := {
  py_repr : value -> string;
  json_load : string -> option (list dict);
  readable : string -> bool;
  writable : string -> bool
}.

(** [str(v)], as an f-string field [{v}] formats it. *)
Definition py_str `{Runtime} (v : value) : string :=
  match v with
  | VStr s => s
  | VNone => "None"
  | VBool true => "True"
  | VBool false => "False"
  | VInt n => str_int n
  | VFloat r => r
  | VList _ | VDict _ => py_repr v
  end.

(** ** Files *)

Abbreviation files := (gmap string string).

(** The body of [load_dataset]: open the file for reading, then
    [json.load]. *)
Definition read_json `{Runtime} (fs : files) (file_path : string) : result (list dict) :=
  match fs !! file_path with
  | None => Raise FileNotFoundError
  | Some text =>
      if readable file_path then
        match json_load text with
        | Some data => Ok data
        | None => Raise ValueError
        end
      else Raise OSError
  end.

(** The text of the output file after a write loop that wrote every
    request: [json.dumps(request, ensure_ascii=False)] and a line feed for
    each. *)
Definition jsonl (requests : list value) : string :=
  fold_left (fun text request => text +:+ json_dumps request +:+ nl) requests EmptyString.

(** A text the utf-8 codec refuses: it holds a surrogate. *)
Definition is_surrogate_lead (c : ascii) : bool := (N_of_ascii c =? 237)%N.

Definition is_surrogate_second (s : string) : bool :=
  match s with
  | String d _ => ((160 <=? N_of_ascii d) && (N_of_ascii d <? 192))%N
  | EmptyString => false
  end.

Fixpoint has_surrogate (s : string) : bool :=
  match s with
  | EmptyString => false
  | String c s' => (is_surrogate_lead c && is_surrogate_second s') || has_surrogate s'
  end.

(** The write loop of [create_batch_file]: [f.write] encodes the line it
    is given, so a line with a surrogate raises [UnicodeEncodeError]
    there, after the lines before it have been written. *)
Fixpoint write_loop (requests : list value) (written : string) : result unit * string :=
  match requests with
  | [] => (Ok tt, written)
  | request :: rest =>
      let line := json_dumps request +:+ nl in
      if has_surrogate line then (Raise UnicodeEncodeError, written)
      else write_loop rest (written +:+ line)
  end.

(** Opening with mode w truncates the file; leaving the [with] block
    closes it with what was written, also when the loop raised. *)
Definition write_jsonl `{Runtime} (fs : files) (output_file : string)
    (requests : list value) : result unit * files :=
  if writable output_file then
    let (outcome, text) := write_loop requests EmptyString in
    (outcome, <[output_file := text]> fs)
  else (Raise OSError, fs).

End Py.

(** ** openai_subtopics_batch_input.py *)

Module Subtopics.
Import Py.

(** The fixed part of the prompt template, one entry per line. *)
Definition prompt_preamble : list string :=
  [
    "You are an expert Islamic scholar specializing in Quranic interpretation and semantic analysis. Your task is to refine and clean subtopics for a given Quranic verse, ensuring maximum relevance, accuracy, and precision.";
    blank;
    "## Core Objectives:";
    "### 1. Relevance Analysis";
    "- **Direct Connection**: Keep only subtopics that directly relate to the verse's explicit content";
    "- **Contextual Relevance**: Include subtopics that connect to the verse's broader thematic context";
    "- **Semantic Precision**: Ensure subtopics capture the specific meaning, not just general concepts";
    blank;
    "### 2. Quality Control";
    "- **Theological Accuracy**: Verify all subtopics align with authentic Islamic teachings";
    "- **Linguistic Precision**: Correct spelling, grammar, and formatting";
    "- **Conceptual Clarity**: Ensure subtopics are clear and unambiguous";
    blank;
    "### 3. Deduplication Process";
    "- **Exact Duplicates**: Remove identical entries";
    "- **Semantic Duplicates**: Merge similar concepts (e.g., " +:+ dq +:+ "Adoption" +:+ dq +:+ " and " +:+ dq +:+ "Adopted sons" +:+ dq +:+ " → " +:+ dq +:+ "Adoption" +:+ dq +:+ ")";
    "- **Hierarchical Duplicates**: Remove overly specific terms when broader terms exist";
    "- **Linguistic Variations**: Consolidate Arabic/English variations of same concept";
    blank;
    "## Filtering Criteria:";
    "### KEEP subtopics that are:";
    "- **Explicitly mentioned** in the verse text";
    "- **Core theological concepts** directly addressed";
    "- **Key legal/jurisprudential terms** specifically relevant";
    "- **Precise Arabic terminology** when more accurate than English";
    "- **Actionable concepts** that users would search for";
    blank;
    "### REMOVE subtopics that are:";
    "- **Too generic** (e.g., " +:+ dq +:+ "Islam" +:+ dq +:+ ", " +:+ dq +:+ "Quran" +:+ dq +:+ ", " +:+ dq +:+ "God" +:+ dq +:+ " unless specifically relevant)";
    "- **Tangentially related** (mentioned in broader chapter context but not this verse)";
    "- **Redundant** (covered by other, better subtopics)";
    "- **Misspelled or poorly formatted**";
    "- **Overly specific** without clear connection to verse meaning";
    "- **Grammatical fragments** (e.g., " +:+ dq +:+ "speaks the truth" +:+ dq +:+ " when " +:+ dq +:+ "Truth" +:+ dq +:+ " suffices)";
    blank;
    "## Refinement Process:";
    "1. **Extract Core Themes**: Identify 3-5 main concepts from the verse";
    "2. **Map Subtopics**: Match existing subtopics to these core themes";
    "3. **Consolidate Synonyms**: Merge related terms into single, best representation";
    "4. **Verify Theological Accuracy**: Cross-check against Islamic scholarship";
    "5. **Optimize for Searchability**: Ensure terms users would actually search for";
    "6. **Prioritize Precision**: Prefer specific, accurate terms over generic ones";
    blank;
    "## Input Format:";
    "Target Verse:";
    blank;
    "Arabic: [Arabic text]";
    "Translation 1: [English translation]";
    "Translation 2: [English translation]";
    "Translation 3: [English translation] ";
    "Existing Subtopics: [List of current subtopics]";
    blank;
    "## Output Requirements:";
    "Return **only** valid JSON in this exact format:";
    "{";
    "  " +:+ dq +:+ "cleaned_subtopics" +:+ dq +:+ ": [";
    "    " +:+ dq +:+ "subtopic1" +:+ dq +:+ ",";
    "    " +:+ dq +:+ "subtopic2" +:+ dq +:+ ",";
    "    " +:+ dq +:+ "subtopic3" +:+ dq;
    "  ]";
    "}";
    "Quality Metrics:";
    "Relevance Score: Each subtopic should have direct textual or thematic connection";
    "Uniqueness: No semantic overlap between final subtopics";
    "Precision: Specific enough to be meaningful, general enough to be searchable";
    "Accuracy: Theologically sound and linguistically correct";
    "Example Refinement:";
    "Before: [" +:+ dq +:+ "inheritance" +:+ dq +:+ ", " +:+ dq +:+ "succession" +:+ dq +:+ ", " +:+ dq +:+ "Mirath" +:+ dq +:+ ", " +:+ dq +:+ "adapted sons" +:+ dq +:+ ", " +:+ dq +:+ "Sons" +:+ dq +:+ ", " +:+ dq +:+ "Child" +:+ dq +:+ "]";
    "After: [" +:+ dq +:+ "Inheritance" +:+ dq +:+ ", " +:+ dq +:+ "succession" +:+ dq +:+ ", " +:+ dq +:+ "adapted sons" +:+ dq +:+ "]";
    blank;
    "Remember: The goal is to create a precise, non-redundant set of subtopics that capture the verse's essential meaning and themes while being optimized for user search behavior.";
    blank;
    "Target Verse:";
    blank
  ].

Section Script.
Context `{Runtime}.

Definition load_dataset (fs : files) (file_path : string) : result (list dict) :=
  read_json fs file_path.

(** [for i in range(1, 4)]: the truthy translations, in key order. *)
Fixpoint collect_translations (range : list Z) (target_verse : dict)
    (translations : list value) : list value :=
  match range with
  | [] => translations
  | i :: rest =>
      let trans_key := "translation" +:+ str_int i in
      match dict_lookup target_verse trans_key with
      | Some trans =>
          if truthy trans then collect_translations rest target_verse (translations ++ [trans])
          else collect_translations rest target_verse translations
      | None => collect_translations rest target_verse translations
      end
  end.

(** [enumerate(l, start=1)] *)
Definition enumerate_from (start : Z) {A} (l : list A) : list (Z * A) :=
  imap (fun i x => (start + Z.of_nat i, x)) l.

Definition translation_line (it : Z * value) : string :=
  "Translation " +:+ str_int (fst it) +:+ ": " +:+ dq +:+ py_str (snd it) +:+ dq.

Definition translations_text_of (target_verse : dict) : string :=
  let translations := collect_translations [1; 2; 3] target_verse [] in
  String.concat nl (map translation_line (enumerate_from 1 translations)).

Definition subtopics_str_of (target_verse : dict) : result string :=
  let subtopics := dict_get target_verse "subtopic" (VList []) in
  if truthy subtopics then str_join ", " subtopics else Ok "No subtopics provided".

Definition create_prompt (target_verse : dict) : result string :=
  let translations_text := translations_text_of target_verse in
  let arabic_text := dict_get target_verse "arabic" (VStr "No Arabic text provided") in
  let* subtopics_str := subtopics_str_of target_verse in
  Ok (String.concat nl
        (prompt_preamble ++
         ["Arabic: " +:+ py_str arabic_text;
          "Translations: " +:+ translations_text;
          "Existing Subtopics: " +:+ subtopics_str;
          blank])).

(** The request built for one verse. *)
Definition batch_request (custom_id : value) (prompt : string) : value :=
  VDict
    [("custom_id", custom_id);
     ("method", VStr "POST");
     ("url", VStr "/v1/chat/completions");
     ("body", VDict
        [("model", VStr "gpt-4.1-2025-04-14");
         ("messages", VList
            [VDict [("role", VStr "system");
                    ("content", VStr "You are an expert Islamic scholar. Always respond with valid JSON only.")];
             VDict [("role", VStr "user");
                    ("content", VStr prompt)]]);
         ("max_tokens", VInt 300);
         ("temperature", VFloat "0.1")])].

(** The loop of the filter step: it keeps, with its index, every verse
    whose id starts with the prefix; a verse with no id counts as having
    the empty id. *)
Fixpoint filter_loop (prefix : string) (items : list (nat * dict))
    (filtered_data : list (nat * dict)) : result (list (nat * dict)) :=
  match items with
  | [] => Ok filtered_data
  | (i, verse) :: rest =>
      let* hit := startswith (dict_get verse "id" (VStr EmptyString)) prefix in
      filter_loop prefix rest
        (if hit then filtered_data ++ [(i, verse)] else filtered_data)
  end.

Definition filter_verses (data : list dict) (surah_filter : value)
    : result (list (nat * dict)) :=
  if truthy surah_filter then
    filter_loop (py_str surah_filter +:+ "|") (enumerate data) []
  else Ok (enumerate data).

(** [if 'subtopic' not in target_verse or not target_verse['subtopic']: continue] *)
Definition no_subtopics (target_verse : dict) : bool :=
  match dict_lookup target_verse "subtopic" with
  | Some subtopic => negb (truthy subtopic)
  | None => true
  end.

(** The loop that builds the requests: a verse without subtopics is
    skipped, any other gets its prompt and then its request. *)
Fixpoint request_loop (filtered_data : list (nat * dict))
    (batch_requests : list value) : result (list value) :=
  match filtered_data with
  | [] => Ok batch_requests
  | (original_index, target_verse) :: rest =>
      if no_subtopics target_verse then request_loop rest batch_requests
      else
        let* prompt := create_prompt target_verse in
        let* custom_id := dict_getitem target_verse "id" in
        request_loop rest (batch_requests ++ [batch_request custom_id prompt])
  end.

(** The requests of a run over a loaded dataset. *)
Definition batch_requests_of (data : list dict) (surah_filter : value)
    : result (list value) :=
  let* filtered_data := filter_verses data surah_filter in
  request_loop filtered_data [].

(** A run: the value returned (or the exception raised) and the files
    afterwards. *)
Definition create_batch_file (fs : files) (input_file output_file : string)
    (surah_filter : value) : result Z * files :=
  match load_dataset fs input_file with
  | Raise e => (Raise e, fs)
  | Ok data =>
      match batch_requests_of data surah_filter with
      | Raise e => (Raise e, fs)
      | Ok batch_requests =>
          match write_jsonl fs output_file batch_requests with
          | (Raise e, fs') => (Raise e, fs')
          | (Ok _, fs') => (Ok (Z.of_nat (length batch_requests)), fs')
          end
      end
  end.

(** [main]: the fixed configuration, the check that the input exists and
    the call of [create_batch_file] under a handler that catches every
    exception; the sample it reads back is only printed.  What is left of
    it here is its effect on the files. *)
Definition main (fs : files) : files :=
  let input_file := "dataset.json" in
  let output_file := "_openai_subtopic_batch_requests.jsonl" in
  let surah_filter := VStr "114" in
  match fs !! input_file with
  | None => fs
  | Some _ => snd (create_batch_file fs input_file output_file surah_filter)
  end.

End Script.
End Subtopics.

(** ** openai_tags_batch_input.py *)

Module Tags.
Import Py.

(** The fixed lines of the prompt template before and after the fields. *)
Definition prompt_preamble : list string :=
  [
    "You are an expert Islamic scholar specializing in Quranic interpretation and semantic analysis. Your task is to generate concise and meaningful tags for a Target Quranic verse, making them relevant to general user queries about Islamic beliefs, practices, history, and ethical guidance.";
    blank;
    "You will be provided:";
    "- The verse immediately before and after (with Arabic and one translation for context)";
    "- The target verse with Arabic text, three translations, and existing scholarly topics/subtopics";
    blank;
    "## Objective:";
    "Generate 2 tags for the Target Verse that will help users discover the verse through natural-language religious queries, such as:";
    "- " +:+ dq +:+ "What does Islam say about zakat?" +:+ dq;
    "- " +:+ dq +:+ "How were the Israelites saved in Islam?" +:+ dq;
    "- " +:+ dq +:+ "Are there Quranic stories of origin of life?" +:+ dq;
    "- " +:+ dq +:+ "What does the Quran say about women rights?" +:+ dq;
    blank;
    "These tags will be used in a Quran search tool that indexes verses semantically.";
    blank;
    "## Tag Guidelines:";
    "- Use phrases that match likely user queries (e.g., " +:+ dq +:+ "Quran on tyranny" +:+ dq +:+ ", " +:+ dq +:+ "story of Israelites" +:+ dq +:+ ")";
    "- Do not repeat the verse text; instead, summarize key themes in searchable language";
    "- Consider:";
    "  * Historical events (e.g., Israelites' rescue)";
    "  * Ethical and social issues (e.g., persecution, gendered violence)";
    "  * Sectors of society (e.g., women, children, oppressed)";
    "  * Broader Islamic teachings (e.g., divine justice, trials of the believers)";
    "- Tags should be specific, concise, and searchable";
    "- Prioritize relevance to Islamic themes commonly asked about";
    blank;
    "## Context Information:";
    blank;
    "Previous Verse:"
  ].

Definition prompt_epilogue : list string :=
  [
    blank;
    "## Output Format:";
    "Return only valid JSON in this exact format:";
    "{";
    "  " +:+ dq +:+ "tags" +:+ dq +:+ ": [" +:+ dq +:+ "tag1" +:+ dq +:+ ", " +:+ dq +:+ "tag2" +:+ dq +:+ "]";
    "}"
  ].

Section Script.
Context `{Runtime}.

Definition load_dataset (fs : files) (file_path : string) : result (list dict) :=
  read_json fs file_path.

(** [prev_verse] and [next_verse] are [None] or a verse. *)
Definition verse_truthy (verse : option dict) : bool :=
  match verse with
  | None => false
  | Some d => truthy (VDict d)
  end.

Definition get_verse_context (data : list dict) (current_index : Z)
    : result (option dict * dict * option dict) :=
  let* current_verse := list_getitem data current_index in
  let* prev_verse :=
    if 0 <? current_index then
      let* v := list_getitem data (current_index - 1) in Ok (Some v)
    else Ok None in
  let* next_verse :=
    if current_index <? Z.of_nat (length data) - 1 then
      let* v := list_getitem data (current_index + 1) in Ok (Some v)
    else Ok None in
  Ok (prev_verse, current_verse, next_verse).

Definition format_context_verse (verse : option dict) (verse_type : string) : string :=
  match verse with
  | Some d =>
      if truthy (VDict d) then
        let arabic_text := dict_get d "arabic" (VStr "No Arabic text available") in
        let translation1 := dict_get d "translation1" (VStr "No translation available") in
        "Arabic: " +:+ py_str arabic_text +:+ nl +:+ "Translation: " +:+ py_str translation1
      else "No " +:+ verse_type +:+ " available"
  | None => "No " +:+ verse_type +:+ " available"
  end.

Definition list_str_of (target_verse : dict) (key placeholder : string) : result string :=
  let items := dict_get target_verse key (VList []) in
  if truthy items then str_join ", " items else Ok placeholder.

Definition create_tags_prompt (prev_verse : option dict) (target_verse : dict)
    (next_verse : option dict) : result string :=
  let prev_text :=
    if verse_truthy prev_verse then format_context_verse prev_verse "previous verse"
    else "No previous verse available" in
  let next_text :=
    if verse_truthy next_verse then format_context_verse next_verse "next verse"
    else "No next verse available" in
  let target_arabic := dict_get target_verse "arabic" (VStr "No Arabic text available") in
  let target_translation1 :=
    dict_get target_verse "translation1" (VStr "No translation1 available") in
  let target_translation2 :=
    dict_get target_verse "translation2" (VStr "No translation2 available") in
  let target_translation3 :=
    dict_get target_verse "translation3" (VStr "No translation3 available") in
  let* topics_str := list_str_of target_verse "topic" "No topics provided" in
  let* subtopics_str := list_str_of target_verse "subtopic" "No subtopics provided" in
  Ok (String.concat nl
        (prompt_preamble ++
         [
          prev_text;
          blank;
          "Next Verse:";
          next_text;
          blank;
          "Target Verse:";
          "Arabic: " +:+ py_str target_arabic;
          "Translation1: " +:+ py_str target_translation1;
          "Translation2: " +:+ py_str target_translation2;
          "Translation3: " +:+ py_str target_translation3;
          "Topics: " +:+ topics_str;
          "Subtopics: " +:+ subtopics_str
         ] ++ prompt_epilogue)).

(** The request built for one verse. *)
Definition batch_request (custom_id : value) (prompt : string) : value :=
  VDict
    [("custom_id", custom_id);
     ("method", VStr "POST");
     ("url", VStr "/v1/chat/completions");
     ("body", VDict
        [("model", VStr "gpt-4.1-2025-04-14");
         ("messages", VList
            [VDict [("role", VStr "system");
                    ("content", VStr "You are an expert Islamic scholar specializing in Quranic interpretation. Always respond with valid JSON only.")];
             VDict [("role", VStr "user");
                    ("content", VStr prompt)]]);
         ("max_tokens", VInt 150);
         ("temperature", VFloat "0.1")])].

(** The loop of the filter step: it keeps the index of every verse whose
    id starts with the prefix; a verse with no id counts as having the
    empty id. *)
Fixpoint filter_loop (prefix : string) (items : list (nat * dict))
    (filtered_indices : list Z) : result (list Z) :=
  match items with
  | [] => Ok filtered_indices
  | (i, verse) :: rest =>
      let* hit := startswith (dict_get verse "id" (VStr EmptyString)) prefix in
      filter_loop prefix rest
        (if hit then filtered_indices ++ [Z.of_nat i] else filtered_indices)
  end.

(** [list(range(n))] *)
Definition range (n : nat) : list Z := map Z.of_nat (seq 0 n).

Definition filter_indices (data : list dict) (surah_filter : value) : result (list Z) :=
  if truthy surah_filter then
    filter_loop (py_str surah_filter +:+ "|") (enumerate data) []
  else Ok (range (length data)).

(** The body of the request loop for one index: the target, its context,
    the prompt, the request. *)
Definition request_at (data : list dict) (current_index : Z) : result value :=
  let* target_verse := list_getitem data current_index in
  let* ctx := get_verse_context data current_index in
  let '(prev_verse, current_verse, next_verse) := ctx in
  let* prompt := create_tags_prompt prev_verse target_verse next_verse in
  let* custom_id := dict_getitem target_verse "id" in
  Ok (batch_request custom_id prompt).

Fixpoint request_loop (data : list dict) (filtered_indices : list Z)
    (batch_requests : list value) : result (list value) :=
  match filtered_indices with
  | [] => Ok batch_requests
  | current_index :: rest =>
      let* batch_request := request_at data current_index in
      request_loop data rest (batch_requests ++ [batch_request])
  end.

(** The requests of a run over a loaded dataset. *)
Definition batch_requests_of (data : list dict) (surah_filter : value)
    : result (list value) :=
  let* filtered_indices := filter_indices data surah_filter in
  request_loop data filtered_indices [].

(** A run: the value returned (or the exception raised) and the files
    afterwards. *)
Definition create_batch_file (fs : files) (input_file output_file : string)
    (surah_filter : value) : result Z * files :=
  match load_dataset fs input_file with
  | Raise e => (Raise e, fs)
  | Ok data =>
      match batch_requests_of data surah_filter with
      | Raise e => (Raise e, fs)
      | Ok batch_requests =>
          match write_jsonl fs output_file batch_requests with
          | (Raise e, fs') => (Raise e, fs')
          | (Ok _, fs') => (Ok (Z.of_nat (length batch_requests)), fs')
          end
      end
  end.

(** [main]: the fixed configuration (the filter is the integer 1), the
    check that the input exists and the call of [create_batch_file] under
    a handler that catches every exception; the sample it reads back is
    only printed.  What is left of it here is its effect on the files. *)
Definition main (fs : files) : files :=
  let input_file := "dataset.json" in
  let output_file := "tags_batch_requests/Al-Faatiha_openai_tags_batch_requests.jsonl" in
  let surah_filter := VInt 1 in
  match fs !! input_file with
  | None => fs
  | Some _ => snd (create_batch_file fs input_file output_file surah_filter)
  end.

End Script.
End Tags.

(** ** Notions the specification uses *)

Module Spec.
Import Py.

(** *** The well-formed Record of the data model

    [id] is a string; [arabic] and the translations are strings when
    present; [topic] and [subtopic] are sequences of strings when
    present. *)
Definition is_str (v : value) : bool :=
  match v with VStr _ => true | _ => false end.

Definition is_str_list (v : value) : bool :=
  match v with VList items => forallb is_str items | _ => false end.

Definition optional (p : value -> bool) (r : dict) (key : string) : bool :=
  match dict_lookup r key with Some v => p v | None => true end.

Definition has_str_id (r : dict) : bool :=
  match dict_lookup r "id" with Some v => is_str v | None => false end.

Definition wf_record (r : dict) : bool :=
  has_str_id r
  && optional is_str r "arabic"
  && optional is_str r "translation1"
  && optional is_str r "translation2"
  && optional is_str r "translation3"
  && optional is_str_list r "topic"
  && optional is_str_list r "subtopic".

(** *** Selection *)

(** The group test as the scripts apply it: a falsy filter ([None], the
    empty string, [0]) lets every record pass. *)
Definition group_pass `{Runtime} (surah_filter : value) (r : dict) : bool :=
  if truthy surah_filter then
    match dict_get r "id" (VStr EmptyString) with
    | VStr s => String.prefix (py_str surah_filter +:+ "|") s
    | _ => false
    end
  else true.

(** The group test in the specification's words: with a filter [g]
    present, the id starts with [g] followed by a bar. *)
Definition group_test (group_filter : option string) (r : dict) : bool :=
  match group_filter with
  | None => true
  | Some g =>
      match dict_lookup r "id" with
      | Some (VStr s) => String.prefix (g +:+ "|") s
      | _ => false
      end
  end.

(** The required annotation is present and not empty. *)
Definition has_annotation (required_field : string) (r : dict) : bool :=
  match dict_lookup r required_field with
  | Some v => truthy v
  | None => false
  end.

(** Selection in the specification's words. *)
Definition select (group_filter : option string) (required_field : string)
    (data : list dict) : list dict :=
  List.filter (fun r => group_test group_filter r && has_annotation required_field r) data.

(** The filter argument a configuration stands for. *)
Definition filter_arg (group_filter : option string) : value :=
  match group_filter with
  | None => VNone
  | Some g => VStr g
  end.

(** The id test of the filter loops. *)
Definition id_starts (prefix : string) (r : dict) : bool :=
  match dict_get r "id" (VStr EmptyString) with
  | VStr s => String.prefix prefix s
  | _ => false
  end.

(** *** Requests *)

(** A member of a JSON object, and a member reached through nested
    objects. *)
Definition member (v : value) (key : string) : option value :=
  match v with
  | VDict items => dict_lookup items key
  | _ => None
  end.

Definition member_at (v : value) (keys : list string) : option value :=
  fold_left (fun found key => match found with Some w => member w key | None => None end)
            keys (Some v).

(** The message with the given role and content. *)
Definition message (role content : string) : value :=
  VDict [("role", VStr role); ("content", VStr content)].

(** The [custom_id] of a request. *)
Definition custom_id_of (request : value) : option value := member request "custom_id".

(** *** Context windows *)

Definition window_prev (data : list dict) (i : nat) : option dict :=
  match i with
  | O => None
  | S j => data !! j
  end.

Definition window_next (data : list dict) (i : nat) : option dict := data !! S i.

(** The tagging request for the record at canonical index [i], rendered
    with its canonical neighbours. *)
Definition tagging_request `{Runtime} (data : list dict) (i : nat) : result value :=
  match data !! i with
  | Some target =>
      let* prompt := Tags.create_tags_prompt (window_prev data i) target (window_next data i) in
      let* custom_id := dict_getitem target "id" in
      Ok (Tags.batch_request custom_id prompt)
  | None => Raise IndexError
  end.

(** The refinement request for a record. *)
Definition refinement_request `{Runtime} (r : dict) : result value :=
  let* prompt := Subtopics.create_prompt r in
  let* custom_id := dict_getitem r "id" in
  Ok (Subtopics.batch_request custom_id prompt).

(** *** Rendering *)

(** A field, or the placeholder when the record has no such field. *)
Definition field_or `{Runtime} (r : dict) (key placeholder : string) : string :=
  match dict_lookup r key with
  | Some v => py_str v
  | None => placeholder
  end.

(** The three translation fields the scripts read. *)
Definition translation_keys : list string :=
  ["translation1"; "translation2"; "translation3"]%string.

(** A field as the refinement prompt shows it: present and truthy. *)
Definition shown (r : dict) (key : string) : option value :=
  match dict_lookup r key with
  | Some v => if truthy v then Some v else None
  | None => None
  end.

(** The translations the refinement prompt shows, in key order. *)
Definition shown_translations (r : dict) : list value :=
  omap (shown r) translation_keys.

(** Translation lines numbered from 1 in list order. *)
Definition numbered_lines `{Runtime} (ts : list value) : list string :=
  imap (fun i t =>
          "Translation " +:+ str_int (Z.of_nat (S i)) +:+ ": " +:+ dq +:+ py_str t +:+ dq)
       ts.

(** The block a neighbour contributes to the tagging prompt. *)
Definition neighbour_block `{Runtime} (neighbour : option dict) (kind : string) : string :=
  match neighbour with
  | Some (item :: rest) =>
      let d := item :: rest in
      "Arabic: " +:+ field_or d "arabic" "No Arabic text available" +:+ nl +:+
      "Translation: " +:+ field_or d "translation1" "No translation available"
  | Some [] | None => "No " +:+ kind +:+ " available"
  end.

(** The record without one of its fields. *)
Definition without (key : string) (r : dict) : dict :=
  List.filter (fun kv => negb (String.eqb (fst kv) key)) r.

(** The strings of a list field; none when the field is absent. *)
Definition listed (r : dict) (key : string) : list string :=
  match dict_lookup r key with
  | Some (VList items) =>
      omap (fun v => match v with VStr s => Some s | _ => None end) items
  | _ => []
  end.

(** A list field joined with commas, or the placeholder when it is empty. *)
Definition joined_or (r : dict) (key placeholder : string) : string :=
  match listed r key with
  | [] => placeholder
  | items => String.concat ", " items
  end.

(** A neighbour that is absent or a well-formed record. *)
Definition wf_neighbour (neighbour : option dict) : bool :=
  match neighbour with
  | Some d => wf_record d
  | None => true
  end.

(** *** Text *)

(** The number of line feeds in a text. *)
Fixpoint count_nl (s : string) : nat :=
  match s with
  | EmptyString => O
  | String c s' => (if Ascii.eqb c (ascii_of_nat 10) then 1 else 0) + count_nl s'
  end.

(** [needle] occurs in [hay]. *)
Fixpoint occurs_in (needle hay : string) : bool :=
  String.prefix needle hay ||
  match hay with
  | EmptyString => false
  | String _ hay' => occurs_in needle hay'
  end.

(** A character [json.dumps] copies unchanged into a string body. *)
Definition copied (c : ascii) : bool :=
  let n := N_of_ascii c in
  (negb (n <? 32) && negb (n =? 34) && negb (n =? 92))%N.

Fixpoint all_chars (p : ascii -> bool) (s : string) : bool :=
  match s with
  | EmptyString => true
  | String c s' => p c && all_chars p s'
  end.

(** The text of a float holds no line feed (no [repr] of a float does). *)
Fixpoint floats_printable (v : value) : bool :=
  match v with
  | VFloat r => Nat.eqb (count_nl r) 0
  | VList items => forallb floats_printable items
  | VDict items => forallb (fun kv => floats_printable (snd kv)) items
  | _ => true
  end.

(** The line the writer adds for a request. *)
Definition request_line (request : value) : string := json_dumps request +:+ nl.

(** An exception of the loading step. *)
Definition load_error (e : exn) : bool :=
  match e with
  | FileNotFoundError | OSError | ValueError => true
  | _ => false
  end.

(** *** Failures *)

(** An id on which [startswith] cannot be called: present and not a
    string. *)
Definition bad_id (r : dict) : bool :=
  match dict_lookup r "id" with
  | Some (VStr _) | None => false
  | Some _ => true
  end.

(** A value [join] accepts: a list of strings, a dict or a string. *)
Definition joinable (v : value) : bool :=
  match v with
  | VList items => forallb is_str items
  | VDict _ | VStr _ => true
  | VNone | VBool _ | VInt _ | VFloat _ => false
  end.

(** A list field that makes a renderer fail: truthy and not joinable. *)
Definition unjoinable (r : dict) (key : string) : bool :=
  let v := dict_get r key (VList []) in
  truthy v && negb (joinable v).


(** *** Groups *)

(** A text with no bar in it. *)
Definition no_bar (s : string) : bool :=
  all_chars (fun c => negb (Ascii.eqb c "|")) s.

(** *** Reading a string body back *)

Definition hex_value (c : ascii) : N :=
  let n := N_of_ascii c in
  if (n <? 58)%N then (n - 48)%N else (n - 87)%N.

(** The character at the front of an escaped string body, and the text
    after it; nothing at the closing quote. *)
Definition decode_char (s : string) : option (ascii * string) :=
  match s with
  | EmptyString => None
  | String c rest =>
      if Ascii.eqb c backslash then
        match rest with
        | String e rest' =>
            if Ascii.eqb e "b" then Some (ascii_of_nat 8, rest')
            else if Ascii.eqb e "f" then Some (ascii_of_nat 12, rest')
            else if Ascii.eqb e "n" then Some (ascii_of_nat 10, rest')
            else if Ascii.eqb e "r" then Some (ascii_of_nat 13, rest')
            else if Ascii.eqb e "t" then Some (ascii_of_nat 9, rest')
            else if Ascii.eqb e "u" then
              match rest' with
              | String _ (String _ (String h (String l rest''))) =>
                  Some (ascii_of_N (16 * hex_value h + hex_value l), rest'')
              | _ => None
              end
            else Some (e, rest')
        | EmptyString => None
        end
      else if Ascii.eqb c (ascii_of_nat 34) then None
      else Some (c, rest)
  end.

(** *** Writing *)

(** A request whose line the utf-8 codec accepts. *)
Definition encodable (request : value) : bool :=
  negb (has_surrogate (json_dumps request +:+ nl)).

(** The requests before the first one the codec refuses. *)
Fixpoint written_before (requests : list value) : list value :=
  match requests with
  | [] => []
  | request :: rest => if encodable request then request :: written_before rest else []
  end.

(** The bytes of a text that are not ASCII (128 and above: the high bit
    is set), in order. *)
Definition high_bit (c : ascii) : bool :=
  match c with Ascii _ _ _ _ _ _ _ b => b end.

Fixpoint non_ascii (s : string) : string :=
  match s with
  | EmptyString => EmptyString
  | String c s' => if high_bit c then String c (non_ascii s') else non_ascii s'
  end.

(** The non-ASCII bytes of the strings a value holds, in the order
    [json.dumps] meets them. *)
Fixpoint value_non_ascii (v : value) : string :=
  match v with
  | VStr s => non_ascii s
  | VFloat r => non_ascii r
  | VList items => String.concat EmptyString (map value_non_ascii items)
  | VDict items =>
      String.concat EmptyString
        (map (fun kv => non_ascii (fst kv) +:+ value_non_ascii (snd kv)) items)
  | VNone | VBool _ | VInt _ => EmptyString
  end.

(** The ids of the records of a dataset. *)
Definition record_ids (data : list dict) : list (option value) :=
  map (fun r => dict_lookup r "id") data.

End Spec.

(** ** Concrete data for the examples *)

Module Examples.
Import Py.

(** A runtime on which every file can be opened and nothing parses. *)
Definition plain_runtime : Runtime :=
  {| py_repr := fun _ => "[...]";
     json_load := fun _ => None;
     readable := fun _ => true;
     writable := fun _ => true |}.

(** A verse with Arabic text, two of three translations and subtopics. *)
Definition verse_1_1 : dict :=
  [("id", VStr "1|1");
   ("arabic", VStr "بِسْمِ ٱللَّهِ");
   ("translation1", VStr "In the name of God");
   ("translation3", VStr "In the name of Allah");
   ("topic", VList [VStr "Mercy"]);
   ("subtopic", VList [VStr "Basmala"; VStr "Names of God"])].

Definition request_1_1 : value :=
  Subtopics.batch_request (VStr "1|1") "Arabic: بِسْمِ ٱللَّهِ".

(** The store of the end-to-end scenario: the second record has no
    subtopics, the third belongs to another group. *)
Definition verse_1_2 : dict :=
  [("id", VStr "1|2");
   ("arabic", VStr "ٱلْحَمْدُ لِلَّهِ");
   ("translation1", VStr "Praise be to God");
   ("subtopic", VList [])].

Definition verse_2_1 : dict :=
  [("id", VStr "2|1");
   ("translation1", VStr "Alif Lam Mim");
   ("subtopic", VList [VStr "Disjoined letters"])].

Definition store : list dict := [verse_1_1; verse_1_2; verse_2_1].

(** A verse whose only translation is a fourth one. *)
Definition verse_fourth : dict :=
  [("id", VStr "9|9");
   ("translation4", VStr "FOURTH TRANSLATION");
   ("subtopic", VList [VStr "Patience"])].

(** A verse whose first translation is present but empty, and whose
    subtopic list is empty. *)
Definition verse_gap : dict :=
  [("id", VStr "3|1");
   ("translation1", VStr EmptyString);
   ("translation2", VStr "Second");
   ("subtopic", VList [])].

(** Verses with an empty id and with no id. *)
Definition verse_blank_id : dict :=
  [("id", VStr EmptyString); ("subtopic", VList [VStr "Mercy"])].

Definition verse_no_id : dict :=
  [("arabic", VStr "نص"); ("subtopic", VList [VStr "Mercy"])].

(** A well-formed verse with no translation at all. *)
Definition verse_untranslated : dict :=
  [("id", VStr "4|1");
   ("arabic", VStr "نص");
   ("subtopic", VList [VStr "Mercy"])].

(** The requests of the refinement script for group 1 of the store. *)
Definition store_requests : list value :=
  match Subtopics.batch_requests_of (H := plain_runtime) store (VStr "1") with
  | Ok requests => requests
  | Raise _ => []
  end.

(** A runtime on which the text "store" parses to the store. *)
Definition store_runtime : Runtime :=
  {| py_repr := fun _ => "[...]";
     json_load := fun text => if String.eqb text "store" then Some store else None;
     readable := fun _ => true;
     writable := fun _ => true |}.

Definition store_files : files := {["dataset.json" := "store"]}.

(** Verses the loops fail on: a numeric id, a subtopic that is a number. *)
Definition verse_numeric_id : dict :=
  [("id", VInt 7); ("subtopic", VList [VStr "Mercy"])].

Definition verse_numeric_subtopic : dict :=
  [("id", VStr "5|1"); ("subtopic", VInt 3)].

(** A verse of group 11, whose id starts with the digit of group 1. *)
Definition verse_11_3 : dict :=
  [("id", VStr "11|3"); ("subtopic", VList [VStr "Prophets"])].

(** A verse whose Arabic text holds a lone surrogate, and a runtime on
    which the text "surrogate" parses to a dataset that ends with it. *)
Definition verse_surrogate : dict :=
  [("id", VStr "1|3");
   ("arabic", VStr (String (ascii_of_nat 237)
                      (String (ascii_of_nat 160) (String (ascii_of_nat 128) EmptyString))));
   ("subtopic", VList [VStr "Guidance"])].

Definition surrogate_store : list dict := [verse_1_1; verse_surrogate].

Definition surrogate_runtime : Runtime :=
  {| py_repr := fun _ => "[...]";
     json_load :=
       fun text => if String.eqb text "surrogate" then Some surrogate_store else None;
     readable := fun _ => true;
     writable := fun _ => true |}.

Definition surrogate_files : files := {["dataset.json" := "surrogate"]}.

End Examples.

(** * Properties *)

Import Py Spec.

(** ** Structural induction on values *)

Section ValueInduction.
Variable P : value -> Prop.
Hypothesis HNone : P VNone.
Hypothesis HBool : forall b, P (VBool b).
Hypothesis HInt : forall n, P (VInt n).
Hypothesis HFloat : forall r, P (VFloat r).
Hypothesis HStr : forall s, P (VStr s).
Hypothesis HList : forall items, Forall P items -> P (VList items).
Hypothesis HDict : forall items, Forall (fun kv => P (snd kv)) items -> P (VDict items).

Fixpoint value_nested_ind (v : value) : P v :=
  match v with
  | VNone => HNone
  | VBool b => HBool b
  | VInt n => HInt n
  | VFloat r => HFloat r
  | VStr s => HStr s
  | VList items =>
      HList items
        ((fix go (l : list value) : Forall P l :=
            match l with
            | [] => List.Forall_nil P
            | x :: l' => List.Forall_cons P x l' (value_nested_ind x) (go l')
            end) items)
  | VDict items =>
      HDict items
        ((fix go (l : list (string * value)) : Forall (fun kv => P (snd kv)) l :=
            match l with
            | [] => List.Forall_nil _
            | kv :: l' => List.Forall_cons _ kv l' (value_nested_ind (snd kv)) (go l')
            end) items)
  end.
End ValueInduction.

(** ** Text *)

Lemma count_nl_app (a b : string) : count_nl (a +:+ b) = (count_nl a + count_nl b)%nat.
Proof.
  induction a as [|c a IH]; simpl; [reflexivity|].
  rewrite IH. lia.
Qed.

Lemma count_nl_concat (sep : string) (parts : list string) :
  count_nl sep = O ->
  Forall (fun s => count_nl s = O) parts ->
  count_nl (String.concat sep parts) = O.
Proof.
  intros Hsep Hparts.
  induction Hparts as [|s rest Hs Hrest IH]; [reflexivity|].
  destruct rest as [|s' rest']; simpl.
  - exact Hs.
  - rewrite !count_nl_app, Hs, Hsep. simpl. exact IH.
Qed.

Lemma count_nl_escape_char (c : ascii) : count_nl (escape_char c) = O.
Proof.
  destruct c as [[] [] [] [] [] [] [] []]; vm_compute; reflexivity.
Qed.

Lemma count_nl_escape_body (s : string) : count_nl (escape_body s) = O.
Proof.
  induction s as [|c s IH]; simpl; [reflexivity|].
  rewrite count_nl_app, count_nl_escape_char, IH. reflexivity.
Qed.

Lemma count_nl_encode_basestring (s : string) : count_nl (encode_basestring s) = O.
Proof.
  unfold encode_basestring.
  rewrite !count_nl_app, count_nl_escape_body. reflexivity.
Qed.

Lemma count_nl_uint (d : Decimal.uint) : count_nl (NilEmpty.string_of_uint d) = O.
Proof. induction d; simpl; auto. Qed.

Lemma count_nl_str_int (n : Z) : count_nl (str_int n) = O.
Proof.
  unfold str_int, NilZero.string_of_int, NilZero.string_of_uint.
  destruct (Z.to_int n) as [d|d]; destruct d; simpl; auto using count_nl_uint.
Qed.

Lemma count_nl_float_dumps (r : string) : count_nl r = O -> count_nl (float_dumps r) = O.
Proof.
  intros Hr. unfold float_dumps.
  repeat match goal with |- context [if ?b then _ else _] => destruct b end;
    auto.
Qed.

Lemma json_dumps_one_line (v : value) :
  floats_printable v = true -> count_nl (json_dumps v) = O.
Proof.
  induction v as [| b | n | r | s | items IH | items IH] using value_nested_ind;
    intros Hv.
  - reflexivity.
  - destruct b; reflexivity.
  - apply count_nl_str_int.
  - apply count_nl_float_dumps. now apply Nat.eqb_eq.
  - apply count_nl_encode_basestring.
  - cbn [json_dumps floats_printable] in *.
    rewrite !count_nl_app.
    enough (count_nl (String.concat ", " (map json_dumps items)) = O) as ->
      by reflexivity.
    apply count_nl_concat; [reflexivity|].
    apply List.Forall_forall. intros line Hin.
    apply in_map_iff in Hin as (x & <- & Hx).
    rewrite forallb_forall in Hv. rewrite List.Forall_forall in IH.
    apply IH; auto.
  - cbn [json_dumps floats_printable] in *.
    rewrite !count_nl_app.
    match goal with
    | |- context [count_nl (String.concat ?sep ?parts)] =>
        enough (count_nl (String.concat sep parts) = O) as -> by reflexivity
    end.
    apply count_nl_concat; [reflexivity|].
    apply List.Forall_forall. intros line Hin.
    apply in_map_iff in Hin as ([k x] & <- & Hx).
    rewrite forallb_forall in Hv. rewrite List.Forall_forall in IH.
    rewrite !count_nl_app, count_nl_encode_basestring. simpl.
    apply (IH (k, x)); [|apply (Hv (k, x))]; auto.
Qed.

Lemma append_cons (c : ascii) (s t : string) : String c s +:+ t = String c (s +:+ t).
Proof. reflexivity. Qed.

Lemma append_empty_r (s : string) : s +:+ EmptyString = s.
Proof.
  induction s as [|c s IH]; [reflexivity|].
  now rewrite append_cons, IH.
Qed.

Lemma append_assoc (a b c : string) : (a +:+ b) +:+ c = a +:+ (b +:+ c).
Proof.
  induction a as [|x a IH]; [reflexivity|].
  now rewrite !append_cons, IH.
Qed.

Lemma concat_empty_cons (x : string) (rest : list string) :
  String.concat EmptyString (x :: rest) = x +:+ String.concat EmptyString rest.
Proof.
  destruct rest; simpl; [now rewrite append_empty_r | reflexivity].
Qed.

(** ** The batch writer *)

Lemma jsonl_from (requests : list value) (text : string) :
  fold_left (fun text request => text +:+ json_dumps request +:+ nl) requests text
  = text +:+ String.concat EmptyString (map request_line requests).
Proof.
  revert text. induction requests as [|r rest IH]; intros text.
  - simpl. now rewrite append_empty_r.
  - cbn [fold_left map]. rewrite IH, concat_empty_cons.
    unfold request_line. now rewrite !append_assoc.
Qed.

Lemma jsonl_lines (requests : list value) :
  jsonl requests = String.concat EmptyString (map request_line requests).
Proof. unfold jsonl. now rewrite jsonl_from. Qed.

Lemma count_nl_lines (requests : list value) :
  Forall (fun r => floats_printable r = true) requests ->
  count_nl (String.concat EmptyString (map request_line requests)) = length requests.
Proof.
  induction 1 as [|r rest Hr _ IH]; [reflexivity|].
  cbn [map length]. rewrite concat_empty_cons, count_nl_app, IH.
  unfold request_line. rewrite count_nl_app, json_dumps_one_line by assumption.
  reflexivity.
Qed.

Lemma escape_copied (s : string) : all_chars copied s = true -> escape_body s = s.
Proof.
  induction s as [|c s IH]; simpl; [reflexivity|].
  intros [Hc Hs]%andb_true_iff. rewrite (IH Hs).
  revert Hc. destruct c as [[] [] [] [] [] [] [] []]; vm_compute; congruence.
Qed.

Lemma non_ascii_copied (c : ascii) : (128 <= N_of_ascii c)%N -> copied c = true.
Proof.
  destruct c as [[] [] [] [] [] [] [] []]; vm_compute; congruence.
Qed.

Lemma jsonl_cons (request : value) (requests : list value) :
  jsonl (request :: requests) = (json_dumps request +:+ nl) +:+ jsonl requests.
Proof. rewrite !jsonl_lines. cbn [map]. now rewrite concat_empty_cons. Qed.

Lemma write_loop_outcome (requests : list value) (written : string) :
  write_loop requests written
  = (if forallb encodable requests then Ok tt else Raise UnicodeEncodeError,
     written +:+ jsonl (written_before requests)).
Proof.
  revert written. induction requests as [|request rest IH]; intros written.
  - cbn. now rewrite append_empty_r.
  - cbn [write_loop forallb written_before]. unfold encodable at 1 3.
    destruct (has_surrogate (json_dumps request +:+ nl)); cbn [negb andb].
    + unfold jsonl. cbn [fold_left]. now rewrite append_empty_r.
    + rewrite IH, jsonl_cons. now rewrite !append_assoc.
Qed.

Lemma written_before_all (requests : list value) :
  forallb encodable requests = true -> written_before requests = requests.
Proof.
  induction requests as [|request rest IH]; [reflexivity|].
  cbn [forallb written_before]. intros [-> Hrest]%andb_true_iff. now rewrite IH.
Qed.

Lemma write_jsonl_outcome `{Runtime} (fs : files) (output_file : string)
    (requests : list value) :
  write_jsonl fs output_file requests
  = if writable output_file then
      (if forallb encodable requests then Ok tt else Raise UnicodeEncodeError,
       <[output_file := jsonl (written_before requests)]> fs)
    else (Raise OSError, fs).
Proof.
  unfold write_jsonl. destruct (writable output_file); [|reflexivity].
  now rewrite write_loop_outcome.
Qed.

Lemma write_jsonl_all `{Runtime} (fs : files) (output_file : string)
    (requests : list value) :
  writable output_file = true ->
  forallb encodable requests = true ->
  write_jsonl fs output_file requests = (Ok tt, <[output_file := jsonl requests]> fs).
Proof.
  intros Hw Hall. now rewrite write_jsonl_outcome, Hw, Hall, written_before_all.
Qed.

(** The bytes that are not ASCII pass through [json.dumps]. *)

Lemma non_ascii_app (a b : string) : non_ascii (a +:+ b) = non_ascii a +:+ non_ascii b.
Proof.
  induction a as [|c a IH]; [reflexivity|].
  rewrite append_cons. cbn [non_ascii]. rewrite IH.
  now destruct (high_bit c).
Qed.

Lemma non_ascii_escape_char (c : ascii) :
  non_ascii (escape_char c) = non_ascii (String c EmptyString).
Proof. destruct c as [[] [] [] [] [] [] [] []]; reflexivity. Qed.

Lemma non_ascii_escape_body (s : string) : non_ascii (escape_body s) = non_ascii s.
Proof.
  induction s as [|c s IH]; [reflexivity|].
  cbn [escape_body]. rewrite non_ascii_app, non_ascii_escape_char, IH.
  cbn [non_ascii]. now destruct (high_bit c).
Qed.

Lemma non_ascii_encode_basestring (s : string) :
  non_ascii (encode_basestring s) = non_ascii s.
Proof.
  unfold encode_basestring. rewrite !non_ascii_app, non_ascii_escape_body.
  change (non_ascii dq) with EmptyString. now rewrite append_empty_r.
Qed.

Lemma non_ascii_uint (d : Decimal.uint) :
  non_ascii (NilEmpty.string_of_uint d) = EmptyString.
Proof. induction d; cbn; auto. Qed.

Lemma non_ascii_str_int (n : Z) : non_ascii (str_int n) = EmptyString.
Proof.
  unfold str_int, NilZero.string_of_int, NilZero.string_of_uint.
  destruct (Z.to_int n) as [d|d]; destruct d; cbn; auto using non_ascii_uint.
Qed.

Lemma non_ascii_float_dumps (r : string) : non_ascii (float_dumps r) = non_ascii r.
Proof.
  unfold float_dumps.
  destruct (String.eqb_spec r "nan") as [->|_]; [reflexivity|].
  destruct (String.eqb_spec r "inf") as [->|_]; [reflexivity|].
  destruct (String.eqb_spec r "-inf") as [->|_]; reflexivity.
Qed.

Lemma non_ascii_concat (sep : string) (parts : list string) :
  non_ascii sep = EmptyString ->
  non_ascii (String.concat sep parts) = String.concat EmptyString (map non_ascii parts).
Proof.
  intros Hsep. induction parts as [|x rest IH]; [reflexivity|].
  cbn [map]. rewrite concat_empty_cons, <- IH.
  destruct rest as [|y rest]; [cbn; now rewrite append_empty_r|].
  change (String.concat sep (x :: y :: rest))
    with (x +:+ sep +:+ String.concat sep (y :: rest)).
  now rewrite !non_ascii_app, Hsep.
Qed.

Lemma append_empty_l (s : string) : EmptyString +:+ s = s.
Proof. reflexivity. Qed.

Lemma non_ascii_json_dumps (v : value) : non_ascii (json_dumps v) = value_non_ascii v.
Proof.
  induction v as [| b | n | r | s | items IH | items IH] using value_nested_ind.
  - reflexivity.
  - destruct b; reflexivity.
  - apply non_ascii_str_int.
  - apply non_ascii_float_dumps.
  - apply non_ascii_encode_basestring.
  - cbn [json_dumps value_non_ascii]. rewrite !non_ascii_app.
    rewrite non_ascii_concat by reflexivity.
    change (non_ascii "[") with EmptyString. change (non_ascii "]") with EmptyString.
    rewrite append_empty_r, append_empty_l, map_map. f_equal.
    apply map_ext_in. intros x Hx. rewrite List.Forall_forall in IH. now apply IH.
  - cbn [json_dumps value_non_ascii]. rewrite !non_ascii_app.
    rewrite non_ascii_concat by reflexivity.
    change (non_ascii "{") with EmptyString. change (non_ascii "}") with EmptyString.
    rewrite append_empty_r, append_empty_l, map_map. f_equal.
    apply map_ext_in. intros [k x] Hx. rewrite List.Forall_forall in IH.
    cbn [fst snd]. rewrite !non_ascii_app, non_ascii_encode_basestring.
    change (non_ascii ": ") with EmptyString.
    pose proof (IH (k, x) Hx) as Hx'. cbn [snd] in Hx'.
    now rewrite append_empty_l, Hx'.
Qed.

Lemma escape_body_app (a b : string) :
  escape_body (a +:+ b) = escape_body a +:+ escape_body b.
Proof.
  induction a as [|c a IH]; [reflexivity|].
  rewrite append_cons. cbn [escape_body]. now rewrite IH, append_assoc.
Qed.

Lemma escape_char_non_ascii (c : ascii) :
  (128 <= N_of_ascii c)%N -> escape_char c = String c EmptyString.
Proof.
  destruct c as [[] [] [] [] [] [] [] []]; vm_compute; congruence.
Qed.

(** C5, as the scripts have it.  When the destination opens and every
    line can be encoded, the batch writer writes one JSON line per
    request, in input order, each followed by its own line feed and
    nothing else: the file holds as many line feeds as there are requests,
    and a run of either script returns the number of requests it assembled
    and wrote.  Text that is not ASCII is written without numeric escapes:
    escaping works character by character and copies every non-ASCII byte,
    whatever surrounds it, so the non-ASCII bytes of a line are those of
    the strings of its request, in order.  Whatever the requests, the
    writer stops at the first line that cannot be encoded, with
    [UnicodeEncodeError] and the lines before it written. *)
Theorem batch_writer_one_line_each `{Runtime} (fs : files) (output_file : string)
    (requests : list value) :
  writable output_file = true ->
  Forall (fun r => floats_printable r = true) requests ->
  Forall (fun r => encodable r = true) requests ->
  let text := String.concat EmptyString (map request_line requests) in
  write_jsonl fs output_file requests = (Ok tt, <[output_file := text]> fs)
  /\ count_nl text = length requests
  /\ Forall (fun r => count_nl (json_dumps r) = O) requests
  /\ (forall s, all_chars copied s = true -> json_dumps (VStr s) = dq +:+ s +:+ dq)
  /\ (forall c, (128 <= N_of_ascii c)%N -> copied c = true)
  /\ (forall c, (128 <= N_of_ascii c)%N -> escape_char c = String c EmptyString)
  /\ (forall before c after,
        (128 <= N_of_ascii c)%N ->
        json_dumps (VStr (before +:+ String c after))
        = dq +:+ escape_body before +:+ String c (escape_body after +:+ dq))
  /\ (forall v, non_ascii (json_dumps v) = value_non_ascii v)
  /\ (forall id prompt,
        non_ascii (json_dumps (Subtopics.batch_request (VStr id) prompt))
        = non_ascii id +:+ non_ascii prompt
        /\ non_ascii (json_dumps (Tags.batch_request (VStr id) prompt))
           = non_ascii id +:+ non_ascii prompt)
  /\ (forall input_file surah_filter data,
        Subtopics.load_dataset fs input_file = Ok data ->
        Subtopics.batch_requests_of data surah_filter = Ok requests ->
        Subtopics.create_batch_file fs input_file output_file surah_filter
        = (Ok (Z.of_nat (length requests)), <[output_file := text]> fs))
  /\ (forall input_file surah_filter data,
        Tags.load_dataset fs input_file = Ok data ->
        Tags.batch_requests_of data surah_filter = Ok requests ->
        Tags.create_batch_file fs input_file output_file surah_filter
        = (Ok (Z.of_nat (length requests)), <[output_file := text]> fs))
  /\ (forall others,
        write_jsonl fs output_file others
        = (if forallb encodable others then Ok tt else Raise UnicodeEncodeError,
           <[output_file := jsonl (written_before others)]> fs)).
Proof.
  intros Hw Hfloats Hencodable text.
  assert (Hwrite : write_jsonl fs output_file requests = (Ok tt, <[output_file := text]> fs)).
  { rewrite write_jsonl_all, jsonl_lines; [reflexivity | exact Hw |].
    apply forallb_forall. rewrite List.Forall_forall in Hencodable. exact Hencodable. }
  split; [exact Hwrite|].
  split; [now apply count_nl_lines|].
  split.
  { eapply Forall_impl; [exact Hfloats|]. intros r Hr. now apply json_dumps_one_line. }
  split.
  { intros s Hs. cbn [json_dumps]. unfold encode_basestring. now rewrite escape_copied. }
  split; [apply non_ascii_copied|].
  split; [apply escape_char_non_ascii|].
  split.
  { intros before c after Hc. cbn [json_dumps]. unfold encode_basestring.
    rewrite escape_body_app. cbn [escape_body].
    rewrite (escape_char_non_ascii c Hc), !append_assoc. reflexivity. }
  split; [apply non_ascii_json_dumps|].
  split.
  { intros id prompt. rewrite !non_ascii_json_dumps. cbn.
    now rewrite !append_empty_r. }
  split.
  { intros input_file surah_filter data Hload Hreqs.
    unfold Subtopics.create_batch_file. now rewrite Hload, Hreqs, Hwrite. }
  split.
  { intros input_file surah_filter data Hload Hreqs.
    unfold Tags.create_batch_file. now rewrite Hload, Hreqs, Hwrite. }
  intros others. now rewrite write_jsonl_outcome, Hw.
Qed.

Lemma batch_writer_one_line_each_witness :
  write_jsonl (H := Examples.plain_runtime) ∅ "requests.jsonl" Examples.store_requests
  = (Ok tt,
     <["requests.jsonl" := String.concat EmptyString (map request_line Examples.store_requests)]>
       ∅)
  /\ count_nl (String.concat EmptyString (map request_line Examples.store_requests)) = 1%nat
  /\ occurs_in "بِسْمِ ٱللَّهِ"
       (String.concat EmptyString (map request_line Examples.store_requests)) = true.
Proof.
  assert (Hfloats : Forall (fun r => floats_printable r = true) Examples.store_requests).
  { repeat constructor. }
  assert (Hencodable : Forall (fun r => encodable r = true) Examples.store_requests).
  { repeat constructor. }
  destruct (batch_writer_one_line_each (H := Examples.plain_runtime) ∅ "requests.jsonl"
              Examples.store_requests eq_refl Hfloats Hencodable)
    as (Hwrite & Hcount & _).
  split; [exact Hwrite|]. split; [exact Hcount|]. vm_compute. reflexivity.
Defined.

(** C5 as stated fails on a request that holds a lone surrogate: both
    requests of the dataset are assembled, the writer raises at the second
    line, no count is returned and the file holds one line, not two.  The
    tagging script raises on the same dataset. *)
Lemma batch_writer_counterexample :
  (exists first second,
      Subtopics.batch_requests_of (H := Examples.surrogate_runtime)
        Examples.surrogate_store VNone
      = Ok [first; second]
      /\ encodable first = true
      /\ encodable second = false
      /\ Subtopics.create_batch_file (H := Examples.surrogate_runtime)
           Examples.surrogate_files "dataset.json" "requests.jsonl" VNone
         = (Raise UnicodeEncodeError,
            <["requests.jsonl" := request_line first]> Examples.surrogate_files)
      /\ count_nl (request_line first) = 1%nat)
  /\ (exists first second,
        Tags.batch_requests_of (H := Examples.surrogate_runtime)
          Examples.surrogate_store VNone
        = Ok [first; second]
        /\ fst (Tags.create_batch_file (H := Examples.surrogate_runtime)
                  Examples.surrogate_files "dataset.json" "requests.jsonl" VNone)
           = Raise UnicodeEncodeError).
Proof.
  split; do 2 eexists; (split; [vm_compute; reflexivity|]); repeat split;
    vm_compute; reflexivity.
Qed.

(** ** Context windows *)

Lemma list_getitem_nat {A} (l : list A) (i : nat) (x : A) :
  l !! i = Some x -> list_getitem l (Z.of_nat i) = Ok x.
Proof.
  intros Hx. pose proof (lookup_lt_Some _ _ _ Hx) as Hlt.
  unfold list_getitem.
  destruct (Z.ltb_spec (Z.of_nat i) 0) as [Hneg|_]; [lia|].
  destruct (Z.leb_spec 0 (Z.of_nat i)) as [_|Hneg]; [|lia].
  destruct (Z.ltb_spec (Z.of_nat i) (Z.of_nat (length l))) as [_|Hge]; [|lia].
  cbn [andb]. now rewrite Nat2Z.id, Hx.
Qed.

Lemma get_verse_context_window (data : list dict) (i : nat) (target : dict) :
  data !! i = Some target ->
  Tags.get_verse_context data (Z.of_nat i)
  = Ok (window_prev data i, target, window_next data i).
Proof.
  intros Htarget. pose proof (lookup_lt_Some _ _ _ Htarget) as Hlt.
  unfold Tags.get_verse_context.
  rewrite (list_getitem_nat _ _ _ Htarget). cbn [bind].
  assert (Hprev : (if 0 <? Z.of_nat i
                   then let* v := list_getitem data (Z.of_nat i - 1) in Ok (Some v)
                   else Ok None) = Ok (window_prev data i)).
  { destruct i as [|j]; [reflexivity|].
    destruct (Z.ltb_spec 0 (Z.of_nat (S j))) as [_|Hle]; [|lia].
    destruct (lookup_lt_is_Some_2 data j) as [p Hp]; [lia|].
    replace (Z.of_nat (S j) - 1) with (Z.of_nat j) by lia.
    rewrite (list_getitem_nat _ _ _ Hp). cbn [bind window_prev]. now rewrite Hp. }
  rewrite Hprev. cbn [bind].
  assert (Hnext : (if Z.of_nat i <? Z.of_nat (length data) - 1
                   then let* v := list_getitem data (Z.of_nat i + 1) in Ok (Some v)
                   else Ok None) = Ok (window_next data i)).
  { unfold window_next.
    destruct (Z.ltb_spec (Z.of_nat i) (Z.of_nat (length data) - 1)) as [Hin|Hlast].
    - destruct (lookup_lt_is_Some_2 data (S i)) as [n Hn]; [lia|].
      replace (Z.of_nat i + 1) with (Z.of_nat (S i)) by lia.
      rewrite (list_getitem_nat _ _ _ Hn). cbn [bind]. now rewrite Hn.
    - rewrite lookup_ge_None_2; [reflexivity | lia]. }
  rewrite Hnext. reflexivity.
Qed.

Lemma request_at_tagging `{Runtime} (data : list dict) (i : nat) (target : dict) :
  data !! i = Some target ->
  Tags.request_at data (Z.of_nat i) = tagging_request data i.
Proof.
  intros Htarget. unfold Tags.request_at, tagging_request.
  rewrite (list_getitem_nat _ _ _ Htarget), (get_verse_context_window _ _ _ Htarget).
  now rewrite Htarget.
Qed.

Lemma tags_request_loop_steps `{Runtime} (data : list dict) (indices : list Z)
    (done requests : list value) :
  Tags.request_loop data indices done = Ok requests ->
  exists built,
    requests = done ++ built
    /\ Forall2 (fun idx request => Tags.request_at data idx = Ok request) indices built.
Proof.
  revert done. induction indices as [|idx rest IH]; intros done Hloop.
  - injection Hloop as <-. exists []. split; [now rewrite app_nil_r | constructor].
  - cbn [Tags.request_loop] in Hloop.
    destruct (Tags.request_at data idx) as [request|e] eqn:Hat; [|discriminate].
    cbn [bind] in Hloop. destruct (IH _ Hloop) as (built & -> & Hbuilt).
    exists (request :: built). split; [now rewrite <- app_assoc | now constructor].
Qed.

(** C1. For an index [i] into the canonical sequence the resolver returns
    the record before it (absent at index 0) and the record after it
    (absent at the last index).  Whatever the filter of a run, the request
    emitted for target index [i] is the one rendered with these canonical
    neighbours. *)
Theorem context_window_canonical `{Runtime} (data : list dict) (i : nat) (target : dict) :
  data !! i = Some target ->
  Tags.get_verse_context data (Z.of_nat i)
  = Ok (window_prev data i, target, window_next data i)
  /\ (0 < i -> window_prev data i = data !! (i - 1) /\ is_Some (window_prev data i))%nat
  /\ (i = 0 -> window_prev data i = None)%nat
  /\ (S i < length data ->
      window_next data i = data !! (i + 1) /\ is_Some (window_next data i))%nat
  /\ (S i = length data -> window_next data i = None)%nat
  /\ (forall surah_filter indices requests k request,
        Tags.filter_indices data surah_filter = Ok indices ->
        Tags.batch_requests_of data surah_filter = Ok requests ->
        indices !! k = Some (Z.of_nat i) ->
        requests !! k = Some request ->
        tagging_request data i = Ok request).
Proof.
  intros Htarget. pose proof (lookup_lt_Some _ _ _ Htarget) as Hlt.
  split; [now apply get_verse_context_window|].
  split.
  { intros Hpos. destruct i as [|j]; [lia|]. cbn [window_prev].
    replace (S j - 1)%nat with j by lia. split; [reflexivity|].
    apply lookup_lt_is_Some_2. lia. }
  split; [now intros ->|].
  split.
  { intros Hin. unfold window_next. replace (i + 1)%nat with (S i) by lia.
    split; [reflexivity | now apply lookup_lt_is_Some_2]. }
  split.
  { intros Hlast. unfold window_next. apply lookup_ge_None_2. lia. }
  intros surah_filter indices requests k request Hfilter Hrun Hidx Hreq.
  unfold Tags.batch_requests_of in Hrun. rewrite Hfilter in Hrun. cbn [bind] in Hrun.
  destruct (tags_request_loop_steps _ _ _ _ Hrun) as (built & -> & Hbuilt).
  cbn [app] in Hreq.
  destruct (Forall2_lookup_l _ _ _ _ _ Hbuilt Hidx) as (request' & Hreq' & Hat).
  rewrite Hreq in Hreq'. injection Hreq' as <-.
  now rewrite <- (request_at_tagging _ _ _ Htarget).
Qed.

Lemma context_window_canonical_witness :
  Tags.get_verse_context Examples.store 1
  = Ok (Some Examples.verse_1_1, Examples.verse_1_2, Some Examples.verse_2_1).
Proof.
  exact (proj1 (context_window_canonical (H := Examples.plain_runtime)
                  Examples.store 1 Examples.verse_1_2 eq_refl)).
Defined.

(** ** Selection *)

Lemma filter_snd_indexed {A} (p : A -> bool) (f : nat -> nat) (l : list A) :
  map snd (List.filter (fun ix => p (snd ix)) (imap (fun i x => (f i, x)) l))
  = List.filter p l.
Proof.
  revert f. induction l as [|x l IH]; intros f; [reflexivity|].
  cbn [imap List.filter snd].
  specialize (IH (fun i => f (S i))).
  destruct (p x); cbn [map snd]; [f_equal|]; exact IH.
Qed.

Lemma filter_snd_enumerate {A} (p : A -> bool) (l : list A) :
  map snd (List.filter (fun ix => p (snd ix)) (enumerate l)) = List.filter p l.
Proof. apply (filter_snd_indexed p (fun i => i)). Qed.

Lemma filter_all {A} (l : list A) : List.filter (fun _ => true) l = l.
Proof. induction l as [|x l IH]; cbn; [reflexivity | now rewrite IH]. Qed.

Lemma filter_sublist {A} (p : A -> bool) (l : list A) : sublist (List.filter p l) l.
Proof.
  induction l as [|x l IH]; cbn; [constructor|].
  destruct (p x); now constructor.
Qed.

Lemma lookup_enumerate {A} (l : list A) (i : nat) (x : A) :
  (i, x) ∈ enumerate l <-> l !! i = Some x.
Proof.
  unfold enumerate. rewrite elem_of_lookup_imap. split.
  - intros (j & y & [= -> ->] & Hy). exact Hy.
  - intros Hx. now exists i, x.
Qed.

Lemma range_enumerate {A} (l : list A) :
  Tags.range (length l) = map (fun ix => Z.of_nat (fst ix)) (enumerate l).
Proof.
  unfold Tags.range, enumerate.
  enough (forall (f : nat -> nat) (start : nat),
            (forall i, f i = (start + i)%nat) ->
            map Z.of_nat (seq start (length l))
            = map (fun ix => Z.of_nat (fst ix)) (imap (fun i x => (f i, x)) l)) as Hgen
    by (apply (Hgen (fun i => i) O); reflexivity).
  induction l as [|x l IH]; intros f start Hf; [reflexivity|].
  cbn [length seq map imap fst]. f_equal.
  - rewrite Hf. f_equal. lia.
  - apply (IH (fun i => f (S i)) (S start)). intros i. rewrite Hf. lia.
Qed.

(** The id a well-formed record has. *)
Lemma wf_record_id (r : dict) :
  wf_record r = true -> exists s, dict_lookup r "id" = Some (VStr s).
Proof.
  unfold wf_record, has_str_id. rewrite !andb_true_iff.
  intros [[[[[[Hid _] _] _] _] _] _].
  destruct (dict_lookup r "id") as [[]|]; try discriminate. eauto.
Qed.

Lemma wf_record_lists (r : dict) :
  wf_record r = true ->
  optional is_str_list r "topic" = true /\ optional is_str_list r "subtopic" = true.
Proof.
  unfold wf_record. rewrite !andb_true_iff. tauto.
Qed.

Lemma all_str_total (items : list value) :
  forallb is_str items = true -> exists ss, all_str items = Ok ss.
Proof.
  induction items as [|v items IH]; cbn; [eauto|].
  intros [Hv Hitems]%andb_true_iff.
  destruct v; try discriminate. destruct (IH Hitems) as [ss ->]. cbn. eauto.
Qed.

Lemma str_join_total (sep placeholder : string) (r : dict) (key : string) :
  optional is_str_list r key = true ->
  exists s, (if truthy (dict_get r key (VList []))
             then str_join sep (dict_get r key (VList []))
             else Ok placeholder) = Ok s.
Proof.
  unfold optional, dict_get. destruct (dict_lookup r key) as [v|]; [|cbn; eauto].
  intros Hv. destruct v as [| | | | |items|]; try discriminate.
  destruct items as [|x items]; [cbn; eauto|].
  cbn [truthy str_join]. destruct (all_str_total _ Hv) as [ss ->]. cbn. eauto.
Qed.

Lemma create_prompt_total `{Runtime} (r : dict) :
  optional is_str_list r "subtopic" = true ->
  exists prompt, Subtopics.create_prompt r = Ok prompt.
Proof.
  intros Hsub. unfold Subtopics.create_prompt, Subtopics.subtopics_str_of.
  destruct (str_join_total ", " "No subtopics provided" r "subtopic" Hsub) as [s ->].
  cbn [bind]. eauto.
Qed.

Lemma create_tags_prompt_total `{Runtime} (prev next : option dict) (r : dict) :
  optional is_str_list r "topic" = true ->
  optional is_str_list r "subtopic" = true ->
  exists prompt, Tags.create_tags_prompt prev r next = Ok prompt.
Proof.
  intros Htopic Hsub. unfold Tags.create_tags_prompt, Tags.list_str_of.
  destruct (str_join_total ", " "No topics provided" r "topic" Htopic) as [t ->].
  destruct (str_join_total ", " "No subtopics provided" r "subtopic" Hsub) as [s ->].
  cbn [bind]. eauto.
Qed.

Lemma refinement_request_total `{Runtime} (r : dict) :
  wf_record r = true -> exists request, refinement_request r = Ok request.
Proof.
  intros Hwf. destruct (wf_record_id r Hwf) as [id Hid].
  destruct (wf_record_lists r Hwf) as [_ Hsub].
  destruct (create_prompt_total r Hsub) as [prompt Hprompt].
  unfold refinement_request, dict_getitem. rewrite Hprompt, Hid. cbn [bind]. eauto.
Qed.

Lemma tagging_request_total `{Runtime} (data : list dict) (i : nat) (r : dict) :
  data !! i = Some r -> wf_record r = true ->
  exists request, tagging_request data i = Ok request.
Proof.
  intros Hr Hwf. destruct (wf_record_id r Hwf) as [id Hid].
  destruct (wf_record_lists r Hwf) as [Htopic Hsub].
  destruct (create_tags_prompt_total (window_prev data i) (window_next data i) r Htopic Hsub)
    as [prompt Hprompt].
  unfold tagging_request, dict_getitem. rewrite Hr, Hprompt, Hid. cbn [bind]. eauto.
Qed.

(** The group test the filter loops apply. *)
Lemma startswith_id (prefix : string) (r : dict) (id : string) :
  dict_lookup r "id" = Some (VStr id) ->
  startswith (dict_get r "id" (VStr EmptyString)) prefix = Ok (String.prefix prefix id).
Proof. intros Hid. unfold dict_get. now rewrite Hid. Qed.

Lemma group_pass_id `{Runtime} (surah_filter : value) (r : dict) (id : string) :
  truthy surah_filter = true ->
  dict_lookup r "id" = Some (VStr id) ->
  group_pass surah_filter r = String.prefix (py_str surah_filter +:+ "|") id.
Proof.
  intros Htruthy Hid. unfold group_pass, dict_get. now rewrite Htruthy, Hid.
Qed.

Lemma group_pass_falsy `{Runtime} (surah_filter : value) (r : dict) :
  truthy surah_filter = false -> group_pass surah_filter r = true.
Proof. intros Hfalsy. unfold group_pass. now rewrite Hfalsy. Qed.

Lemma subtopics_filter_loop `{Runtime} (surah_filter : value)
    (items kept : list (nat * dict)) :
  truthy surah_filter = true ->
  Forall (fun ix => wf_record (snd ix) = true) items ->
  Subtopics.filter_loop (py_str surah_filter +:+ "|") items kept
  = Ok (kept ++ List.filter (fun ix => group_pass surah_filter (snd ix)) items).
Proof.
  intros Htruthy Hwf. revert kept.
  induction Hwf as [|[i r] rest Hr _ IH]; intros kept.
  - cbn. now rewrite app_nil_r.
  - destruct (wf_record_id r Hr) as [id Hid]. cbn [Subtopics.filter_loop List.filter snd].
    rewrite (startswith_id _ _ _ Hid), (group_pass_id _ _ _ Htruthy Hid). cbn [bind].
    rewrite IH. destruct (String.prefix _ id); [now rewrite <- app_assoc | reflexivity].
Qed.

Lemma tags_filter_loop `{Runtime} (surah_filter : value)
    (items : list (nat * dict)) (kept : list Z) :
  truthy surah_filter = true ->
  Forall (fun ix => wf_record (snd ix) = true) items ->
  Tags.filter_loop (py_str surah_filter +:+ "|") items kept
  = Ok (kept ++ map (fun ix => Z.of_nat (fst ix))
                  (List.filter (fun ix => group_pass surah_filter (snd ix)) items)).
Proof.
  intros Htruthy Hwf. revert kept.
  induction Hwf as [|[i r] rest Hr _ IH]; intros kept.
  - cbn. now rewrite app_nil_r.
  - destruct (wf_record_id r Hr) as [id Hid]. cbn [Tags.filter_loop List.filter snd].
    rewrite (startswith_id _ _ _ Hid), (group_pass_id _ _ _ Htruthy Hid). cbn [bind].
    rewrite IH. destruct (String.prefix _ id); [now rewrite <- app_assoc | reflexivity].
Qed.

Lemma wf_enumerate (data : list dict) :
  forallb wf_record data = true ->
  Forall (fun ix => wf_record (snd ix) = true) (enumerate data).
Proof.
  intros Hwf. rewrite forallb_forall in Hwf.
  apply List.Forall_forall. intros [i r] Hin.
  apply list_elem_of_In, lookup_enumerate, list_elem_of_lookup_2, list_elem_of_In in Hin.
  now apply Hwf.
Qed.

Lemma filter_verses_selected `{Runtime} (data : list dict) (surah_filter : value) :
  forallb wf_record data = true ->
  Subtopics.filter_verses data surah_filter
  = Ok (List.filter (fun ix => group_pass surah_filter (snd ix)) (enumerate data)).
Proof.
  intros Hwf. unfold Subtopics.filter_verses.
  destruct (truthy surah_filter) eqn:Htruthy.
  - now rewrite subtopics_filter_loop by auto using wf_enumerate.
  - f_equal. symmetry. erewrite filter_ext; [apply filter_all|].
    intros ix. now apply group_pass_falsy.
Qed.

Lemma filter_indices_selected `{Runtime} (data : list dict) (surah_filter : value) :
  forallb wf_record data = true ->
  Tags.filter_indices data surah_filter
  = Ok (map (fun ix => Z.of_nat (fst ix))
          (List.filter (fun ix => group_pass surah_filter (snd ix)) (enumerate data))).
Proof.
  intros Hwf. unfold Tags.filter_indices.
  destruct (truthy surah_filter) eqn:Htruthy.
  - now rewrite tags_filter_loop by auto using wf_enumerate.
  - rewrite range_enumerate. do 2 f_equal. symmetry.
    erewrite filter_ext; [apply filter_all|].
    intros ix. now apply group_pass_falsy.
Qed.

Lemma refinement_request_inv `{Runtime} (r : dict) (request : value) :
  refinement_request r = Ok request ->
  exists prompt id,
    Subtopics.create_prompt r = Ok prompt
    /\ dict_lookup r "id" = Some id
    /\ request = Subtopics.batch_request id prompt.
Proof.
  unfold refinement_request, dict_getitem.
  destruct (Subtopics.create_prompt r) as [prompt|]; [|discriminate].
  destruct (dict_lookup r "id") as [id|]; [|discriminate].
  cbn [bind]. intros [= <-]. eauto.
Qed.

Lemma tagging_request_inv `{Runtime} (data : list dict) (i : nat) (request : value) :
  tagging_request data i = Ok request ->
  exists target prompt id,
    data !! i = Some target
    /\ Tags.create_tags_prompt (window_prev data i) target (window_next data i) = Ok prompt
    /\ dict_lookup target "id" = Some id
    /\ request = Tags.batch_request id prompt.
Proof.
  unfold tagging_request, dict_getitem.
  destruct (data !! i) as [target|]; [|discriminate].
  destruct (Tags.create_tags_prompt _ target _) as [prompt|] eqn:Hprompt; [|discriminate].
  destruct (dict_lookup target "id") as [id|] eqn:Hid; [|discriminate].
  cbn [bind]. intros [= <-]. exists target, prompt, id. auto.
Qed.

Lemma no_subtopics_annotation (r : dict) :
  Subtopics.no_subtopics r = negb (has_annotation "subtopic" r).
Proof.
  unfold Subtopics.no_subtopics, has_annotation.
  now destruct (dict_lookup r "subtopic").
Qed.

Lemma subtopics_request_loop `{Runtime} (items : list (nat * dict)) (done : list value) :
  Forall (fun ix => wf_record (snd ix) = true) items ->
  exists built,
    Subtopics.request_loop items done = Ok (done ++ built)
    /\ Forall2 (fun r request => refinement_request r = Ok request)
         (map snd (List.filter (fun ix => has_annotation "subtopic" (snd ix)) items))
         built.
Proof.
  intros Hwf. revert done.
  induction Hwf as [|[i r] rest Hr _ IH]; intros done.
  - exists []. split; [cbn; now rewrite app_nil_r | constructor].
  - cbn [Subtopics.request_loop List.filter snd].
    rewrite no_subtopics_annotation.
    destruct (has_annotation "subtopic" r); cbn [negb].
    + destruct (refinement_request_total r Hr) as [request Hrequest].
      destruct (refinement_request_inv _ _ Hrequest) as (prompt & id & Hp & Hid & ->).
      unfold dict_getitem. rewrite Hp, Hid. cbn [bind].
      destruct (IH (done ++ [Subtopics.batch_request id prompt])) as (built & -> & Hbuilt).
      exists (Subtopics.batch_request id prompt :: built).
      split; [now rewrite <- app_assoc | now constructor].
    + apply IH.
Qed.

Lemma tags_request_loop `{Runtime} (data : list dict) (selected : list (nat * dict))
    (done : list value) :
  Forall (fun ix => data !! fst ix = Some (snd ix) /\ wf_record (snd ix) = true) selected ->
  exists built,
    Tags.request_loop data (map (fun ix => Z.of_nat (fst ix)) selected) done
    = Ok (done ++ built)
    /\ Forall2 (fun ix request => tagging_request data (fst ix) = Ok request) selected built.
Proof.
  intros Hsel. revert done.
  induction Hsel as [|[i r] rest [Hr Hwf] _ IH]; intros done.
  - exists []. split; [cbn; now rewrite app_nil_r | constructor].
  - cbn [fst snd] in Hr, Hwf. cbn [map fst Tags.request_loop].
    rewrite (request_at_tagging _ _ _ Hr).
    destruct (tagging_request_total _ _ _ Hr Hwf) as [request Hrequest].
    rewrite Hrequest. cbn [bind].
    destruct (IH (done ++ [request])) as (built & -> & Hbuilt).
    exists (request :: built). split; [now rewrite <- app_assoc | now constructor].
Qed.

Lemma filter_and {A} (p q : A -> bool) (l : list A) :
  List.filter q (List.filter p l) = List.filter (fun x => p x && q x) l.
Proof.
  induction l as [|x l IH]; cbn; [reflexivity|].
  destruct (p x); cbn; [destruct (q x); now rewrite IH | exact IH].
Qed.

Lemma group_pass_spec `{Runtime} (group_filter : option string) (r : dict) :
  group_filter <> Some EmptyString ->
  group_pass (filter_arg group_filter) r = group_test group_filter r.
Proof.
  intros Hne. destruct group_filter as [g|]; [|reflexivity].
  unfold group_pass, group_test, filter_arg, dict_get. cbn [truthy py_str].
  destruct (String.eqb_spec g EmptyString) as [->|_]; [congruence|]. cbn [negb].
  destruct (dict_lookup r "id") as [[]|]; try reflexivity.
  destruct g; [congruence | reflexivity].
Qed.

(** C2, as the scripts have it.  On well-formed records the refinement
    script assembles exactly the records that pass the group test and have
    a non-empty [subtopic], and the tagging script exactly the records that
    pass the group test (it has no annotation gate); both keep the original
    order and every duplicate, and an empty selection is an empty list of
    requests, not an error.  The group test lets every record pass when the
    filter is absent or falsy; for a filter that is absent or a non-empty
    string the refinement selection is the one the specification words. *)
Theorem selection_by_group_and_subtopics `{Runtime} (data : list dict)
    (surah_filter : value) :
  forallb wf_record data = true ->
  let kept :=
    List.filter (fun r => group_pass surah_filter r && has_annotation "subtopic" r) data in
  let tagged :=
    List.filter (fun ix => group_pass surah_filter (snd ix)) (enumerate data) in
  (exists requests,
      Subtopics.batch_requests_of data surah_filter = Ok requests
      /\ Forall2 (fun r request => refinement_request r = Ok request) kept requests)
  /\ (exists requests,
      Tags.batch_requests_of data surah_filter = Ok requests
      /\ Forall2 (fun ix request => tagging_request data (fst ix) = Ok request)
           tagged requests)
  /\ sublist kept data
  /\ map snd tagged = List.filter (group_pass surah_filter) data
  /\ sublist (map snd tagged) data
  /\ (forall group_filter,
        group_filter <> Some EmptyString ->
        surah_filter = filter_arg group_filter ->
        kept = select group_filter "subtopic" data)
  /\ (truthy surah_filter = false ->
      kept = List.filter (has_annotation "subtopic") data).
Proof.
  intros Hwf kept tagged.
  assert (Htagged : map snd tagged = List.filter (group_pass surah_filter) data).
  { apply filter_snd_enumerate. }
  split; [|split; [|split; [|split; [|split; [|split]]]]].
  - unfold Subtopics.batch_requests_of.
    rewrite (filter_verses_selected _ _ Hwf). cbn [bind].
    destruct (subtopics_request_loop
                (List.filter (fun ix => group_pass surah_filter (snd ix)) (enumerate data)) [])
      as (built & Hloop & Hbuilt).
    { apply List.Forall_forall. intros ix [Hin _]%filter_In.
      revert ix Hin. apply List.Forall_forall. now apply wf_enumerate. }
    exists built. split; [exact Hloop|].
    rewrite filter_and in Hbuilt.
    rewrite (filter_snd_enumerate
               (fun r => group_pass surah_filter r && has_annotation "subtopic" r))
      in Hbuilt.
    exact Hbuilt.
  - unfold Tags.batch_requests_of.
    rewrite (filter_indices_selected _ _ Hwf). cbn [bind].
    destruct (tags_request_loop data tagged []) as (built & Hloop & Hbuilt).
    { apply List.Forall_forall. intros [i r] [Hin _]%filter_In.
      apply list_elem_of_In, lookup_enumerate in Hin. split; [exact Hin|].
      rewrite forallb_forall in Hwf. apply Hwf.
      now apply list_elem_of_In, list_elem_of_lookup_2 with i. }
    exists built. split; [exact Hloop | exact Hbuilt].
  - apply filter_sublist.
  - exact Htagged.
  - rewrite Htagged. apply filter_sublist.
  - intros group_filter Hne ->. unfold kept, select.
    apply filter_ext. intros r. now rewrite group_pass_spec.
  - intros Hfalsy. unfold kept. apply filter_ext. intros r.
    now rewrite group_pass_falsy.
Qed.

Lemma selection_by_group_and_subtopics_witness :
  exists requests,
    Subtopics.batch_requests_of (H := Examples.plain_runtime) Examples.store (VStr "1")
    = Ok requests
    /\ Forall2 (fun r request =>
                  refinement_request (H := Examples.plain_runtime) r = Ok request)
         [Examples.verse_1_1] requests.
Proof.
  exact (proj1 (selection_by_group_and_subtopics (H := Examples.plain_runtime)
                  Examples.store (VStr "1") eq_refl)).
Defined.

(** C2 as stated fails.  With group filter 1 the tagging script emits a
    request for verse 1|2, whose subtopic list is empty; and with the
    empty string as filter the refinement script processes every group,
    while no id starts with a bar alone. *)
Lemma selection_counterexample :
  select (Some "1") "subtopic" Examples.store = [Examples.verse_1_1]
  /\ (exists requests,
        Tags.batch_requests_of (H := Examples.plain_runtime) Examples.store (VStr "1")
        = Ok requests
        /\ map custom_id_of requests = [Some (VStr "1|1"); Some (VStr "1|2")])
  /\ select (Some EmptyString) "subtopic" Examples.store = []
  /\ (exists requests,
        Subtopics.batch_requests_of (H := Examples.plain_runtime) Examples.store
          (VStr EmptyString)
        = Ok requests
        /\ map custom_id_of requests = [Some (VStr "1|1"); Some (VStr "2|1")]).
Proof.
  split; [reflexivity|]. split; [eexists; split; vm_compute; reflexivity|].
  split; [reflexivity|]. eexists; split; vm_compute; reflexivity.
Qed.

(** ** The refinement renderer *)

Lemma collect_translations_from (range : list Z) (r : dict) (found : list value) :
  Subtopics.collect_translations range r found
  = found ++ omap (fun i => shown r ("translation" +:+ str_int i)) range.
Proof.
  revert found. induction range as [|i range IH]; intros found.
  - cbn. now rewrite app_nil_r.
  - cbn [Subtopics.collect_translations].
    change (omap (fun i => shown r ("translation" +:+ str_int i)) (i :: range))
      with (match shown r ("translation" +:+ str_int i) with
            | Some v => v :: omap (fun i => shown r ("translation" +:+ str_int i)) range
            | None => omap (fun i => shown r ("translation" +:+ str_int i)) range
            end).
    unfold shown at 1.
    destruct (dict_lookup r ("translation" +:+ str_int i)) as [v|]; [|apply IH].
    destruct (truthy v); [|apply IH].
    rewrite IH. now rewrite <- app_assoc.
Qed.

Lemma collect_translations_shown (r : dict) :
  Subtopics.collect_translations [1; 2; 3] r [] = shown_translations r.
Proof. rewrite collect_translations_from. reflexivity. Qed.

Lemma translation_lines_from `{Runtime} (ts : list value) (f : nat -> nat) :
  map Subtopics.translation_line (imap (fun i x => (1 + Z.of_nat (f i), x)) ts)
  = imap (fun i t =>
            "Translation " +:+ str_int (Z.of_nat (S (f i))) +:+ ": " +:+ dq +:+ py_str t +:+ dq)
         ts.
Proof.
  revert f. induction ts as [|t ts IH]; intros f; [reflexivity|].
  cbn [imap map]. f_equal.
  - unfold Subtopics.translation_line. cbn [fst snd].
    now replace (1 + Z.of_nat (f O)) with (Z.of_nat (S (f O))) by lia.
  - apply (IH (fun i => f (S i))).
Qed.

Lemma translations_text_numbered `{Runtime} (r : dict) :
  Subtopics.translations_text_of r
  = String.concat nl (numbered_lines (shown_translations r)).
Proof.
  unfold Subtopics.translations_text_of. rewrite collect_translations_shown.
  f_equal. apply (translation_lines_from _ (fun i => i)).
Qed.

Lemma create_prompt_layout `{Runtime} (r : dict) (subtopics_str : string) :
  Subtopics.subtopics_str_of r = Ok subtopics_str ->
  Subtopics.create_prompt r
  = Ok (String.concat nl
          (Subtopics.prompt_preamble ++
           ["Arabic: " +:+ field_or r "arabic" "No Arabic text provided";
            "Translations: " +:+ String.concat nl (numbered_lines (shown_translations r));
            "Existing Subtopics: " +:+ subtopics_str;
            blank])).
Proof.
  intros Hsub. unfold Subtopics.create_prompt. rewrite Hsub, translations_text_numbered.
  cbn [bind]. unfold field_or, dict_get.
  now destruct (dict_lookup r "arabic").
Qed.

(** C3, as the script has it.  The refinement prompt shows the
    translations found under [translation1], [translation2] and
    [translation3] that are present and not empty (no other translation
    field is read), numbered from 1 in this order whatever the gaps; a
    record with only [translation1] and [translation3] gets exactly two
    translation lines, labelled 1 and 2. *)
Theorem refinement_translations_renumbered `{Runtime} (r : dict) :
  Subtopics.translations_text_of r
  = String.concat nl (numbered_lines (shown_translations r))
  /\ (forall subtopics_str,
        Subtopics.subtopics_str_of r = Ok subtopics_str ->
        Subtopics.create_prompt r
        = Ok (String.concat nl
                (Subtopics.prompt_preamble ++
                 ["Arabic: " +:+ field_or r "arabic" "No Arabic text provided";
                  "Translations: " +:+ Subtopics.translations_text_of r;
                  "Existing Subtopics: " +:+ subtopics_str;
                  blank])))
  /\ (forall first third,
        dict_lookup r "translation1" = Some first -> truthy first = true ->
        dict_lookup r "translation2" = None ->
        dict_lookup r "translation3" = Some third -> truthy third = true ->
        Subtopics.translations_text_of r
        = "Translation 1: " +:+ dq +:+ py_str first +:+ dq +:+ nl +:+
          "Translation 2: " +:+ dq +:+ py_str third +:+ dq).
Proof.
  split; [apply translations_text_numbered|]. split.
  - intros subtopics_str Hsub. rewrite translations_text_numbered.
    now apply create_prompt_layout.
  - intros first third H1 Ht1 H2 H3 Ht3. rewrite translations_text_numbered.
    unfold shown_translations, translation_keys. cbn [omap list_omap]. unfold shown.
    rewrite H1, Ht1, H2, H3, Ht3. cbn [numbered_lines imap String.concat compose].
    now rewrite !append_assoc.
Qed.

Lemma refinement_translations_renumbered_witness :
  Subtopics.translations_text_of (H := Examples.plain_runtime) Examples.verse_1_1
  = "Translation 1: " +:+ dq +:+ "In the name of God" +:+ dq +:+ nl +:+
    "Translation 2: " +:+ dq +:+ "In the name of Allah" +:+ dq.
Proof.
  exact (proj2 (proj2 (refinement_translations_renumbered (H := Examples.plain_runtime)
                         Examples.verse_1_1))
           (VStr "In the name of God") (VStr "In the name of Allah")
           eq_refl eq_refl eq_refl eq_refl eq_refl).
Defined.

(** C3 as stated fails: a present [translation4] is not embedded. *)
Lemma refinement_translations_counterexample :
  dict_lookup Examples.verse_fourth "translation4" = Some (VStr "FOURTH TRANSLATION")
  /\ exists prompt,
       Subtopics.create_prompt (H := Examples.plain_runtime) Examples.verse_fourth = Ok prompt
       /\ occurs_in "FOURTH TRANSLATION" prompt = false
       /\ occurs_in ("Translations: " +:+ nl +:+ "Existing Subtopics: Patience") prompt = true.
Proof.
  split; [reflexivity|].
  eexists. split; [vm_compute; reflexivity|]. split; vm_compute; reflexivity.
Qed.

Lemma lookup_without (key k : string) (r : dict) :
  dict_lookup (without key r) k
  = if String.eqb k key then None else dict_lookup r k.
Proof.
  induction r as [|[k' v] r IH]; cbn [without List.filter dict_lookup fst].
  - now destruct (String.eqb k key).
  - fold (without key r).
    destruct (String.eqb_spec k' key) as [->|Hne]; cbn [negb dict_lookup].
    + rewrite IH. destruct (String.eqb_spec k key) as [->|Hk].
      * reflexivity.
      * destruct (String.eqb_spec key k) as [->|_]; [congruence | reflexivity].
    + rewrite IH. destruct (String.eqb_spec k' k) as [->|_]; [|reflexivity].
      destruct (String.eqb_spec k key) as [->|_]; [congruence | reflexivity].
Qed.

Lemma shown_without (key k : string) (r : dict) :
  shown r key = None -> shown (without key r) k = shown r k.
Proof.
  intros Hkey. unfold shown at 1. rewrite lookup_without.
  destruct (String.eqb_spec k key) as [->|_]; [now rewrite Hkey | reflexivity].
Qed.

Lemma create_prompt_fields `{Runtime} (r r' : dict) :
  shown_translations r' = shown_translations r ->
  dict_lookup r' "arabic" = dict_lookup r "arabic" ->
  dict_lookup r' "subtopic" = dict_lookup r "subtopic" ->
  Subtopics.create_prompt r' = Subtopics.create_prompt r.
Proof.
  intros Hshown Harabic Hsub.
  unfold Subtopics.create_prompt, Subtopics.subtopics_str_of, dict_get.
  rewrite !translations_text_numbered, Hshown, Harabic, Hsub. reflexivity.
Qed.

(** C10. In the refinement renderer a translation that is present but
    empty (or falsy in any other way) counts as absent: the prompt is the
    one of the record without that field, and the translations left are
    numbered from 1 without a gap.  An empty subtopic list gives the
    placeholder text. *)
Theorem refinement_falsy_field_is_absent `{Runtime} (r : dict) :
  (forall key v,
      In key translation_keys ->
      dict_lookup r key = Some v -> truthy v = false ->
      Subtopics.create_prompt r = Subtopics.create_prompt (without key r))
  /\ (forall key,
        In key translation_keys ->
        dict_lookup r key = Some (VStr EmptyString) ->
        Subtopics.translations_text_of r
        = String.concat nl (numbered_lines (shown_translations (without key r))))
  /\ (dict_lookup r "subtopic" = Some (VList []) ->
      Subtopics.subtopics_str_of r = Ok "No subtopics provided"
      /\ Subtopics.create_prompt r
         = Ok (String.concat nl
                 (Subtopics.prompt_preamble ++
                  ["Arabic: " +:+ field_or r "arabic" "No Arabic text provided";
                   "Translations: " +:+ Subtopics.translations_text_of r;
                   "Existing Subtopics: No subtopics provided";
                   blank]))).
Proof.
  assert (Hgone : forall key v,
             In key translation_keys ->
             dict_lookup r key = Some v -> truthy v = false ->
             shown_translations (without key r) = shown_translations r
             /\ dict_lookup (without key r) "arabic" = dict_lookup r "arabic"
             /\ dict_lookup (without key r) "subtopic" = dict_lookup r "subtopic").
  { intros key v Hkey Hv Hfalsy.
    assert (Hshown : shown r key = None) by (unfold shown; now rewrite Hv, Hfalsy).
    split.
    - unfold shown_translations, translation_keys. cbn [omap list_omap].
      now rewrite !(shown_without _ _ _ Hshown).
    - rewrite !lookup_without.
      destruct Hkey as [<-|[<-|[<-|[]]]]; split; reflexivity. }
  split; [|split].
  - intros key v Hkey Hv Hfalsy.
    destruct (Hgone key v Hkey Hv Hfalsy) as (Hshown & Harabic & Hsub).
    symmetry. now apply create_prompt_fields.
  - intros key Hkey Hv.
    destruct (Hgone key _ Hkey Hv eq_refl) as (Hshown & _).
    now rewrite translations_text_numbered, Hshown.
  - intros Hsub.
    assert (Hstr : Subtopics.subtopics_str_of r = Ok "No subtopics provided").
    { unfold Subtopics.subtopics_str_of, dict_get. now rewrite Hsub. }
    split; [exact Hstr|].
    rewrite (create_prompt_layout _ _ Hstr). now rewrite translations_text_numbered.
Qed.

Lemma refinement_falsy_field_is_absent_witness :
  Subtopics.create_prompt (H := Examples.plain_runtime) Examples.verse_gap
  = Subtopics.create_prompt (H := Examples.plain_runtime)
      (without "translation1" Examples.verse_gap)
  /\ Subtopics.subtopics_str_of Examples.verse_gap = Ok "No subtopics provided".
Proof.
  pose proof (refinement_falsy_field_is_absent (H := Examples.plain_runtime)
                Examples.verse_gap) as (Hgone & _ & Hempty).
  split.
  - exact (Hgone "translation1" (VStr EmptyString) (or_introl eq_refl) eq_refl eq_refl).
  - exact (proj1 (Hempty eq_refl)).
Defined.

(** ** Assembly *)

Lemma subtopics_filter_loop_result (prefix : string) (items kept out : list (nat * dict)) :
  Subtopics.filter_loop prefix items kept = Ok out ->
  out = kept ++ List.filter (fun ix => id_starts prefix (snd ix)) items.
Proof.
  revert kept. induction items as [|[i r] rest IH]; intros kept.
  - cbn. intros [= <-]. now rewrite app_nil_r.
  - cbn [Subtopics.filter_loop List.filter snd]. unfold id_starts at 1, startswith.
    destruct (dict_get r "id" (VStr EmptyString)); try discriminate.
    cbn [bind]. intros Hloop. rewrite (IH _ Hloop).
    destruct (String.prefix prefix s); [now rewrite <- app_assoc | reflexivity].
Qed.

Lemma tags_filter_loop_result (prefix : string) (items : list (nat * dict))
    (kept out : list Z) :
  Tags.filter_loop prefix items kept = Ok out ->
  out = kept ++ map (fun ix => Z.of_nat (fst ix))
                  (List.filter (fun ix => id_starts prefix (snd ix)) items).
Proof.
  revert kept. induction items as [|[i r] rest IH]; intros kept.
  - cbn. intros [= <-]. now rewrite app_nil_r.
  - cbn [Tags.filter_loop List.filter snd]. unfold id_starts at 1, startswith.
    destruct (dict_get r "id" (VStr EmptyString)); try discriminate.
    cbn [bind]. intros Hloop. rewrite (IH _ Hloop).
    destruct (String.prefix prefix s); [now rewrite <- app_assoc | reflexivity].
Qed.

Lemma group_pass_id_starts `{Runtime} (surah_filter : value) (r : dict) :
  truthy surah_filter = true ->
  group_pass surah_filter r = id_starts (py_str surah_filter +:+ "|") r.
Proof. intros Htruthy. unfold group_pass. now rewrite Htruthy. Qed.

Lemma filter_verses_result `{Runtime} (data : list dict) (surah_filter : value)
    (items : list (nat * dict)) :
  Subtopics.filter_verses data surah_filter = Ok items ->
  items = List.filter (fun ix => group_pass surah_filter (snd ix)) (enumerate data).
Proof.
  unfold Subtopics.filter_verses. destruct (truthy surah_filter) eqn:Htruthy.
  - intros ->%subtopics_filter_loop_result. cbn [app].
    apply filter_ext. intros ix. now rewrite group_pass_id_starts.
  - intros [= <-]. symmetry. erewrite filter_ext; [apply filter_all|].
    intros ix. now apply group_pass_falsy.
Qed.

Lemma filter_indices_result `{Runtime} (data : list dict) (surah_filter : value)
    (indices : list Z) :
  Tags.filter_indices data surah_filter = Ok indices ->
  indices = map (fun ix => Z.of_nat (fst ix))
              (List.filter (fun ix => group_pass surah_filter (snd ix)) (enumerate data)).
Proof.
  unfold Tags.filter_indices. destruct (truthy surah_filter) eqn:Htruthy.
  - intros ->%tags_filter_loop_result. cbn [app]. f_equal.
    apply filter_ext. intros ix. now rewrite group_pass_id_starts.
  - intros [= <-]. rewrite range_enumerate. f_equal. symmetry.
    erewrite filter_ext; [apply filter_all|].
    intros ix. now apply group_pass_falsy.
Qed.

Lemma subtopics_request_loop_result `{Runtime} (items : list (nat * dict))
    (done requests : list value) :
  Subtopics.request_loop items done = Ok requests ->
  exists built,
    requests = done ++ built
    /\ Forall2 (fun r request => refinement_request r = Ok request)
         (map snd (List.filter (fun ix => has_annotation "subtopic" (snd ix)) items))
         built.
Proof.
  revert done. induction items as [|[i r] rest IH]; intros done.
  - cbn. intros [= <-]. exists []. split; [now rewrite app_nil_r | constructor].
  - cbn [Subtopics.request_loop List.filter snd].
    rewrite no_subtopics_annotation.
    destruct (has_annotation "subtopic" r); cbn [negb]; [|apply IH].
    destruct (Subtopics.create_prompt r) as [prompt|] eqn:Hprompt; [|discriminate].
    destruct (dict_getitem r "id") as [id|] eqn:Hid; [|discriminate].
    cbn [bind]. intros (built & -> & Hbuilt)%IH.
    exists (Subtopics.batch_request id prompt :: built).
    split; [now rewrite <- app_assoc|].
    cbn [map snd]. constructor; [|exact Hbuilt].
    unfold refinement_request. now rewrite Hprompt, Hid.
Qed.

Lemma Forall2_weaken_in {A B} (P Q : A -> B -> Prop) (l : list A) (k : list B) :
  Forall2 P l k ->
  (forall x y, In x l -> P x y -> Q x y) ->
  Forall2 Q l k.
Proof.
  induction 1 as [|x y l k Hxy _ IH]; intros Himp; constructor.
  - apply Himp; [now left | exact Hxy].
  - apply IH. intros x' y' Hin. apply Himp. now right.
Qed.

(** What a successful run of either script assembled. *)
Lemma subtopics_run_result `{Runtime} (data : list dict) (surah_filter : value)
    (requests : list value) :
  Subtopics.batch_requests_of data surah_filter = Ok requests ->
  Forall2 (fun r request => refinement_request r = Ok request)
    (List.filter (fun r => group_pass surah_filter r && has_annotation "subtopic" r) data)
    requests.
Proof.
  unfold Subtopics.batch_requests_of.
  destruct (Subtopics.filter_verses data surah_filter) as [items|] eqn:Hitems;
    [|discriminate].
  cbn [bind]. intros (built & -> & Hbuilt)%subtopics_request_loop_result.
  rewrite (filter_verses_result _ _ _ Hitems), filter_and in Hbuilt.
  now rewrite (filter_snd_enumerate
                 (fun r => group_pass surah_filter r && has_annotation "subtopic" r))
    in Hbuilt.
Qed.

Lemma tags_run_result `{Runtime} (data : list dict) (surah_filter : value)
    (requests : list value) :
  Tags.batch_requests_of data surah_filter = Ok requests ->
  Forall2 (fun ix request => tagging_request data (fst ix) = Ok request)
    (List.filter (fun ix => group_pass surah_filter (snd ix)) (enumerate data))
    requests.
Proof.
  unfold Tags.batch_requests_of.
  destruct (Tags.filter_indices data surah_filter) as [indices|] eqn:Hindices;
    [|discriminate].
  cbn [bind]. intros (built & -> & Hbuilt)%tags_request_loop_steps.
  rewrite (filter_indices_result _ _ _ Hindices) in Hbuilt.
  apply Forall2_fmap_l in Hbuilt. cbn [app].
  eapply Forall2_weaken_in; [exact Hbuilt|].
  intros [i r] request [Hin _]%filter_In Hat. cbn [fst] in *.
  apply list_elem_of_In, lookup_enumerate in Hin.
  now rewrite <- (request_at_tagging _ _ _ Hin).
Qed.

Lemma prefix_bar_empty (p : string) : String.prefix (p +:+ "|") EmptyString = false.
Proof. destruct p; reflexivity. Qed.

Lemma group_pass_truthy_id `{Runtime} (surah_filter : value) (r : dict) :
  truthy surah_filter = true ->
  group_pass surah_filter r = true ->
  exists s, dict_lookup r "id" = Some (VStr s) /\ s <> EmptyString.
Proof.
  intros Htruthy. unfold group_pass, dict_get. rewrite Htruthy.
  destruct (dict_lookup r "id") as [[]|]; try discriminate.
  - intros Hprefix. exists s. split; [reflexivity|].
    intros ->. now rewrite prefix_bar_empty in Hprefix.
  - now rewrite prefix_bar_empty.
Qed.

Lemma Forall2_elem_l {A B} (P : A -> B -> Prop) (l : list A) (k : list B) (x : A) :
  Forall2 P l k -> In x l -> exists y, In y k /\ P x y.
Proof.
  induction 1 as [|x' y l k Hxy _ IH]; intros Hin; [destruct Hin|].
  destruct Hin as [->|Hin].
  - exists y. split; [now left | exact Hxy].
  - destruct (IH Hin) as (y' & Hy' & Hp). exists y'. split; [now right | exact Hp].
Qed.

(** ** The tagging renderer *)

Lemma field_or_get `{Runtime} (r : dict) (key placeholder : string) :
  py_str (dict_get r key (VStr placeholder)) = field_or r key placeholder.
Proof. unfold field_or, dict_get. now destruct (dict_lookup r key). Qed.

Lemma neighbour_text `{Runtime} (neighbour : option dict) (kind : string) :
  (if Tags.verse_truthy neighbour then Tags.format_context_verse neighbour kind
   else "No " +:+ kind +:+ " available")
  = neighbour_block neighbour kind.
Proof.
  destruct neighbour as [[|item rest]|]; try reflexivity.
  cbn [Tags.verse_truthy Tags.format_context_verse truthy neighbour_block].
  now rewrite !field_or_get.
Qed.

Lemma all_str_listed (items : list value) :
  forallb is_str items = true ->
  all_str items
  = Ok (omap (fun v => match v with VStr s => Some s | _ => None end) items).
Proof.
  induction items as [|v items IH]; [reflexivity|].
  cbn [forallb]. intros [Hv Hitems]%andb_true_iff.
  destruct v; try discriminate. cbn [all_str omap list_omap].
  now rewrite (IH Hitems).
Qed.

Lemma list_str_joined (r : dict) (key placeholder : string) :
  optional is_str_list r key = true ->
  Tags.list_str_of r key placeholder = Ok (joined_or r key placeholder).
Proof.
  unfold optional, Tags.list_str_of, joined_or, listed, dict_get.
  destruct (dict_lookup r key) as [v|]; [|reflexivity].
  intros Hv. destruct v as [| | | | |items|]; try discriminate.
  destruct items as [|x items]; [reflexivity|].
  cbn [truthy str_join]. rewrite (all_str_listed _ Hv). cbn [bind].
  cbn [is_str_list forallb] in Hv. apply andb_true_iff in Hv as [Hx _].
  destruct x; try discriminate. reflexivity.
Qed.

Lemma create_tags_prompt_layout `{Runtime} (prev next : option dict) (target : dict) :
  optional is_str_list target "topic" = true ->
  optional is_str_list target "subtopic" = true ->
  Tags.create_tags_prompt prev target next
  = Ok (String.concat nl
          (Tags.prompt_preamble ++
           [neighbour_block prev "previous verse";
            blank;
            "Next Verse:";
            neighbour_block next "next verse";
            blank;
            "Target Verse:";
            "Arabic: " +:+ field_or target "arabic" "No Arabic text available";
            "Translation1: " +:+ field_or target "translation1" "No translation1 available";
            "Translation2: " +:+ field_or target "translation2" "No translation2 available";
            "Translation3: " +:+ field_or target "translation3" "No translation3 available";
            "Topics: " +:+ joined_or target "topic" "No topics provided";
            "Subtopics: " +:+ joined_or target "subtopic" "No subtopics provided"]
           ++ Tags.prompt_epilogue)).
Proof.
  intros Htopic Hsub. unfold Tags.create_tags_prompt.
  rewrite (list_str_joined _ _ _ Htopic), (list_str_joined _ _ _ Hsub). cbn [bind].
  now rewrite !neighbour_text, !field_or_get.
Qed.

(** C6, as the script has it.  The tagging prompt shows, for a neighbour
    that is present and not empty, its Arabic text and its first
    translation, each replaced by its own placeholder when the field is
    absent; for a neighbour that is absent, or an empty record, it shows
    one fixed line in place of both fields.  Nothing else of a neighbour
    is used.  For the target it shows the Arabic text and the three
    translations, each replaced by its own placeholder when absent, and
    the topics and the subtopics joined with commas, or a fixed
    placeholder when the list is empty. *)
Theorem tagging_prompt_fields `{Runtime} (prev next : option dict) (target : dict) :
  optional is_str_list target "topic" = true ->
  optional is_str_list target "subtopic" = true ->
  Tags.create_tags_prompt prev target next
  = Ok (String.concat nl
          (Tags.prompt_preamble ++
           [neighbour_block prev "previous verse";
            blank;
            "Next Verse:";
            neighbour_block next "next verse";
            blank;
            "Target Verse:";
            "Arabic: " +:+ field_or target "arabic" "No Arabic text available";
            "Translation1: " +:+ field_or target "translation1" "No translation1 available";
            "Translation2: " +:+ field_or target "translation2" "No translation2 available";
            "Translation3: " +:+ field_or target "translation3" "No translation3 available";
            "Topics: " +:+ joined_or target "topic" "No topics provided";
            "Subtopics: " +:+ joined_or target "subtopic" "No subtopics provided"]
           ++ Tags.prompt_epilogue))
  /\ (forall kind,
        neighbour_block None kind = "No " +:+ kind +:+ " available"
        /\ neighbour_block (Some []) kind = "No " +:+ kind +:+ " available")
  /\ (forall d kind,
        d <> [] ->
        neighbour_block (Some d) kind
        = "Arabic: " +:+ field_or d "arabic" "No Arabic text available" +:+ nl +:+
          "Translation: " +:+ field_or d "translation1" "No translation available")
  /\ (forall d d' kind,
        d <> [] -> d' <> [] ->
        dict_lookup d "arabic" = dict_lookup d' "arabic" ->
        dict_lookup d "translation1" = dict_lookup d' "translation1" ->
        neighbour_block (Some d) kind = neighbour_block (Some d') kind)
  /\ (forall d kind,
        d <> [] ->
        dict_lookup d "arabic" = None -> dict_lookup d "translation1" = None ->
        neighbour_block (Some d) kind
        = "Arabic: No Arabic text available" +:+ nl +:+ "Translation: No translation available")
  /\ (forall key placeholder,
        dict_lookup target key = None -> field_or target key placeholder = placeholder)
  /\ (forall key placeholder,
        dict_lookup target key = None \/ dict_lookup target key = Some (VList []) ->
        joined_or target key placeholder = placeholder).
Proof.
  intros Htopic Hsub. split; [|split; [|split; [|split; [|split; [|split]]]]].
  - now apply create_tags_prompt_layout.
  - intros kind. split; reflexivity.
  - intros [|item rest] kind Hd; [congruence | reflexivity].
  - intros [|item rest] [|item' rest'] kind Hd Hd' Harabic Htrans; try congruence.
    cbn [neighbour_block]. unfold field_or. now rewrite Harabic, Htrans.
  - intros [|item rest] kind Hd Harabic Htrans; [congruence|].
    cbn [neighbour_block]. unfold field_or. now rewrite Harabic, Htrans.
  - intros key placeholder Hkey. unfold field_or. now rewrite Hkey.
  - intros key placeholder [Hkey|Hkey]; unfold joined_or, listed; now rewrite Hkey.
Qed.

Lemma tagging_prompt_fields_witness :
  exists prompt,
    Tags.create_tags_prompt (H := Examples.plain_runtime)
      None Examples.verse_1_1 (Some Examples.verse_1_2)
    = Ok prompt
    /\ occurs_in ("Previous Verse:" +:+ nl +:+ "No previous verse available") prompt = true.
Proof.
  eexists. split.
  - exact (proj1 (tagging_prompt_fields (H := Examples.plain_runtime)
                    None (Some Examples.verse_1_2) Examples.verse_1_1 eq_refl eq_refl)).
  - vm_compute. reflexivity.
Defined.

(** C6 as stated fails for an absent neighbour: its two fields are not
    each replaced by their placeholder, the prompt shows one line for the
    neighbour and neither field placeholder; a neighbour that is present
    without the two fields does show both. *)
Lemma tagging_neighbour_counterexample :
  (exists prompt,
      Tags.create_tags_prompt (H := Examples.plain_runtime) None Examples.verse_1_1 None
      = Ok prompt
      /\ occurs_in ("Previous Verse:" +:+ nl +:+ "No previous verse available" +:+ nl) prompt
         = true
      /\ occurs_in ("Next Verse:" +:+ nl +:+ "No next verse available" +:+ nl) prompt = true
      /\ occurs_in "No Arabic text available" prompt = false
      /\ occurs_in "No translation available" prompt = false)
  /\ (exists prompt,
        Tags.create_tags_prompt (H := Examples.plain_runtime)
          (Some [("id", VStr "1|0")]) Examples.verse_1_1 None
        = Ok prompt
        /\ occurs_in ("Previous Verse:" +:+ nl +:+ "Arabic: No Arabic text available" +:+ nl
                      +:+ "Translation: No translation available" +:+ nl) prompt
           = true).
Proof.
  split; eexists; (split; [vm_compute; reflexivity|]); repeat split; vm_compute; reflexivity.
Qed.

(** ** Loading *)

Lemma read_json_ok `{Runtime} (fs : files) (file_path : string) (data : list dict) :
  read_json fs file_path = Ok data
  <-> exists text,
        fs !! file_path = Some text
        /\ readable file_path = true
        /\ json_load text = Some data.
Proof.
  unfold read_json. split.
  - destruct (fs !! file_path) as [text|]; [|discriminate].
    destruct (readable file_path); [|discriminate].
    destruct (json_load text) as [data'|] eqn:Hparse; [|discriminate].
    intros [= <-]. now exists text.
  - intros (text & -> & -> & ->). reflexivity.
Qed.

Lemma read_json_raise `{Runtime} (fs : files) (file_path : string) (e : exn) :
  read_json fs file_path = Raise e ->
  load_error e = true
  /\ (fs !! file_path = None
      \/ readable file_path = false
      \/ exists text, fs !! file_path = Some text /\ json_load text = None).
Proof.
  unfold read_json.
  destruct (fs !! file_path) as [text|]; [|intros [= <-]; auto].
  destruct (readable file_path); [|intros [= <-]; auto].
  destruct (json_load text) as [data|] eqn:Hparse; [discriminate|].
  intros [= <-]. split; [reflexivity|]. right. right. now exists text.
Qed.

(** C7. Loading either returns the whole parsed dataset or raises: it
    raises exactly when the source is missing, cannot be read or does not
    parse, with an exception of the loading step, and then a run of either
    script raises the same exception and leaves every file as it was. *)
Theorem load_failure_aborts_run `{Runtime} (fs : files) (input_file : string) :
  Tags.load_dataset fs input_file = Subtopics.load_dataset fs input_file
  /\ (forall data,
        Subtopics.load_dataset fs input_file = Ok data
        <-> exists text,
              fs !! input_file = Some text
              /\ readable input_file = true
              /\ json_load text = Some data)
  /\ ((fs !! input_file = None
       \/ readable input_file = false
       \/ exists text, fs !! input_file = Some text /\ json_load text = None)
      <-> exists e, Subtopics.load_dataset fs input_file = Raise e)
  /\ (forall e,
        Subtopics.load_dataset fs input_file = Raise e ->
        load_error e = true
        /\ forall output_file surah_filter,
             Subtopics.create_batch_file fs input_file output_file surah_filter
             = (Raise e, fs)
             /\ Tags.create_batch_file fs input_file output_file surah_filter
                = (Raise e, fs)).
Proof.
  split; [reflexivity|]. split; [apply read_json_ok|]. split.
  - split.
    + unfold Subtopics.load_dataset, read_json.
      intros [Hmissing|[Hlocked|(text & Htext & Hparse)]].
      * rewrite Hmissing. eauto.
      * rewrite Hlocked. destruct (fs !! input_file); eauto.
      * rewrite Htext, Hparse. destruct (readable input_file); eauto.
    + intros [e He]. now apply read_json_raise in He.
  - intros e He. split; [now apply read_json_raise in He|].
    intros output_file surah_filter.
    unfold Subtopics.create_batch_file, Tags.create_batch_file, Tags.load_dataset.
    unfold Subtopics.load_dataset in *. now rewrite He.
Qed.

Lemma load_failure_aborts_run_witness :
  Subtopics.create_batch_file (H := Examples.plain_runtime) ∅ "dataset.json"
    "requests.jsonl" (VStr "114")
  = (Raise FileNotFoundError, ∅).
Proof.
  exact (proj1 (proj2 (proj2 (proj2 (proj2
           (load_failure_aborts_run (H := Examples.plain_runtime) ∅ "dataset.json")))
           FileNotFoundError eq_refl) "requests.jsonl" (VStr "114"))).
Defined.

(** ** Requests *)

Lemma subtopics_requests_shape `{Runtime} (data : list dict) (surah_filter : value)
    (requests : list value) :
  Subtopics.batch_requests_of data surah_filter = Ok requests ->
  Forall (fun request =>
            exists custom_id prompt, request = Subtopics.batch_request custom_id prompt)
    requests.
Proof.
  intros Hrun%subtopics_run_result.
  eapply Forall2_Forall_r; [exact Hrun|].
  apply List.Forall_forall.
  intros r _ request (prompt & id & _ & _ & ->)%refinement_request_inv. eauto.
Qed.

Lemma tags_requests_shape `{Runtime} (data : list dict) (surah_filter : value)
    (requests : list value) :
  Tags.batch_requests_of data surah_filter = Ok requests ->
  Forall (fun request =>
            exists custom_id prompt, request = Tags.batch_request custom_id prompt)
    requests.
Proof.
  intros Hrun%tags_run_result.
  eapply Forall2_Forall_r; [exact Hrun|].
  apply List.Forall_forall.
  intros ix _ request (target & prompt & id & _ & _ & _ & ->)%tagging_request_inv. eauto.
Qed.

(** C9. Every request of a run is built from its [custom_id] and its
    prompt alone: the method, the url, the model, the token limit, the
    temperature and the system message are the same in all of them. *)
Theorem requests_share_configuration `{Runtime} (data : list dict) (surah_filter : value)
    (requests : list value) (request : value) :
  In request requests ->
  (Subtopics.batch_requests_of data surah_filter = Ok requests ->
   exists custom_id prompt,
     request = Subtopics.batch_request custom_id prompt
     /\ member request "custom_id" = Some custom_id
     /\ member request "method" = Some (VStr "POST")
     /\ member request "url" = Some (VStr "/v1/chat/completions")
     /\ member_at request ["body"; "model"] = Some (VStr "gpt-4.1-2025-04-14")
     /\ member_at request ["body"; "max_tokens"] = Some (VInt 300)
     /\ member_at request ["body"; "temperature"] = Some (VFloat "0.1")
     /\ member_at request ["body"; "messages"]
        = Some (VList
                  [message "system"
                     "You are an expert Islamic scholar. Always respond with valid JSON only.";
                   message "user" prompt]))
  /\ (Tags.batch_requests_of data surah_filter = Ok requests ->
      exists custom_id prompt,
        request = Tags.batch_request custom_id prompt
        /\ member request "custom_id" = Some custom_id
        /\ member request "method" = Some (VStr "POST")
        /\ member request "url" = Some (VStr "/v1/chat/completions")
        /\ member_at request ["body"; "model"] = Some (VStr "gpt-4.1-2025-04-14")
        /\ member_at request ["body"; "max_tokens"] = Some (VInt 150)
        /\ member_at request ["body"; "temperature"] = Some (VFloat "0.1")
        /\ member_at request ["body"; "messages"]
           = Some (VList
                     [message "system"
                        "You are an expert Islamic scholar specializing in Quranic interpretation. Always respond with valid JSON only.";
                      message "user" prompt])).
Proof.
  intros Hin. split; intros Hrun.
  - apply subtopics_requests_shape in Hrun. rewrite List.Forall_forall in Hrun.
    destruct (Hrun _ Hin) as (custom_id & prompt & ->).
    exists custom_id, prompt. repeat split; reflexivity.
  - apply tags_requests_shape in Hrun. rewrite List.Forall_forall in Hrun.
    destruct (Hrun _ Hin) as (custom_id & prompt & ->).
    exists custom_id, prompt. repeat split; reflexivity.
Qed.

Lemma requests_share_configuration_witness :
  member_at (hd VNone Examples.store_requests) ["body"; "max_tokens"] = Some (VInt 300).
Proof.
  destruct (proj1 (requests_share_configuration (H := Examples.plain_runtime)
                     Examples.store (VStr "1") Examples.store_requests
                     (hd VNone Examples.store_requests) (or_introl eq_refl))
              eq_refl)
    as (custom_id & prompt & _ & _ & _ & _ & _ & Htokens & _).
  exact Htokens.
Defined.

(** ** Rendering does not depend on the runtime *)

Lemma wf_record_texts (r : dict) :
  wf_record r = true ->
  optional is_str r "arabic" = true
  /\ optional is_str r "translation1" = true
  /\ optional is_str r "translation2" = true
  /\ optional is_str r "translation3" = true.
Proof.
  unfold wf_record. rewrite !andb_true_iff. tauto.
Qed.

Lemma field_or_runtime (R1 R2 : Runtime) (r : dict) (key placeholder : string) :
  optional is_str r key = true ->
  field_or (H := R1) r key placeholder = field_or (H := R2) r key placeholder.
Proof.
  unfold optional, field_or. destruct (dict_lookup r key) as [[]|]; try discriminate;
    reflexivity.
Qed.

Lemma shown_is_str (r : dict) (key : string) (v : value) :
  optional is_str r key = true -> shown r key = Some v -> is_str v = true.
Proof.
  unfold optional, shown. destruct (dict_lookup r key) as [w|]; [|discriminate].
  intros Hw. destruct (truthy w); [|discriminate]. now intros [= <-].
Qed.

Lemma numbered_lines_runtime (R1 R2 : Runtime) (ts : list value) :
  Forall (fun t => is_str t = true) ts ->
  numbered_lines (H := R1) ts = numbered_lines (H := R2) ts.
Proof.
  intros Hts. unfold numbered_lines. apply imap_ext. intros i t Ht.
  rewrite List.Forall_forall in Hts.
  assert (Hstr : is_str t = true).
  { apply Hts. now apply list_elem_of_In, list_elem_of_lookup_2 with i. }
  destruct t; try discriminate. reflexivity.
Qed.

Lemma shown_translations_str (r : dict) :
  wf_record r = true -> Forall (fun t => is_str t = true) (shown_translations r).
Proof.
  intros (_ & H1 & H2 & H3)%wf_record_texts.
  unfold shown_translations, translation_keys. cbn [omap list_omap].
  destruct (shown r "translation1") as [t1|] eqn:E1;
    destruct (shown r "translation2") as [t2|] eqn:E2;
    destruct (shown r "translation3") as [t3|] eqn:E3;
    repeat constructor; eauto using shown_is_str.
Qed.

Lemma subtopics_str_joined (r : dict) :
  optional is_str_list r "subtopic" = true ->
  Subtopics.subtopics_str_of r = Ok (joined_or r "subtopic" "No subtopics provided").
Proof.
  intros Hsub. exact (list_str_joined r "subtopic" "No subtopics provided" Hsub).
Qed.

Lemma neighbour_block_runtime (R1 R2 : Runtime) (neighbour : option dict) (kind : string) :
  wf_neighbour neighbour = true ->
  neighbour_block (H := R1) neighbour kind = neighbour_block (H := R2) neighbour kind.
Proof.
  destruct neighbour as [[|item rest]|]; try reflexivity.
  intros (Harabic & Htrans & _)%wf_record_texts. cbn [neighbour_block].
  now rewrite (field_or_runtime R1 R2 _ _ _ Harabic), (field_or_runtime R1 R2 _ _ _ Htrans).
Qed.

Lemma shown_absent (r : dict) (key : string) :
  dict_lookup r key = None -> shown r key = None.
Proof. intros Hkey. unfold shown. now rewrite Hkey. Qed.

Lemma py_str_agree (R1 R2 : Runtime) (v : value) :
  (forall w, @py_repr R1 w = @py_repr R2 w) ->
  py_str (H := R1) v = py_str (H := R2) v.
Proof. intros Hrepr. destruct v as [|[]| | | | |]; cbn [py_str]; auto. Qed.

Lemma create_prompt_agree (R1 R2 : Runtime) (r : dict) :
  (forall w, @py_repr R1 w = @py_repr R2 w) ->
  Subtopics.create_prompt (H := R1) r = Subtopics.create_prompt (H := R2) r.
Proof.
  intros Hrepr. unfold Subtopics.create_prompt.
  assert (Htext : Subtopics.translations_text_of (H := R1) r
                  = Subtopics.translations_text_of (H := R2) r).
  { unfold Subtopics.translations_text_of. f_equal. apply map_ext. intros it.
    unfold Subtopics.translation_line. now rewrite (py_str_agree R1 R2 _ Hrepr). }
  rewrite Htext. destruct (Subtopics.subtopics_str_of r); cbn [bind]; [|reflexivity].
  now rewrite (py_str_agree R1 R2 _ Hrepr).
Qed.

Lemma format_context_verse_agree (R1 R2 : Runtime) (verse : option dict) (kind : string) :
  (forall w, @py_repr R1 w = @py_repr R2 w) ->
  Tags.format_context_verse (H := R1) verse kind
  = Tags.format_context_verse (H := R2) verse kind.
Proof.
  intros Hrepr. destruct verse as [d|]; [|reflexivity].
  unfold Tags.format_context_verse. destruct (truthy (VDict d)); [|reflexivity].
  now rewrite !(py_str_agree R1 R2 _ Hrepr).
Qed.

Lemma create_tags_prompt_agree (R1 R2 : Runtime) (prev next : option dict) (r : dict) :
  (forall w, @py_repr R1 w = @py_repr R2 w) ->
  Tags.create_tags_prompt (H := R1) prev r next
  = Tags.create_tags_prompt (H := R2) prev r next.
Proof.
  intros Hrepr. unfold Tags.create_tags_prompt.
  rewrite !(format_context_verse_agree R1 R2 _ _ Hrepr).
  destruct (Tags.list_str_of r "topic" "No topics provided"); cbn [bind]; [|reflexivity].
  destruct (Tags.list_str_of r "subtopic" "No subtopics provided"); cbn [bind];
    [|reflexivity].
  now rewrite !(py_str_agree R1 R2 _ Hrepr).
Qed.

(** C8, as the scripts have it.  Both renderers are pure, on every record
    and every window: whether they return or raise, and what they return,
    is fixed by the record, the neighbours and Python's [repr]; files, the
    parser and what can be opened play no part.  On a well-formed record
    both renderers return a prompt, and the prompt does not depend on
    [repr] either.  With no translation at all the tagging prompt shows
    its placeholder for each of the three translations, and the
    refinement prompt shows an empty translations text: it has no
    placeholder for translations. *)
Theorem renderers_total_and_pure (r : dict) (prev next : option dict) :
  (forall R1 R2 : Runtime,
      (forall w, @py_repr R1 w = @py_repr R2 w) ->
      Subtopics.create_prompt (H := R1) r = Subtopics.create_prompt (H := R2) r
      /\ Tags.create_tags_prompt (H := R1) prev r next
         = Tags.create_tags_prompt (H := R2) prev r next)
  /\ (wf_record r = true ->
      (forall R : Runtime, exists prompt, Subtopics.create_prompt (H := R) r = Ok prompt)
      /\ (forall R : Runtime,
            exists prompt, Tags.create_tags_prompt (H := R) prev r next = Ok prompt)
      /\ (forall R1 R2 : Runtime,
            Subtopics.create_prompt (H := R1) r = Subtopics.create_prompt (H := R2) r)
      /\ (wf_neighbour prev = true -> wf_neighbour next = true ->
          forall R1 R2 : Runtime,
            Tags.create_tags_prompt (H := R1) prev r next
            = Tags.create_tags_prompt (H := R2) prev r next)
      /\ (dict_lookup r "translation1" = None ->
          dict_lookup r "translation2" = None ->
          dict_lookup r "translation3" = None ->
          forall R : Runtime,
            Subtopics.create_prompt (H := R) r
            = Ok (String.concat nl
                    (Subtopics.prompt_preamble ++
                     ["Arabic: " +:+ field_or r "arabic" "No Arabic text provided";
                      "Translations: ";
                      "Existing Subtopics: "
                      +:+ joined_or r "subtopic" "No subtopics provided";
                      blank]))
            /\ Tags.create_tags_prompt (H := R) prev r next
               = Ok (String.concat nl
                       (Tags.prompt_preamble ++
                        [neighbour_block prev "previous verse";
                         blank;
                         "Next Verse:";
                         neighbour_block next "next verse";
                         blank;
                         "Target Verse:";
                         "Arabic: " +:+ field_or r "arabic" "No Arabic text available";
                         "Translation1: No translation1 available";
                         "Translation2: No translation2 available";
                         "Translation3: No translation3 available";
                         "Topics: " +:+ joined_or r "topic" "No topics provided";
                         "Subtopics: " +:+ joined_or r "subtopic" "No subtopics provided"]
                        ++ Tags.prompt_epilogue)))).
Proof.
  split.
  { intros R1 R2 Hrepr. split;
      [now apply create_prompt_agree | now apply create_tags_prompt_agree]. }
  intros Hwf.
  destruct (wf_record_lists r Hwf) as [Htopic Hsub].
  destruct (wf_record_texts r Hwf) as (Harabic & _).
  split; [|split; [|split; [|split]]].
  - intros R. now apply create_prompt_total.
  - intros R. now apply create_tags_prompt_total.
  - intros R1 R2.
    rewrite !(create_prompt_layout _ _ (subtopics_str_joined r Hsub)).
    rewrite (field_or_runtime R1 R2 _ _ _ Harabic).
    now rewrite (numbered_lines_runtime R1 R2 _ (shown_translations_str r Hwf)).
  - intros Hprev Hnext R1 R2.
    rewrite !(create_tags_prompt_layout _ _ _ Htopic Hsub).
    destruct (wf_record_texts r Hwf) as (_ & H1 & H2 & H3).
    rewrite (neighbour_block_runtime R1 R2 _ _ Hprev), (neighbour_block_runtime R1 R2 _ _ Hnext).
    rewrite (field_or_runtime R1 R2 _ _ _ Harabic), (field_or_runtime R1 R2 _ _ _ H1).
    now rewrite (field_or_runtime R1 R2 _ _ _ H2), (field_or_runtime R1 R2 _ _ _ H3).
  - intros H1 H2 H3 R. split.
    + rewrite (create_prompt_layout _ _ (subtopics_str_joined r Hsub)).
      unfold shown_translations, translation_keys. cbn [omap list_omap].
      now rewrite !shown_absent by assumption.
    + rewrite (create_tags_prompt_layout _ _ _ Htopic Hsub).
      unfold field_or at 2 3 4. now rewrite H1, H2, H3.
Qed.

Lemma renderers_total_and_pure_witness :
  (Subtopics.create_prompt (H := Examples.plain_runtime) Examples.verse_untranslated
   = Subtopics.create_prompt (H := Examples.store_runtime) Examples.verse_untranslated)
  /\ exists prompt,
       Subtopics.create_prompt (H := Examples.plain_runtime) Examples.verse_untranslated
       = Ok prompt
       /\ occurs_in ("Translations: " +:+ nl +:+ "Existing Subtopics: Mercy") prompt = true.
Proof.
  destruct (renderers_total_and_pure Examples.verse_untranslated None None)
    as [Hpure Hwf].
  split.
  - exact (proj1 (Hpure Examples.plain_runtime Examples.store_runtime
                    (fun w => eq_refl))).
  - eexists. split.
    + exact (proj1 (proj2 (proj2 (proj2 (proj2 (Hwf eq_refl))))
               eq_refl eq_refl eq_refl Examples.plain_runtime)).
    + vm_compute. reflexivity.
Defined.

(** C8 as stated fails for the refinement renderer: with every translation
    absent it substitutes no placeholder, the translations text is empty,
    while the tagging renderer does show its placeholders. *)
Lemma renderers_counterexample :
  wf_record Examples.verse_untranslated = true
  /\ Subtopics.translations_text_of (H := Examples.plain_runtime) Examples.verse_untranslated
     = EmptyString
  /\ (exists prompt,
        Subtopics.create_prompt (H := Examples.plain_runtime) Examples.verse_untranslated
        = Ok prompt
        /\ occurs_in ("Translations: " +:+ nl +:+ "Existing Subtopics: ") prompt = true
        /\ occurs_in "No translation" prompt = false)
  /\ (exists prompt,
        Tags.create_tags_prompt (H := Examples.plain_runtime)
          None Examples.verse_untranslated None
        = Ok prompt
        /\ occurs_in "Translation1: No translation1 available" prompt = true).
Proof.
  split; [reflexivity|]. split; [reflexivity|].
  split; eexists; (split; [vm_compute; reflexivity|]); repeat split; vm_compute; reflexivity.
Qed.

(** * Further properties of the scripts *)

(** ** Indexing a dataset *)

Lemma list_getitem_inside {A} (l : list A) (i : Z) :
  - Z.of_nat (length l) <= i < Z.of_nat (length l) ->
  exists x,
    list_getitem l i = Ok x
    /\ l !! Z.to_nat (if i <? 0 then i + Z.of_nat (length l) else i) = Some x.
Proof.
  intros Hi. unfold list_getitem.
  set (j := if i <? 0 then i + Z.of_nat (length l) else i).
  assert (Hj : 0 <= j < Z.of_nat (length l)).
  { unfold j. destruct (Z.ltb_spec i 0); lia. }
  destruct (Z.leb_spec 0 j) as [_|]; [|lia].
  destruct (Z.ltb_spec j (Z.of_nat (length l))) as [_|]; [|lia].
  cbn [andb].
  destruct (lookup_lt_is_Some_2 l (Z.to_nat j)) as [x Hx]; [lia|].
  exists x. now rewrite Hx.
Qed.

Lemma list_getitem_outside {A} (l : list A) (i : Z) :
  ~ (- Z.of_nat (length l) <= i < Z.of_nat (length l)) ->
  list_getitem l i = Raise IndexError.
Proof.
  intros Hi. unfold list_getitem.
  set (j := if i <? 0 then i + Z.of_nat (length l) else i).
  assert (Hj : ~ (0 <= j < Z.of_nat (length l))).
  { unfold j. destruct (Z.ltb_spec i 0); lia. }
  destruct (Z.leb_spec 0 j) as [Hlo|]; [|reflexivity].
  destruct (Z.ltb_spec j (Z.of_nat (length l))) as [Hhi|]; [lia | reflexivity].
Qed.

(** X1. The context resolver accepts exactly the indices Python accepts
    for the dataset, from minus its length up to its length excluded: on
    these it returns a window, on any other (so on every index of an
    empty dataset) it raises [IndexError], and it raises nothing else. *)
Theorem get_verse_context_bounds (data : list dict) (i : Z) :
  (- Z.of_nat (length data) <= i < Z.of_nat (length data)
   <-> exists window, Tags.get_verse_context data i = Ok window)
  /\ (~ (- Z.of_nat (length data) <= i < Z.of_nat (length data))
      <-> Tags.get_verse_context data i = Raise IndexError)
  /\ (data = [] -> Tags.get_verse_context data i = Raise IndexError).
Proof.
  assert (Hin : - Z.of_nat (length data) <= i < Z.of_nat (length data) ->
                exists window, Tags.get_verse_context data i = Ok window).
  { intros Hi. unfold Tags.get_verse_context.
    destruct (list_getitem_inside data i Hi) as (cur & -> & _). cbn [bind].
    destruct (Z.ltb_spec 0 i) as [Hpos|Hneg].
    - destruct (list_getitem_inside data (i - 1)) as (p & -> & _); [lia|]. cbn [bind].
      destruct (Z.ltb_spec i (Z.of_nat (length data) - 1)) as [Hnext|_].
      + destruct (list_getitem_inside data (i + 1)) as (n & -> & _); [lia|].
        cbn [bind]. eauto.
      + cbn [bind]. eauto.
    - cbn [bind].
      destruct (Z.ltb_spec i (Z.of_nat (length data) - 1)) as [Hnext|_].
      + destruct (list_getitem_inside data (i + 1)) as (n & -> & _); [lia|].
        cbn [bind]. eauto.
      + cbn [bind]. eauto. }
  assert (Hout : ~ (- Z.of_nat (length data) <= i < Z.of_nat (length data)) ->
                 Tags.get_verse_context data i = Raise IndexError).
  { intros Hi. unfold Tags.get_verse_context.
    now rewrite (list_getitem_outside data i Hi). }
  split; [|split].
  - split; [exact Hin|]. intros [window Hwindow].
    destruct (Z_le_dec (- Z.of_nat (length data)) i) as [Hlo|Hlo];
      [destruct (Z_lt_dec i (Z.of_nat (length data))) as [Hhi|Hhi]; [lia|]|];
      rewrite Hout in Hwindow by lia; discriminate.
  - split; [exact Hout|]. intros Hraise Hi.
    destruct (Hin Hi) as [window Hwindow]. congruence.
  - intros ->. apply Hout. cbn. lia.
Qed.

Lemma get_verse_context_bounds_witness :
  Tags.get_verse_context Examples.store 3 = Raise IndexError
  /\ Tags.get_verse_context [] 0 = Raise IndexError.
Proof.
  split.
  - apply (proj1 (proj2 (get_verse_context_bounds Examples.store 3))). cbn. lia.
  - exact (proj2 (proj2 (get_verse_context_bounds [] 0)) eq_refl).
Defined.

(** X2. Called with a negative index, the resolver returns the record
    counted from the end, never a previous record, and as next record the
    one after it in cyclic order: at -1 the next record is the first
    record of the dataset. *)
Theorem get_verse_context_negative (data : list dict) (j : nat) (target next : dict) :
  data !! j = Some target ->
  data !! ((j + 1) mod length data)%nat = Some next ->
  Tags.get_verse_context data (Z.of_nat j - Z.of_nat (length data))
  = Ok (None, target, Some next).
Proof.
  intros Htarget Hnext. pose proof (lookup_lt_Some _ _ _ Htarget) as Hlt.
  set (n := length data) in *. set (i := Z.of_nat j - Z.of_nat n).
  assert (Hneg : i < 0) by (unfold i; lia).
  unfold Tags.get_verse_context.
  destruct (list_getitem_inside data i) as (cur & -> & Hcur); [unfold i; fold n; lia|].
  fold n in Hcur. destruct (Z.ltb_spec i 0) as [_|]; [|lia].
  replace (Z.to_nat (i + Z.of_nat n)) with j in Hcur by (unfold i; lia).
  rewrite Htarget in Hcur. injection Hcur as <-. cbn [bind].
  destruct (Z.ltb_spec 0 i) as [|_]; [lia|]. cbn [bind].
  fold n. destruct (Z.ltb_spec i (Z.of_nat n - 1)) as [_|]; [|lia].
  destruct (list_getitem_inside data (i + 1)) as (nxt & -> & Hnxt); [fold n; lia|].
  fold n in Hnxt. cbn [bind]. do 3 f_equal.
  destruct (Nat.eq_dec (j + 1)%nat n) as [Hlast|Hinner].
  - rewrite Hlast, Nat.Div0.mod_same in Hnext.
    destruct (Z.ltb_spec (i + 1) 0) as [|_]; [lia|].
    replace (Z.to_nat (i + 1)) with O in Hnxt by (unfold i; lia). congruence.
  - rewrite Nat.mod_small in Hnext by lia.
    destruct (Z.ltb_spec (i + 1) 0) as [_|]; [|lia].
    replace (Z.to_nat (i + 1 + Z.of_nat n)) with (j + 1)%nat in Hnxt by (unfold i; lia).
    congruence.
Qed.

Lemma get_verse_context_negative_witness :
  Tags.get_verse_context Examples.store (-1)
  = Ok (None, Examples.verse_2_1, Some Examples.verse_1_1).
Proof.
  exact (get_verse_context_negative Examples.store 2 Examples.verse_2_1 Examples.verse_1_1
           eq_refl eq_refl).
Defined.

(** X3. Windows of neighbouring indices chain: when a record and the
    record after it are both in the dataset, the window of the first has
    the second as next record and the window of the second has the first
    as previous record. *)
Theorem get_verse_context_chain (data : list dict) (i : nat) (first second : dict) :
  data !! i = Some first ->
  data !! S i = Some second ->
  exists before after,
    Tags.get_verse_context data (Z.of_nat i) = Ok (before, first, Some second)
    /\ Tags.get_verse_context data (Z.of_nat i + 1) = Ok (Some first, second, after).
Proof.
  intros Hfirst Hsecond.
  exists (window_prev data i), (window_next data (S i)). split.
  - rewrite (get_verse_context_window _ _ _ Hfirst). unfold window_next.
    now rewrite Hsecond.
  - replace (Z.of_nat i + 1) with (Z.of_nat (S i)) by lia.
    rewrite (get_verse_context_window _ _ _ Hsecond). cbn [window_prev].
    now rewrite Hfirst.
Qed.

Lemma get_verse_context_chain_witness :
  exists before after,
    Tags.get_verse_context Examples.store 0
    = Ok (before, Examples.verse_1_1, Some Examples.verse_1_2)
    /\ Tags.get_verse_context Examples.store (0 + 1)
       = Ok (Some Examples.verse_1_1, Examples.verse_1_2, after).
Proof.
  exact (get_verse_context_chain Examples.store 0 Examples.verse_1_1 Examples.verse_1_2
           eq_refl eq_refl).
Defined.

(** ** Failures of the loops *)

Lemma startswith_outcome (r : dict) (prefix : string) :
  startswith (dict_get r "id" (VStr EmptyString)) prefix
  = if bad_id r then Raise AttributeError else Ok (id_starts prefix r).
Proof.
  unfold bad_id, id_starts, dict_get.
  destruct (dict_lookup r "id") as [[]|]; reflexivity.
Qed.

Lemma subtopics_filter_loop_outcome (prefix : string) (items kept : list (nat * dict)) :
  Subtopics.filter_loop prefix items kept
  = if existsb (fun ix => bad_id (snd ix)) items then Raise AttributeError
    else Ok (kept ++ List.filter (fun ix => id_starts prefix (snd ix)) items).
Proof.
  revert kept. induction items as [|[i r] rest IH]; intros kept.
  - cbn. now rewrite app_nil_r.
  - cbn [Subtopics.filter_loop existsb List.filter snd].
    rewrite startswith_outcome. destruct (bad_id r); [reflexivity|].
    cbn [bind orb]. rewrite IH.
    destruct (existsb _ rest); [reflexivity|].
    destruct (id_starts prefix r); [now rewrite <- app_assoc | reflexivity].
Qed.

Lemma tags_filter_loop_outcome (prefix : string) (items : list (nat * dict))
    (kept : list Z) :
  Tags.filter_loop prefix items kept
  = if existsb (fun ix => bad_id (snd ix)) items then Raise AttributeError
    else Ok (kept ++ map (fun ix => Z.of_nat (fst ix))
                       (List.filter (fun ix => id_starts prefix (snd ix)) items)).
Proof.
  revert kept. induction items as [|[i r] rest IH]; intros kept.
  - cbn. now rewrite app_nil_r.
  - cbn [Tags.filter_loop existsb List.filter snd].
    rewrite startswith_outcome. destruct (bad_id r); [reflexivity|].
    cbn [bind orb]. rewrite IH.
    destruct (existsb _ rest); [reflexivity|].
    destruct (id_starts prefix r); [now rewrite <- app_assoc | reflexivity].
Qed.

Lemma existsb_snd_indexed {A} (p : A -> bool) (f : nat -> nat) (l : list A) :
  existsb (fun ix => p (snd ix)) (imap (fun i x => (f i, x)) l) = existsb p l.
Proof.
  revert f. induction l as [|x l IH]; intros f; [reflexivity|].
  cbn [imap existsb snd]. f_equal. apply (IH (fun i => f (S i))).
Qed.

Lemma existsb_snd_enumerate {A} (p : A -> bool) (l : list A) :
  existsb (fun ix => p (snd ix)) (enumerate l) = existsb p l.
Proof. apply (existsb_snd_indexed p (fun i => i)). Qed.

Lemma filter_group_pass `{Runtime} (surah_filter : value) (items : list (nat * dict)) :
  truthy surah_filter = true ->
  List.filter (fun ix => id_starts (py_str surah_filter +:+ "|") (snd ix)) items
  = List.filter (fun ix => group_pass surah_filter (snd ix)) items.
Proof.
  intros Htruthy. apply filter_ext. intros ix. now rewrite group_pass_id_starts.
Qed.

Lemma filter_group_falsy `{Runtime} (surah_filter : value) (items : list (nat * dict)) :
  truthy surah_filter = false ->
  List.filter (fun ix => group_pass surah_filter (snd ix)) items = items.
Proof.
  intros Hfalsy. erewrite filter_ext; [apply filter_all|].
  intros ix. now apply group_pass_falsy.
Qed.

Lemma filter_verses_outcome `{Runtime} (data : list dict) (surah_filter : value) :
  Subtopics.filter_verses data surah_filter
  = if truthy surah_filter && existsb bad_id data then Raise AttributeError
    else Ok (List.filter (fun ix => group_pass surah_filter (snd ix)) (enumerate data)).
Proof.
  unfold Subtopics.filter_verses. destruct (truthy surah_filter) eqn:Htruthy; cbn [andb].
  - rewrite subtopics_filter_loop_outcome, existsb_snd_enumerate.
    destruct (existsb bad_id data); [reflexivity|].
    cbn [app]. now rewrite filter_group_pass.
  - now rewrite filter_group_falsy.
Qed.

Lemma filter_indices_outcome `{Runtime} (data : list dict) (surah_filter : value) :
  Tags.filter_indices data surah_filter
  = if truthy surah_filter && existsb bad_id data then Raise AttributeError
    else Ok (map (fun ix => Z.of_nat (fst ix))
               (List.filter (fun ix => group_pass surah_filter (snd ix)) (enumerate data))).
Proof.
  unfold Tags.filter_indices. destruct (truthy surah_filter) eqn:Htruthy; cbn [andb].
  - rewrite tags_filter_loop_outcome, existsb_snd_enumerate.
    destruct (existsb bad_id data); [reflexivity|].
    cbn [app]. now rewrite filter_group_pass.
  - now rewrite filter_group_falsy, range_enumerate.
Qed.

(** X4. With a truthy filter, a single record whose id is present but is
    not a string makes the filter step of either script, and so the run,
    raise [AttributeError], whether or not the record belongs to the
    group; otherwise the filter step keeps the records that pass the group
    test, and with a falsy filter it looks at no id at all. *)
Theorem filter_step_outcome `{Runtime} (data : list dict) (surah_filter : value) :
  Subtopics.filter_verses data surah_filter
  = (if truthy surah_filter && existsb bad_id data then Raise AttributeError
     else Ok (List.filter (fun ix => group_pass surah_filter (snd ix)) (enumerate data)))
  /\ Tags.filter_indices data surah_filter
     = (if truthy surah_filter && existsb bad_id data then Raise AttributeError
        else Ok (map (fun ix => Z.of_nat (fst ix))
                   (List.filter (fun ix => group_pass surah_filter (snd ix))
                      (enumerate data))))
  /\ (truthy surah_filter = true -> existsb bad_id data = true ->
      Subtopics.batch_requests_of data surah_filter = Raise AttributeError
      /\ Tags.batch_requests_of data surah_filter = Raise AttributeError)
  /\ (truthy surah_filter = false ->
      Subtopics.filter_verses data surah_filter = Ok (enumerate data)
      /\ Tags.filter_indices data surah_filter = Ok (Tags.range (length data))).
Proof.
  split; [apply filter_verses_outcome|]. split; [apply filter_indices_outcome|]. split.
  - intros Htruthy Hbad.
    unfold Subtopics.batch_requests_of, Tags.batch_requests_of.
    now rewrite filter_verses_outcome, filter_indices_outcome, Htruthy, Hbad.
  - intros Hfalsy. unfold Subtopics.filter_verses, Tags.filter_indices.
    now rewrite Hfalsy.
Qed.

Lemma filter_step_outcome_witness :
  Subtopics.batch_requests_of (H := Examples.plain_runtime)
    [Examples.verse_1_1; Examples.verse_numeric_id] (VStr "1")
  = Raise AttributeError.
Proof.
  exact (proj1 (proj1 (proj2 (proj2 (filter_step_outcome (H := Examples.plain_runtime)
                  [Examples.verse_1_1; Examples.verse_numeric_id] (VStr "1"))))
           eq_refl eq_refl)).
Defined.

Lemma all_str_outcome (items : list value) :
  all_str items
  = if forallb is_str items
    then Ok (omap (fun v => match v with VStr s => Some s | _ => None end) items)
    else Raise TypeError.
Proof.
  induction items as [|v items IH]; [reflexivity|].
  cbn [all_str forallb omap list_omap].
  destruct v; try reflexivity. cbn [is_str andb]. rewrite IH.
  now destruct (forallb is_str items).
Qed.

Lemma str_join_outcome (sep : string) (v : value) :
  (joinable v = true -> exists s, str_join sep v = Ok s)
  /\ (joinable v = false -> str_join sep v = Raise TypeError).
Proof.
  destruct v as [| | | | |items|]; cbn [joinable str_join];
    try (split; [discriminate | reflexivity]);
    try (split; [eauto | discriminate]).
  rewrite all_str_outcome. destruct (forallb is_str items); cbn [bind].
  - split; [eauto | discriminate].
  - split; [discriminate | reflexivity].
Qed.

Lemma list_str_outcome (r : dict) (key placeholder : string) :
  (unjoinable r key = false -> exists s, Tags.list_str_of r key placeholder = Ok s)
  /\ (unjoinable r key = true -> Tags.list_str_of r key placeholder = Raise TypeError).
Proof.
  unfold unjoinable, Tags.list_str_of.
  destruct (str_join_outcome ", " (dict_get r key (VList []))) as [Hok Hraise].
  destruct (truthy (dict_get r key (VList []))); cbn [andb].
  - destruct (joinable (dict_get r key (VList []))); cbn [negb].
    + split; [intros _; now apply Hok | discriminate].
    + split; [discriminate | intros _; now apply Hraise].
  - split; [eauto | discriminate].
Qed.

Lemma create_prompt_outcome `{Runtime} (r : dict) :
  (unjoinable r "subtopic" = false -> exists prompt, Subtopics.create_prompt r = Ok prompt)
  /\ (unjoinable r "subtopic" = true -> Subtopics.create_prompt r = Raise TypeError).
Proof.
  destruct (list_str_outcome r "subtopic" "No subtopics provided") as [Hok Hraise].
  unfold Subtopics.create_prompt.
  change (Subtopics.subtopics_str_of r)
    with (Tags.list_str_of r "subtopic" "No subtopics provided").
  split; intros Hjoin.
  - destruct (Hok Hjoin) as [s ->]. cbn [bind]. eauto.
  - now rewrite (Hraise Hjoin).
Qed.

Lemma create_tags_prompt_outcome `{Runtime} (prev next : option dict) (r : dict) :
  (unjoinable r "topic" || unjoinable r "subtopic" = false ->
   exists prompt, Tags.create_tags_prompt prev r next = Ok prompt)
  /\ (unjoinable r "topic" || unjoinable r "subtopic" = true ->
      Tags.create_tags_prompt prev r next = Raise TypeError).
Proof.
  destruct (list_str_outcome r "topic" "No topics provided") as [Htok Htraise].
  destruct (list_str_outcome r "subtopic" "No subtopics provided") as [Hsok Hsraise].
  unfold Tags.create_tags_prompt.
  destruct (unjoinable r "topic"); cbn [orb].
  - split; [discriminate|]. intros _. now rewrite (Htraise eq_refl).
  - destruct (Htok eq_refl) as [t ->]. cbn [bind].
    destruct (unjoinable r "subtopic").
    + split; [discriminate|]. intros _. now rewrite (Hsraise eq_refl).
    + destruct (Hsok eq_refl) as [s ->]. cbn [bind]. split; [eauto | discriminate].
Qed.

(** X5. A renderer fails only on a list field it cannot join: the
    refinement renderer raises [TypeError] exactly when [subtopic] is
    truthy and is neither a list of strings, a dict nor a string, the
    tagging renderer exactly when [topic] or [subtopic] is; no other field
    of the record or of a neighbour, whatever its type, makes rendering
    fail. *)
Theorem renderer_failure `{Runtime} (r : dict) (prev next : option dict) :
  (unjoinable r "subtopic" = true <-> Subtopics.create_prompt r = Raise TypeError)
  /\ (unjoinable r "subtopic" = false <-> exists prompt, Subtopics.create_prompt r = Ok prompt)
  /\ (unjoinable r "topic" || unjoinable r "subtopic" = true
      <-> Tags.create_tags_prompt prev r next = Raise TypeError)
  /\ (unjoinable r "topic" || unjoinable r "subtopic" = false
      <-> exists prompt, Tags.create_tags_prompt prev r next = Ok prompt).
Proof.
  destruct (create_prompt_outcome r) as [Hok Hraise].
  destruct (create_tags_prompt_outcome prev next r) as [Htok Htraise].
  split; [|split; [|split]]; split; auto.
  - intros Hr. destruct (unjoinable r "subtopic"); [reflexivity|].
    destruct (Hok eq_refl) as [prompt Hprompt]. congruence.
  - intros [prompt Hprompt]. destruct (unjoinable r "subtopic"); [|reflexivity].
    rewrite (Hraise eq_refl) in Hprompt. discriminate.
  - intros Hr. destruct (unjoinable r "topic" || unjoinable r "subtopic"); [reflexivity|].
    destruct (Htok eq_refl) as [prompt Hprompt]. congruence.
  - intros [prompt Hprompt].
    destruct (unjoinable r "topic" || unjoinable r "subtopic"); [|reflexivity].
    rewrite (Htraise eq_refl) in Hprompt. discriminate.
Qed.

Lemma renderer_failure_witness :
  Subtopics.create_prompt (H := Examples.plain_runtime) Examples.verse_numeric_subtopic
  = Raise TypeError.
Proof.
  exact (proj1 (proj1 (renderer_failure (H := Examples.plain_runtime)
                         Examples.verse_numeric_subtopic None None))
           eq_refl).
Defined.

(** ** Runs *)






Lemma selected_in_data `{Runtime} (data : list dict) (surah_filter : value) :
  Forall (fun ix => data !! fst ix = Some (snd ix))
    (List.filter (fun ix => group_pass surah_filter (snd ix)) (enumerate data)).
Proof.
  apply List.Forall_forall. intros [i r] [Hin _]%filter_In.
  now apply list_elem_of_In, lookup_enumerate in Hin.
Qed.



Lemma read_json_raises `{Runtime} (fs : files) (file_path : string) (e : exn) :
  read_json fs file_path = Raise e -> load_error e = true.
Proof. intros He. now apply read_json_raise in He. Qed.


(** ** Assembly of a record without id *)

Lemma subtopics_request_loop_kinds `{Runtime} (items : list (nat * dict))
    (done : list value) (e : exn) :
  Subtopics.request_loop items done = Raise e ->
  (e = TypeError \/ e = KeyError "id")
  /\ (forallb (fun ix => negb (unjoinable (snd ix) "subtopic")) items = true ->
      e = KeyError "id").
Proof.
  revert done. induction items as [|[i r] rest IH]; intros done; [discriminate|].
  cbn [Subtopics.request_loop forallb snd].
  destruct (Subtopics.no_subtopics r).
  - intros [Hkind Hstrict]%IH. split; [exact Hkind|].
    intros [_ Hrest]%andb_true_iff. now apply Hstrict.
  - destruct (create_prompt_outcome r) as [Hok Hraise].
    destruct (unjoinable r "subtopic").
    + rewrite (Hraise eq_refl). cbn [bind]. intros [= <-].
      split; [now left | discriminate].
    + destruct (Hok eq_refl) as [prompt ->]. cbn [bind negb andb].
      unfold dict_getitem. destruct (dict_lookup r "id") as [id|]; cbn [bind].
      * apply IH.
      * intros [= <-]. split; [now right | reflexivity].
Qed.

Lemma tagging_request_kinds `{Runtime} (data : list dict) (i : nat) (r : dict) (e : exn) :
  data !! i = Some r ->
  tagging_request data i = Raise e ->
  (e = TypeError \/ e = KeyError "id")
  /\ (unjoinable r "topic" || unjoinable r "subtopic" = false -> e = KeyError "id").
Proof.
  intros Hr. unfold tagging_request. rewrite Hr.
  destruct (create_tags_prompt_outcome (window_prev data i) (window_next data i) r)
    as [Hok Hraise].
  destruct (unjoinable r "topic" || unjoinable r "subtopic").
  - rewrite (Hraise eq_refl). cbn [bind]. intros [= <-].
    split; [now left | discriminate].
  - destruct (Hok eq_refl) as [prompt ->]. cbn [bind].
    unfold dict_getitem. destruct (dict_lookup r "id") as [id|]; cbn [bind];
      [discriminate|].
    intros [= <-]. split; [now right | reflexivity].
Qed.

Lemma tags_request_loop_kinds `{Runtime} (data : list dict) (selected : list (nat * dict))
    (done : list value) (e : exn) :
  Forall (fun ix => data !! fst ix = Some (snd ix)) selected ->
  Tags.request_loop data (map (fun ix => Z.of_nat (fst ix)) selected) done = Raise e ->
  (e = TypeError \/ e = KeyError "id")
  /\ (forallb (fun ix => negb (unjoinable (snd ix) "topic" || unjoinable (snd ix) "subtopic"))
        selected = true ->
      e = KeyError "id").
Proof.
  intros Hsel. revert done. induction Hsel as [|[i r] rest Hr _ IH]; intros done;
    [discriminate|].
  cbn [fst snd] in Hr. cbn [map fst snd forallb Tags.request_loop].
  rewrite (request_at_tagging _ _ _ Hr).
  destruct (tagging_request data i) as [request|e'] eqn:Hrequest; cbn [bind].
  - intros [Hkind Hstrict]%IH. split; [exact Hkind|].
    intros [_ Hrest]%andb_true_iff. now apply Hstrict.
  - intros [= <-].
    destruct (tagging_request_kinds _ _ _ _ Hr Hrequest) as [Hkind Hstrict].
    split; [exact Hkind|]. intros [Hhead _]%andb_true_iff.
    apply Hstrict. now apply negb_true_iff in Hhead.
Qed.

Lemma forallb_filter_snd {A} (p q : A -> bool) (l : list A) :
  forallb q l = true ->
  forallb (fun ix => q (snd ix)) (List.filter (fun ix => p (snd ix)) (enumerate l)) = true.
Proof.
  intros Hall. apply forallb_forall. intros [i x] [Hin _]%filter_In.
  rewrite forallb_forall in Hall. apply Hall.
  apply list_elem_of_In. apply list_elem_of_In, lookup_enumerate in Hin.
  now apply list_elem_of_lookup_2 with i.
Qed.

(** C4, as the scripts have it.  Every assembled request carries the id
    of its record as [custom_id], whatever that id is.  A selected record
    with no [id] makes the whole run raise before the output file is
    opened, so that no file is changed: the exception is [KeyError] for
    the missing id unless rendering a record raises [TypeError] first,
    which no record with joinable list fields does.  With a truthy filter
    every selected record has a non-empty string id. *)
Theorem custom_id_is_record_id `{Runtime} (data : list dict) (surah_filter : value) :
  (forall requests,
      Subtopics.batch_requests_of data surah_filter = Ok requests ->
      Forall2 (fun r request =>
                 exists id, dict_lookup r "id" = Some id /\ custom_id_of request = Some id)
        (List.filter (fun r => group_pass surah_filter r && has_annotation "subtopic" r) data)
        requests)
  /\ (forall requests,
        Tags.batch_requests_of data surah_filter = Ok requests ->
        Forall2 (fun ix request =>
                   exists id,
                     dict_lookup (snd ix) "id" = Some id /\ custom_id_of request = Some id)
          (List.filter (fun ix => group_pass surah_filter (snd ix)) (enumerate data))
          requests)
  /\ (forall r,
        In r data -> group_pass surah_filter r = true ->
        has_annotation "subtopic" r = true -> dict_lookup r "id" = None ->
        exists e,
          Subtopics.batch_requests_of data surah_filter = Raise e
          /\ (e = TypeError \/ e = KeyError "id")
          /\ (forallb (fun r => negb (unjoinable r "subtopic")) data = true ->
              e = KeyError "id")
          /\ forall fs input_file output_file,
               Subtopics.load_dataset fs input_file = Ok data ->
               Subtopics.create_batch_file fs input_file output_file surah_filter
               = (Raise e, fs))
  /\ (forall r,
        In r data -> group_pass surah_filter r = true -> dict_lookup r "id" = None ->
        exists e,
          Tags.batch_requests_of data surah_filter = Raise e
          /\ (e = TypeError \/ e = KeyError "id")
          /\ (forallb (fun r => negb (unjoinable r "topic" || unjoinable r "subtopic")) data
              = true ->
              e = KeyError "id")
          /\ forall fs input_file output_file,
               Tags.load_dataset fs input_file = Ok data ->
               Tags.create_batch_file fs input_file output_file surah_filter
               = (Raise e, fs))
  /\ (truthy surah_filter = true ->
      forall r, group_pass surah_filter r = true ->
                exists s, dict_lookup r "id" = Some (VStr s) /\ s <> EmptyString).
Proof.
  assert (Hfalsy : forall r,
             group_pass surah_filter r = true -> dict_lookup r "id" = None ->
             truthy surah_filter = false).
  { intros r Hgroup Hid. destruct (truthy surah_filter) eqn:Htruthy; [|reflexivity].
    destruct (group_pass_truthy_id _ _ Htruthy Hgroup) as (id & Hid' & _). congruence. }
  split; [|split; [|split; [|split]]].
  - intros requests Hrun%subtopics_run_result.
    eapply Forall2_impl; [exact Hrun|].
    intros r request (prompt & id & _ & Hid & ->)%refinement_request_inv.
    now exists id.
  - intros requests Hrun%tags_run_result.
    eapply Forall2_weaken_in; [exact Hrun|].
    intros [i r] request [Hin _]%filter_In
      (target & prompt & id & Htarget & _ & Hid & ->)%tagging_request_inv.
    apply list_elem_of_In, lookup_enumerate in Hin. cbn [fst snd] in *.
    rewrite Hin in Htarget. injection Htarget as <-. now exists id.
  - intros r Hr Hgroup Hsub Hid.
    destruct (Subtopics.batch_requests_of data surah_filter) as [requests|e] eqn:Hrun.
    + apply subtopics_run_result in Hrun.
      destruct (Forall2_elem_l _ _ _ r Hrun) as (request & _ & Hrequest).
      { apply filter_In. split; [exact Hr | now rewrite Hgroup, Hsub]. }
      apply refinement_request_inv in Hrequest as (prompt & id & _ & Hid' & _).
      congruence.
    + exists e. split; [reflexivity|].
      assert (Hkinds : (e = TypeError \/ e = KeyError "id")
                       /\ (forallb (fun r => negb (unjoinable r "subtopic")) data = true ->
                           e = KeyError "id")).
      { unfold Subtopics.batch_requests_of in Hrun.
        rewrite filter_verses_outcome, (Hfalsy r Hgroup Hid) in Hrun.
        cbn [andb bind] in Hrun.
        apply subtopics_request_loop_kinds in Hrun as [Hkind Hstrict].
        split; [exact Hkind|]. intros Hall. apply Hstrict.
        now apply (forallb_filter_snd (group_pass surah_filter)
                     (fun r => negb (unjoinable r "subtopic"))). }
      destruct Hkinds as [Hkind Hstrict]. split; [exact Hkind|]. split; [exact Hstrict|].
      intros fs input_file output_file Hload.
      unfold Subtopics.create_batch_file. now rewrite Hload, Hrun.
  - intros r Hr Hgroup Hid.
    destruct (Tags.batch_requests_of data surah_filter) as [requests|e] eqn:Hrun.
    + apply tags_run_result in Hrun.
      apply list_elem_of_In, list_elem_of_lookup in Hr as [i Hi].
      destruct (Forall2_elem_l _ _ _ (i, r) Hrun) as (request & _ & Hrequest).
      { apply filter_In. split; [|exact Hgroup].
        now apply list_elem_of_In, lookup_enumerate. }
      apply tagging_request_inv in Hrequest
        as (target & prompt & id & Htarget & _ & Hid' & _).
      cbn [fst] in Htarget. congruence.
    + exists e. split; [reflexivity|].
      assert (Hkinds : (e = TypeError \/ e = KeyError "id")
                       /\ (forallb (fun r => negb (unjoinable r "topic"
                                                     || unjoinable r "subtopic")) data
                           = true ->
                           e = KeyError "id")).
      { unfold Tags.batch_requests_of in Hrun.
        rewrite filter_indices_outcome, (Hfalsy r Hgroup Hid) in Hrun.
        cbn [andb bind] in Hrun.
        apply tags_request_loop_kinds in Hrun as [Hkind Hstrict];
          [|apply selected_in_data].
        split; [exact Hkind|]. intros Hall. apply Hstrict.
        now apply (forallb_filter_snd (group_pass surah_filter)
                     (fun r => negb (unjoinable r "topic" || unjoinable r "subtopic"))). }
      destruct Hkinds as [Hkind Hstrict]. split; [exact Hkind|]. split; [exact Hstrict|].
      intros fs input_file output_file Hload.
      unfold Tags.create_batch_file. now rewrite Hload, Hrun.
  - intros Htruthy r. now apply group_pass_truthy_id.
Qed.

Lemma custom_id_is_record_id_witness :
  Subtopics.batch_requests_of (H := Examples.plain_runtime)
    [Examples.verse_1_1; Examples.verse_no_id] VNone
  = Raise (KeyError "id").
Proof.
  destruct (proj1 (proj2 (proj2 (custom_id_is_record_id (H := Examples.plain_runtime)
                                   [Examples.verse_1_1; Examples.verse_no_id] VNone)))
              Examples.verse_no_id (or_intror (or_introl eq_refl)) eq_refl eq_refl eq_refl)
    as (e & He & _ & Hstrict & _).
  rewrite He. f_equal. exact (Hstrict eq_refl).
Defined.

(** C4 as stated fails: a record with an empty id is assembled, with an
    empty [custom_id]; and a record with no id is not skipped, the run
    fails with [KeyError] although the first record was fine. *)
Lemma assembly_counterexample :
  (exists request,
      Subtopics.batch_requests_of (H := Examples.plain_runtime)
        [Examples.verse_blank_id] VNone
      = Ok [request]
      /\ custom_id_of request = Some (VStr EmptyString))
  /\ Subtopics.batch_requests_of (H := Examples.plain_runtime)
       [Examples.verse_1_1; Examples.verse_no_id] VNone
     = Raise (KeyError "id")
  /\ Tags.batch_requests_of (H := Examples.plain_runtime)
       [Examples.verse_1_1; Examples.verse_no_id] VNone
     = Raise (KeyError "id").
Proof.
  split; [eexists; split; vm_compute; reflexivity|].
  split; vm_compute; reflexivity.
Qed.




Lemma subtopics_run_inv `{Runtime} (fs fs' : files) (input_file output_file : string)
    (surah_filter : value) (n : Z) :
  Subtopics.create_batch_file fs input_file output_file surah_filter = (Ok n, fs') ->
  exists data requests,
    read_json fs input_file = Ok data
    /\ Subtopics.batch_requests_of data surah_filter = Ok requests
    /\ writable output_file = true
    /\ forallb encodable requests = true
    /\ fs' = <[output_file := jsonl requests]> fs
    /\ n = Z.of_nat (length requests).
Proof.
  unfold Subtopics.create_batch_file, Subtopics.load_dataset.
  destruct (read_json fs input_file) as [data|] eqn:Hload; [|discriminate].
  destruct (Subtopics.batch_requests_of data surah_filter) as [requests|] eqn:Hreqs;
    [|discriminate].
  rewrite write_jsonl_outcome. destruct (writable output_file); [|discriminate].
  destruct (forallb encodable requests) eqn:Hall; [|discriminate].
  rewrite written_before_all by assumption.
  intros [= <- <-]. exists data, requests. repeat split; assumption || reflexivity.
Qed.

Lemma tags_run_inv `{Runtime} (fs fs' : files) (input_file output_file : string)
    (surah_filter : value) (n : Z) :
  Tags.create_batch_file fs input_file output_file surah_filter = (Ok n, fs') ->
  exists data requests,
    read_json fs input_file = Ok data
    /\ Tags.batch_requests_of data surah_filter = Ok requests
    /\ writable output_file = true
    /\ forallb encodable requests = true
    /\ fs' = <[output_file := jsonl requests]> fs
    /\ n = Z.of_nat (length requests).
Proof.
  unfold Tags.create_batch_file, Tags.load_dataset.
  destruct (read_json fs input_file) as [data|] eqn:Hload; [|discriminate].
  destruct (Tags.batch_requests_of data surah_filter) as [requests|] eqn:Hreqs;
    [|discriminate].
  rewrite write_jsonl_outcome. destruct (writable output_file); [|discriminate].
  destruct (forallb encodable requests) eqn:Hall; [|discriminate].
  rewrite written_before_all by assumption.
  intros [= <- <-]. exists data, requests. repeat split; assumption || reflexivity.
Qed.






(** X8. Running a script again changes nothing: when the output file is
    not the input file, a second run on the files a successful run left
    returns the same count and leaves the same files. *)
Theorem rerun_changes_nothing `{Runtime} (fs fs' : files)
    (input_file output_file : string) (surah_filter : value) (n : Z) :
  input_file <> output_file ->
  (Subtopics.create_batch_file fs input_file output_file surah_filter = (Ok n, fs') ->
   Subtopics.create_batch_file fs' input_file output_file surah_filter = (Ok n, fs'))
  /\ (Tags.create_batch_file fs input_file output_file surah_filter = (Ok n, fs') ->
      Tags.create_batch_file fs' input_file output_file surah_filter = (Ok n, fs')).
Proof.
  intros Hpaths.
  assert (Hread : forall text,
             read_json (<[output_file := text]> fs) input_file = read_json fs input_file).
  { intros text. unfold read_json. now rewrite lookup_insert_ne by congruence. }
  split; intros Hrun.
  - destruct (subtopics_run_inv _ _ _ _ _ _ Hrun)
      as (data & requests & Hload & Hreqs & Hw & Hall & -> & ->).
    unfold Subtopics.create_batch_file, Subtopics.load_dataset.
    rewrite Hread, Hload, Hreqs, write_jsonl_outcome, Hw, Hall.
    now rewrite written_before_all, insert_insert_eq.
  - destruct (tags_run_inv _ _ _ _ _ _ Hrun)
      as (data & requests & Hload & Hreqs & Hw & Hall & -> & ->).
    unfold Tags.create_batch_file, Tags.load_dataset.
    rewrite Hread, Hload, Hreqs, write_jsonl_outcome, Hw, Hall.
    now rewrite written_before_all, insert_insert_eq.
Qed.

Lemma rerun_changes_nothing_witness :
  let after :=
    snd (Tags.create_batch_file (H := Examples.store_runtime) Examples.store_files
           "dataset.json" "requests.jsonl" (VInt 1)) in
  Tags.create_batch_file (H := Examples.store_runtime) after
    "dataset.json" "requests.jsonl" (VInt 1)
  = (Ok 2, after).
Proof.
  intros after.
  assert (Hpaths : "dataset.json" <> "requests.jsonl") by discriminate.
  exact (proj2 (rerun_changes_nothing (H := Examples.store_runtime) Examples.store_files
                  after "dataset.json" "requests.jsonl" (VInt 1) 2 Hpaths)
           eq_refl).
Defined.

Lemma subtopics_request_loop_skips `{Runtime} (items : list (nat * dict))
    (done : list value) :
  forallb (fun ix => negb (has_annotation "subtopic" (snd ix))) items = true ->
  Subtopics.request_loop items done = Ok done.
Proof.
  induction items as [|[i r] rest IH]; [reflexivity|].
  cbn [forallb snd Subtopics.request_loop].
  intros [Hr Hrest]%andb_true_iff. rewrite no_subtopics_annotation, Hr. now apply IH.
Qed.

Lemma forallb_filter {A} (p q : A -> bool) (l : list A) :
  forallb (fun x => negb (p x && q x)) l = true ->
  forallb (fun x => negb (q x)) (List.filter p l) = true.
Proof.
  induction l as [|x l IH]; [reflexivity|]. cbn [forallb List.filter].
  intros [Hx Hl]%andb_true_iff. destruct (p x); cbn [forallb]; [|now apply IH].
  cbn [andb] in Hx. rewrite Hx. now apply IH.
Qed.

Lemma forallb_snd_indexed {A} (p : A -> bool) (f : nat -> nat) (l : list A) :
  forallb (fun ix => p (snd ix)) (imap (fun i x => (f i, x)) l) = forallb p l.
Proof.
  revert f. induction l as [|x l IH]; intros f; [reflexivity|].
  cbn [imap forallb snd]. f_equal. apply (IH (fun i => f (S i))).
Qed.

Lemma forallb_snd_enumerate {A} (p : A -> bool) (l : list A) :
  forallb (fun ix => p (snd ix)) (enumerate l) = forallb p l.
Proof. apply (forallb_snd_indexed p (fun i => i)). Qed.

Lemma filter_none {A} (p : A -> bool) (l : list A) :
  forallb (fun x => negb (p x)) l = true -> List.filter p l = [].
Proof.
  induction l as [|x l IH]; [reflexivity|]. cbn [forallb List.filter].
  intros [Hx Hl]%andb_true_iff. destruct (p x); [discriminate | now apply IH].
Qed.

(** X9. When no record is selected (the dataset is empty, no id starts
    with the prefix, or, in the refinement script, no selected record has
    subtopics), a run still succeeds provided no id stops the filter step:
    it returns 0 and creates the output file with no content. *)
Theorem empty_selection_writes_empty_file `{Runtime} (fs : files)
    (input_file output_file : string) (surah_filter : value) (data : list dict) :
  read_json fs input_file = Ok data ->
  writable output_file = true ->
  truthy surah_filter && existsb bad_id data = false ->
  (forallb (fun r => negb (group_pass surah_filter r && has_annotation "subtopic" r)) data
   = true ->
   Subtopics.create_batch_file fs input_file output_file surah_filter
   = (Ok 0, <[output_file := EmptyString]> fs))
  /\ (forallb (fun r => negb (group_pass surah_filter r)) data = true ->
      Tags.create_batch_file fs input_file output_file surah_filter
      = (Ok 0, <[output_file := EmptyString]> fs)).
Proof.
  intros Hload Hw Hids. split; intros Hnone.
  - unfold Subtopics.create_batch_file, Subtopics.load_dataset,
      Subtopics.batch_requests_of.
    rewrite Hload, filter_verses_outcome, Hids. cbn [bind].
    rewrite subtopics_request_loop_skips.
    + rewrite write_jsonl_outcome, Hw. reflexivity.
    + apply (forallb_filter (fun ix => group_pass surah_filter (snd ix))
               (fun ix => has_annotation "subtopic" (snd ix))).
      now rewrite (forallb_snd_enumerate
                     (fun r => negb (group_pass surah_filter r
                                     && has_annotation "subtopic" r))).
  - unfold Tags.create_batch_file, Tags.load_dataset, Tags.batch_requests_of.
    rewrite Hload, filter_indices_outcome, Hids. cbn [bind].
    rewrite (filter_none (fun ix => group_pass surah_filter (snd ix))).
    + cbn [map Tags.request_loop]. rewrite write_jsonl_outcome, Hw. reflexivity.
    + now rewrite (forallb_snd_enumerate (fun r => negb (group_pass surah_filter r))).
Qed.

Lemma empty_selection_writes_empty_file_witness :
  Tags.create_batch_file (H := Examples.store_runtime) Examples.store_files
    "dataset.json" "requests.jsonl" (VStr "114")
  = (Ok 0, <["requests.jsonl" := EmptyString]> Examples.store_files).
Proof.
  exact (proj2 (empty_selection_writes_empty_file (H := Examples.store_runtime)
                  Examples.store_files "dataset.json" "requests.jsonl" (VStr "114")
                  Examples.store eq_refl eq_refl eq_refl)
           eq_refl).
Defined.

(** ** Groups and ids *)

Lemma no_bar_cons (c : ascii) (s : string) :
  no_bar (String c s) = negb (Ascii.eqb c "|") && no_bar s.
Proof. reflexivity. Qed.

Lemma prefix_cons (a b : ascii) (s t : string) :
  String.prefix (String a s) (String b t)
  = if Ascii.eqb a b then String.prefix s t else false.
Proof.
  cbn [String.prefix]. destruct (ascii_dec a b) as [->|Hne].
  - now rewrite Ascii.eqb_refl.
  - destruct (Ascii.eqb_spec a b); [contradiction | reflexivity].
Qed.

Lemma prefix_group (g g' position : string) :
  no_bar g = true -> no_bar g' = true ->
  String.prefix (g +:+ "|") (g' +:+ "|" +:+ position) = true <-> g = g'.
Proof.
  revert g'. induction g as [|a g IH]; intros [|b g'] Hg Hg'.
  - split; [reflexivity|]. intros _.
    change (String.prefix (String "|" EmptyString) (String "|" position) = true).
    rewrite prefix_cons, Ascii.eqb_refl. now destruct position.
  - rewrite no_bar_cons in Hg'. apply andb_true_iff in Hg' as [Hb _].
    change (EmptyString +:+ "|") with (String "|" EmptyString).
    rewrite append_cons, prefix_cons. rewrite Ascii.eqb_sym in Hb.
    destruct (Ascii.eqb "|" b); [discriminate|]. split; discriminate.
  - rewrite no_bar_cons in Hg. apply andb_true_iff in Hg as [Ha _].
    change (EmptyString +:+ "|" +:+ position) with (String "|" position).
    rewrite append_cons, prefix_cons.
    destruct (Ascii.eqb a "|"); [discriminate|]. split; discriminate.
  - rewrite no_bar_cons in Hg, Hg'.
    apply andb_true_iff in Hg as [_ Hg]. apply andb_true_iff in Hg' as [_ Hg'].
    rewrite !append_cons, prefix_cons.
    destruct (Ascii.eqb_spec a b) as [->|Hne].
    + rewrite (IH g' Hg Hg'). split; [now intros -> | now intros [= ->]].
    + split; [discriminate | intros [= ? ?]; contradiction].
Qed.

Lemma no_bar_uint (d : Decimal.uint) : no_bar (NilEmpty.string_of_uint d) = true.
Proof. induction d; cbn; auto. Qed.

Lemma no_bar_str_int (n : Z) : no_bar (str_int n) = true.
Proof.
  unfold str_int, NilZero.string_of_int, NilZero.string_of_uint.
  destruct (Z.to_int n) as [d|d]; destruct d; cbn; auto using no_bar_uint.
Qed.

(** X10. The bar appended to the filter makes the group test exact: for
    an id of the form group, bar, position and a truthy filter whose text
    has no bar (every integer, every name without a bar), the record is
    selected exactly when its group is the text of the filter, so filter 1
    never selects a verse of group 11 or 114. *)
Theorem group_filter_exact `{Runtime} (surah_filter : value) (r : dict)
    (group position : string) :
  truthy surah_filter = true ->
  no_bar (py_str surah_filter) = true ->
  no_bar group = true ->
  dict_lookup r "id" = Some (VStr (group +:+ "|" +:+ position)) ->
  (group_pass surah_filter r = true <-> group = py_str surah_filter)
  /\ (forall n, no_bar (py_str (VInt n)) = true).
Proof.
  intros Htruthy Hfilter Hgroup Hid. split.
  - rewrite (group_pass_id _ _ _ Htruthy Hid), prefix_group by assumption.
    split; congruence.
  - intros n. apply no_bar_str_int.
Qed.

Lemma group_filter_exact_witness :
  group_pass (H := Examples.plain_runtime) (VInt 1) Examples.verse_11_3 = true
  <-> "11" = "1".
Proof.
  exact (proj1 (group_filter_exact (H := Examples.plain_runtime) (VInt 1)
                  Examples.verse_11_3 "11" "3" eq_refl eq_refl eq_refl eq_refl)).
Defined.

Lemma map_filter_sublist {A B} (f : A -> B) (p : A -> bool) (l : list A) :
  sublist (map f (List.filter p l)) (map f l).
Proof.
  induction l as [|x l IH]; cbn; [constructor|].
  destruct (p x); cbn; now constructor.
Qed.

Lemma Forall2_map_eq {A B C} (f : A -> C) (g : B -> C) (l : list A) (k : list B) :
  Forall2 (fun x y => g y = f x) l k -> map g k = map f l.
Proof. induction 1 as [|x y l k Hxy _ IH]; cbn; [reflexivity | now rewrite Hxy, IH]. Qed.

Lemma refinement_custom_id `{Runtime} (r : dict) (request : value) :
  refinement_request r = Ok request -> custom_id_of request = dict_lookup r "id".
Proof.
  intros (prompt & id & _ & Hid & ->)%refinement_request_inv. now rewrite Hid.
Qed.

Lemma subtopics_custom_ids `{Runtime} (data : list dict) (surah_filter : value)
    (requests : list value) :
  Subtopics.batch_requests_of data surah_filter = Ok requests ->
  map custom_id_of requests
  = record_ids
      (List.filter (fun r => group_pass surah_filter r && has_annotation "subtopic" r) data).
Proof.
  intros Hrun%subtopics_run_result. unfold record_ids. apply Forall2_map_eq.
  eapply Forall2_impl; [exact Hrun|]. intros r request. apply refinement_custom_id.
Qed.

Lemma tags_custom_ids `{Runtime} (data : list dict) (surah_filter : value)
    (requests : list value) :
  Tags.batch_requests_of data surah_filter = Ok requests ->
  map custom_id_of requests = record_ids (List.filter (group_pass surah_filter) data).
Proof.
  intros Hrun%tags_run_result. unfold record_ids.
  rewrite <- (filter_snd_enumerate (group_pass surah_filter)), map_map.
  apply Forall2_map_eq. eapply Forall2_weaken_in; [exact Hrun|].
  intros [i r] request [Hin _]%filter_In
    (target & prompt & id & Htarget & _ & Hid & ->)%tagging_request_inv.
  apply list_elem_of_In, lookup_enumerate in Hin. cbn [fst snd] in *.
  rewrite Hin in Htarget. injection Htarget as <-. now rewrite Hid.
Qed.

(** X11. A run keeps ids distinct: when no two records of the dataset
    have the same id, no two requests of a run of either script have the
    same [custom_id]. *)
Theorem distinct_ids_stay_distinct `{Runtime} (data : list dict) (surah_filter : value)
    (requests : list value) :
  NoDup (record_ids data) ->
  Subtopics.batch_requests_of data surah_filter = Ok requests
  \/ Tags.batch_requests_of data surah_filter = Ok requests ->
  NoDup (map custom_id_of requests).
Proof.
  intros Hdistinct [Hrun|Hrun].
  - rewrite (subtopics_custom_ids _ _ _ Hrun).
    eapply sublist_NoDup; [exact Hdistinct | apply map_filter_sublist].
  - rewrite (tags_custom_ids _ _ _ Hrun).
    eapply sublist_NoDup; [exact Hdistinct | apply map_filter_sublist].
Qed.

Lemma distinct_ids_stay_distinct_witness :
  NoDup (map custom_id_of Examples.store_requests).
Proof.
  assert (Hdistinct : NoDup (record_ids Examples.store)).
  { apply NoDup_ListNoDup. repeat constructor; cbn; intuition discriminate. }
  exact (distinct_ids_stay_distinct (H := Examples.plain_runtime) Examples.store (VStr "1")
           Examples.store_requests Hdistinct (or_introl eq_refl)).
Defined.

(** X12. Every verse the refinement script processes is one the tagging
    script processes: for the same dataset and filter, the [custom_id]s of
    a refinement run are, in order, among those of a tagging run. *)
Theorem refined_verses_are_tagged `{Runtime} (data : list dict) (surah_filter : value)
    (refined tagged : list value) :
  Subtopics.batch_requests_of data surah_filter = Ok refined ->
  Tags.batch_requests_of data surah_filter = Ok tagged ->
  sublist (map custom_id_of refined) (map custom_id_of tagged)
  /\ (length refined <= length tagged)%nat.
Proof.
  intros Hrefined Htagged.
  assert (Hsub : sublist (map custom_id_of refined) (map custom_id_of tagged)).
  { rewrite (subtopics_custom_ids _ _ _ Hrefined), (tags_custom_ids _ _ _ Htagged).
    rewrite <- (filter_and (group_pass surah_filter) (has_annotation "subtopic")).
    apply map_filter_sublist. }
  split; [exact Hsub|]. apply sublist_length in Hsub. now rewrite !length_map in Hsub.
Qed.

Lemma refined_verses_are_tagged_witness :
  exists tagged,
    Tags.batch_requests_of (H := Examples.plain_runtime) Examples.store (VStr "1") = Ok tagged
    /\ sublist (map custom_id_of Examples.store_requests) (map custom_id_of tagged).
Proof.
  eexists. split; [vm_compute; reflexivity|].
  exact (proj1 (refined_verses_are_tagged (H := Examples.plain_runtime) Examples.store
                  (VStr "1") Examples.store_requests _ eq_refl eq_refl)).
Defined.

Lemma subtopics_request_loop_records `{Runtime} (items items' : list (nat * dict))
    (done : list value) :
  map snd items = map snd items' ->
  Subtopics.request_loop items done = Subtopics.request_loop items' done.
Proof.
  revert items' done. induction items as [|[i r] rest IH]; intros [|[i' r'] rest'] done;
    try discriminate; [reflexivity|].
  cbn [map snd]. intros [= <- Hrest]. cbn [Subtopics.request_loop].
  destruct (Subtopics.no_subtopics r); [now apply IH|].
  destruct (Subtopics.create_prompt r); [|reflexivity].
  destruct (dict_getitem r "id"); [|reflexivity].
  cbn [bind]. now apply IH.
Qed.

Lemma map_snd_enumerate {A} (l : list A) : map snd (enumerate l) = l.
Proof.
  rewrite <- (filter_all (enumerate l)).
  rewrite (filter_snd_enumerate (fun _ => true)). apply filter_all.
Qed.

(** X13. The refinement script never uses the position of a record: when
    the filter step does not fail, a run with a filter builds the same
    requests, or fails in the same way, as a run with no filter over the
    records that pass the group test. *)
Theorem refinement_filter_commutes `{Runtime} (data : list dict) (surah_filter : value) :
  truthy surah_filter && existsb bad_id data = false ->
  Subtopics.batch_requests_of data surah_filter
  = Subtopics.batch_requests_of (List.filter (group_pass surah_filter) data) VNone.
Proof.
  intros Hids. unfold Subtopics.batch_requests_of.
  rewrite !filter_verses_outcome, Hids. cbn [truthy andb bind].
  rewrite (filter_group_falsy VNone) by reflexivity.
  apply subtopics_request_loop_records.
  now rewrite filter_snd_enumerate, map_snd_enumerate.
Qed.

Lemma refinement_filter_commutes_witness :
  Subtopics.batch_requests_of (H := Examples.plain_runtime) Examples.store (VStr "1")
  = Subtopics.batch_requests_of (H := Examples.plain_runtime)
      [Examples.verse_1_1; Examples.verse_1_2] VNone.
Proof.
  exact (refinement_filter_commutes (H := Examples.plain_runtime) Examples.store (VStr "1")
           eq_refl).
Defined.

(** X14. With a falsy filter the tagging script emits one request per
    record, in dataset order: a run that returns has as many requests as
    the dataset has records, every record has an id, and the [custom_id]s
    are the ids of the records. *)
Theorem tagging_without_filter `{Runtime} (data : list dict) (surah_filter : value)
    (requests : list value) :
  truthy surah_filter = false ->
  Tags.batch_requests_of data surah_filter = Ok requests ->
  length requests = length data
  /\ map custom_id_of requests = record_ids data
  /\ Forall (fun r => is_Some (dict_lookup r "id")) data.
Proof.
  intros Hfalsy Hrun.
  assert (Hids : map custom_id_of requests = record_ids data).
  { rewrite (tags_custom_ids _ _ _ Hrun). f_equal.
    erewrite filter_ext; [apply filter_all|]. intros r. now apply group_pass_falsy. }
  split; [|split; [exact Hids|]].
  - apply (f_equal length) in Hids. unfold record_ids in Hids.
    now rewrite !length_map in Hids.
  - apply tags_run_result in Hrun. rewrite filter_group_falsy in Hrun by assumption.
    apply List.Forall_forall. intros r Hr.
    apply list_elem_of_In, list_elem_of_lookup in Hr as [i Hi].
    destruct (Forall2_elem_l _ _ _ (i, r) Hrun) as (request & _ & Hrequest).
    { now apply list_elem_of_In, lookup_enumerate. }
    apply tagging_request_inv in Hrequest
      as (target & prompt & id & Htarget & _ & Hid & _).
    cbn [fst] in Htarget. rewrite Hi in Htarget. injection Htarget as <-. eauto.
Qed.

Lemma tagging_without_filter_witness :
  exists requests,
    Tags.batch_requests_of (H := Examples.plain_runtime) Examples.store VNone = Ok requests
    /\ length requests = 3%nat.
Proof.
  eexists. split; [vm_compute; reflexivity|].
  exact (proj1 (tagging_without_filter (H := Examples.plain_runtime) Examples.store VNone
                  _ eq_refl eq_refl)).
Defined.

(** ** Reading a request line back *)

Lemma decode_escape_char (c : ascii) (rest : string) :
  decode_char (escape_char c +:+ rest) = Some (c, rest).
Proof.
  destruct c as [[] [] [] [] [] [] [] []]; reflexivity.
Qed.

Lemma decode_closing_quote (rest : string) : decode_char (dq +:+ rest) = None.
Proof. reflexivity. Qed.

Lemma append_cancel_l (s x y : string) : s +:+ x = s +:+ y -> x = y.
Proof.
  induction s as [|c s IH]; [auto|].
  rewrite !append_cons. intros [= Heq]. now apply IH.
Qed.

Lemma escape_body_delimited (a b x y : string) :
  escape_body a +:+ dq +:+ x = escape_body b +:+ dq +:+ y -> a = b /\ x = y.
Proof.
  revert b. induction a as [|c a IH]; intros [|d b]; cbn [escape_body].
  - intros Heq. split; [reflexivity|]. do 2 apply append_cancel_l in Heq. exact Heq.
  - rewrite append_assoc. intros Heq. apply (f_equal decode_char) in Heq.
    rewrite decode_escape_char in Heq. discriminate.
  - rewrite append_assoc. intros Heq. apply (f_equal decode_char) in Heq.
    rewrite decode_escape_char in Heq. discriminate.
  - rewrite !append_assoc. intros Heq.
    pose proof (f_equal decode_char Heq) as Hfront.
    rewrite !decode_escape_char in Hfront. injection Hfront as -> Hrest.
    destruct (IH _ Hrest) as [-> ->]. auto.
Qed.

Lemma encode_basestring_delimited (a b x y : string) :
  encode_basestring a +:+ x = encode_basestring b +:+ y -> a = b /\ x = y.
Proof.
  unfold encode_basestring. rewrite !append_assoc.
  intros Heq%append_cancel_l. now apply escape_body_delimited.
Qed.

(** X15. The line written for a request tells the requests apart: two
    requests of a script whose ids are strings and whose lines are the
    same text have the same [custom_id] and the same prompt, and two
    strings with the same JSON text are the same string. *)
Theorem request_line_determines_request (a b p q : string) :
  (json_dumps (VStr a) = json_dumps (VStr b) -> a = b)
  /\ (json_dumps (Subtopics.batch_request (VStr a) p)
      = json_dumps (Subtopics.batch_request (VStr b) q) -> a = b /\ p = q)
  /\ (json_dumps (Tags.batch_request (VStr a) p)
      = json_dumps (Tags.batch_request (VStr b) q) -> a = b /\ p = q).
Proof.
  split; [|split].
  - cbn [json_dumps]. intros Heq.
    apply (f_equal (fun s => s +:+ EmptyString)) in Heq.
    now apply encode_basestring_delimited in Heq.
  - unfold Subtopics.batch_request. cbn [json_dumps map fst snd String.concat].
    rewrite !append_assoc. intros Heq.
    repeat apply append_cancel_l in Heq.
    apply encode_basestring_delimited in Heq as [-> Heq].
    repeat apply append_cancel_l in Heq.
    apply encode_basestring_delimited in Heq as [-> _]. auto.
  - unfold Tags.batch_request. cbn [json_dumps map fst snd String.concat].
    rewrite !append_assoc. intros Heq.
    repeat apply append_cancel_l in Heq.
    apply encode_basestring_delimited in Heq as [-> Heq].
    repeat apply append_cancel_l in Heq.
    apply encode_basestring_delimited in Heq as [-> _]. auto.
Qed.

Lemma request_line_determines_request_witness :
  "1|1" = "1|1" /\ "Arabic: نص" = "Arabic: نص".
Proof.
  exact (proj1 (proj2 (request_line_determines_request "1|1" "1|1" "Arabic: نص" "Arabic: نص"))
           eq_refl).
Defined.

(** ** What the prompts read *)

(** X16. A prompt reads a fixed set of fields of the target record: the
    refinement prompt [arabic], [translation1], [translation2],
    [translation3] and [subtopic], the tagging prompt these and [topic].
    Two records that agree on these fields get the same prompt (or the
    same failure); the id and every other field are never shown. *)
Theorem prompt_reads_fixed_fields `{Runtime} (r r' : dict) (prev next : option dict) :
  dict_lookup r' "arabic" = dict_lookup r "arabic" ->
  dict_lookup r' "translation1" = dict_lookup r "translation1" ->
  dict_lookup r' "translation2" = dict_lookup r "translation2" ->
  dict_lookup r' "translation3" = dict_lookup r "translation3" ->
  dict_lookup r' "subtopic" = dict_lookup r "subtopic" ->
  Subtopics.create_prompt r' = Subtopics.create_prompt r
  /\ (dict_lookup r' "topic" = dict_lookup r "topic" ->
      Tags.create_tags_prompt prev r' next = Tags.create_tags_prompt prev r next).
Proof.
  intros Harabic H1 H2 H3 Hsub. split.
  - apply create_prompt_fields; [|assumption|assumption].
    unfold shown_translations, translation_keys, shown. cbn [omap list_omap].
    now rewrite H1, H2, H3.
  - intros Htopic. unfold Tags.create_tags_prompt, Tags.list_str_of, dict_get.
    now rewrite Harabic, H1, H2, H3, Hsub, Htopic.
Qed.

Lemma prompt_reads_fixed_fields_witness :
  Subtopics.create_prompt (H := Examples.plain_runtime)
    (("id", VStr "other") :: Examples.verse_untranslated)
  = Subtopics.create_prompt (H := Examples.plain_runtime) Examples.verse_untranslated.
Proof.
  exact (proj1 (prompt_reads_fixed_fields (H := Examples.plain_runtime)
                  Examples.verse_untranslated
                  (("id", VStr "other") :: Examples.verse_untranslated) None None
                  eq_refl eq_refl eq_refl eq_refl eq_refl)).
Defined.

(** ** The entry points *)

Lemma subtopics_run_files `{Runtime} (fs : files) (input_file output_file path : string)
    (surah_filter : value) :
  path <> output_file ->
  snd (Subtopics.create_batch_file fs input_file output_file surah_filter) !! path
  = fs !! path.
Proof.
  intros Hpath. unfold Subtopics.create_batch_file.
  destruct (Subtopics.load_dataset fs input_file) as [data|]; [|reflexivity].
  destruct (Subtopics.batch_requests_of data surah_filter) as [requests|]; [|reflexivity].
  rewrite write_jsonl_outcome. destruct (writable output_file); [|reflexivity].
  destruct (forallb encodable requests); cbn [snd]; now apply lookup_insert_ne.
Qed.

Lemma tags_run_files `{Runtime} (fs : files) (input_file output_file path : string)
    (surah_filter : value) :
  path <> output_file ->
  snd (Tags.create_batch_file fs input_file output_file surah_filter) !! path
  = fs !! path.
Proof.
  intros Hpath. unfold Tags.create_batch_file.
  destruct (Tags.load_dataset fs input_file) as [data|]; [|reflexivity].
  destruct (Tags.batch_requests_of data surah_filter) as [requests|]; [|reflexivity].
  rewrite write_jsonl_outcome. destruct (writable output_file); [|reflexivity].
  destruct (forallb encodable requests); cbn [snd]; now apply lookup_insert_ne.
Qed.

(** X17. The entry point of either script changes no file but its own
    output file, so never the dataset, and it changes no file at all when
    [dataset.json] does not exist. *)
Theorem main_touches_only_output `{Runtime} (fs : files) :
  (fs !! "dataset.json" = None -> Subtopics.main fs = fs /\ Tags.main fs = fs)
  /\ (forall path,
        path <> "_openai_subtopic_batch_requests.jsonl" ->
        Subtopics.main fs !! path = fs !! path)
  /\ (forall path,
        path <> "tags_batch_requests/Al-Faatiha_openai_tags_batch_requests.jsonl" ->
        Tags.main fs !! path = fs !! path)
  /\ Subtopics.main fs !! "dataset.json" = fs !! "dataset.json"
  /\ Tags.main fs !! "dataset.json" = fs !! "dataset.json".
Proof.
  assert (Hsub : forall path,
             path <> "_openai_subtopic_batch_requests.jsonl" ->
             Subtopics.main fs !! path = fs !! path).
  { intros path Hpath. unfold Subtopics.main.
    destruct (fs !! "dataset.json"); [now apply subtopics_run_files | reflexivity]. }
  assert (Htags : forall path,
             path <> "tags_batch_requests/Al-Faatiha_openai_tags_batch_requests.jsonl" ->
             Tags.main fs !! path = fs !! path).
  { intros path Hpath. unfold Tags.main.
    destruct (fs !! "dataset.json"); [now apply tags_run_files | reflexivity]. }
  split; [|split; [exact Hsub|split; [exact Htags|split]]].
  - intros Hmissing. unfold Subtopics.main, Tags.main. now rewrite Hmissing.
  - now apply Hsub.
  - now apply Htags.
Qed.

Lemma main_touches_only_output_witness :
  Subtopics.main (H := Examples.plain_runtime) ∅ = ∅
  /\ Tags.main (H := Examples.plain_runtime) ∅ = ∅.
Proof.
  exact (proj1 (main_touches_only_output (H := Examples.plain_runtime) ∅) eq_refl).
Defined.

Lemma str_int_not_empty (n : Z) : String.eqb (str_int n) EmptyString = false.
Proof.
  unfold str_int, NilZero.string_of_int, NilZero.string_of_uint.
  destruct (Z.to_int n) as [d|d]; destruct d; reflexivity.
Qed.

Lemma runs_by_truth_and_text `{Runtime} (data : list dict) (f f' : value) :
  truthy f = truthy f' ->
  (truthy f = true -> py_str f = py_str f') ->
  Subtopics.batch_requests_of data f = Subtopics.batch_requests_of data f'
  /\ Tags.batch_requests_of data f = Tags.batch_requests_of data f'.
Proof.
  intros Htruth Htext.
  unfold Subtopics.batch_requests_of, Tags.batch_requests_of,
    Subtopics.filter_verses, Tags.filter_indices.
  rewrite <- Htruth. destruct (truthy f); [|split; reflexivity].
  now rewrite (Htext eq_refl).
Qed.

(** X18. The filter acts through its truth value and its text only: an
    integer filter other than 0 selects like the string of its digits
    (the tagging entry point passes the integer 1), and every falsy
    filter, the empty string and 0 included, selects like no filter. *)
Theorem filter_by_truth_and_text `{Runtime} (data : list dict) (n : Z)
    (surah_filter : value) :
  (n <> 0 ->
   Subtopics.batch_requests_of data (VInt n)
   = Subtopics.batch_requests_of data (VStr (str_int n))
   /\ Tags.batch_requests_of data (VInt n)
      = Tags.batch_requests_of data (VStr (str_int n)))
  /\ (truthy surah_filter = false ->
      Subtopics.batch_requests_of data surah_filter
      = Subtopics.batch_requests_of data VNone
      /\ Tags.batch_requests_of data surah_filter = Tags.batch_requests_of data VNone).
Proof.
  split.
  - intros Hn. apply runs_by_truth_and_text; [|reflexivity].
    cbn [truthy]. rewrite str_int_not_empty.
    destruct (Z.eqb_spec n 0); [contradiction | reflexivity].
  - intros Hfalsy. apply runs_by_truth_and_text; [exact Hfalsy|].
    rewrite Hfalsy. discriminate.
Qed.

Lemma filter_by_truth_and_text_witness :
  Tags.batch_requests_of (H := Examples.plain_runtime) Examples.store (VInt 1)
  = Tags.batch_requests_of (H := Examples.plain_runtime) Examples.store (VStr "1")
  /\ Subtopics.batch_requests_of (H := Examples.plain_runtime) Examples.store (VInt 0)
     = Subtopics.batch_requests_of (H := Examples.plain_runtime) Examples.store VNone.
Proof.
  pose proof (filter_by_truth_and_text (H := Examples.plain_runtime) Examples.store 1 (VInt 0))
    as [Hint Hfalsy].
  split.
  - apply Hint. discriminate.
  - exact (proj1 (Hfalsy eq_refl)).
Defined.
